(** * Music-streaming analytics: feature engineering, funnels, A/B tests

    A shallow embedding of the analysis pipeline of the repository
    ([feature_engineering.py], [funnel_analysis.py], [ab_framework.py])
    together with the properties its specification states about it.

    Conventions.
    - A pandas DataFrame is a list of rows; a frame keyed by [user_id]
      is a list of pairs [(user_id, columns)].
    - A [datetime64[ns]] value is a [Z]: nanoseconds since the Unix epoch.
      A [datetime.date] is the day number since the epoch.
    - A Python [float] is a rational number, and the non-finite values
      are written [None] where the code can produce them. The statistics
      are computed exactly, and the theorems about them state orders,
      bounds and identities of counts only; the split index of the random
      assignment, which is truncated to an integer, is computed with the
      rounding of a double ([round64]) and fails where the double would
      be an infinity.
    - A call that can raise returns a [Result]; a method that also
      changes its object or a table of its caller returns the outcome
      together with the state afterwards, which an exception raised
      before the assignment leaves as it was.
    - Calls into NumPy's generator, SciPy's distributions and the pandas
      date parser are fields of the interface classes below. *)

From Stdlib Require Import ZArith QArith Qround Qabs Qpower Lqa Lia.
From stdpp Require Import base decidable option list sorting strings gmap.

Local Open Scope Z_scope.

(** ** Outcomes of Python calls *)

Module Python.

(** The exceptions the modelled code raises. *)
Inductive Exception :=
  KeyError | TypeError | ValueError | ZeroDivisionError | OverflowError.

#[global] Instance Exception_eq_dec : EqDecision Exception.
Proof. solve_decision. Defined.

(** The outcome of a call: the value returned, or the exception raised. *)
Inductive Result (A : Type) : Type :=
  | Return (a : A)
  | Raise (e : Exception).
Arguments Return {A}.
Arguments Raise {A}.

End Python.

(** ** Pandas-style table primitives *)

Module Pandas.

(** Order of the group keys: [str] comparison. *)
Definition str_le (a b : string) : Prop := Is_true (String.leb a b).

#[global] Instance str_le_dec (a b : string) : Decision (str_le a b).
Proof. unfold str_le. apply _. Defined.

(** [Series.unique] followed by the key sort of [groupby]. *)
Definition sorted_keys (keys : list string) : list string :=
  merge_sort str_le (remove_dups keys).

(** [df.groupby(key)]: one group per distinct key, keys ascending, each
    group holding the rows of that key in table order. *)
Definition groupby {A} (key : A → string) (rows : list A)
  : list (string * list A) :=
  (λ k, (k, filter (λ r, key r = k) rows)) <$> sorted_keys (key <$> rows).

(** [Series.nunique]. *)
Definition nunique `{EqDecision K} (xs : list K) : Z :=
  Z.of_nat (length (remove_dups xs)).

(** Rows of a keyed frame under one key. *)
Definition rows_of {B} (k : string) (frame : list (string * B)) : list B :=
  snd <$> filter (λ kb, kb.1 = k) frame.

(** [left.merge(right, on='user_id', how='left')]: every left row, once
    per matching right row, or once with missing right columns. *)
Definition merge_left {A B} (left : list (string * A))
    (right : list (string * B)) : list (string * (A * option B)) :=
  left ≫= λ '(k, a),
    match rows_of k right with
    | [] => [(k, (a, None))]
    | bs => (λ b, (k, (a, Some b))) <$> bs
    end.

(** [left.merge(right, on='user_id', how='outer')]: the union of the keys
    in ascending order; matching rows are paired, the others keep
    missing columns on the absent side. *)
Definition merge_outer {A B} (left : list (string * A))
    (right : list (string * B)) : list (string * (option A * option B)) :=
  sorted_keys ((fst <$> left) ++ (fst <$> right)) ≫= λ k,
    match rows_of k left, rows_of k right with
    | [], bs => (λ b, (k, (None, Some b))) <$> bs
    | as_, [] => (λ a, (k, (Some a, None))) <$> as_
    | as_, bs => as_ ≫= λ a, (λ b, (k, (Some a, Some b))) <$> bs
    end.

(** [Series.clip(lo, hi)] on one value. *)
Definition clip (lo hi x : Q) : Q :=
  if Qlt_le_dec x lo then lo else if Qlt_le_dec hi x then hi else x.

(** Sum and mean of a numeric column; the mean of no value is missing. *)
Definition sumQ (xs : list Q) : Q := foldr Qplus 0%Q xs.
Definition sumZ (xs : list Z) : Z := foldr Z.add 0 xs.

Definition mean (xs : list Q) : option Q :=
  match xs with
  | [] => None
  | _ => Some (sumQ xs / inject_Z (Z.of_nat (length xs)))%Q
  end.

(** Number of rows satisfying a boolean mask: [(mask).sum()]. *)
Definition count_where {A} (p : A → bool) (rows : list A) : Z :=
  Z.of_nat (length (List.filter p rows)).

End Pandas.

(** ** Timestamps *)

Module Time.

Definition NS_PER_SECOND : Z := 1000000000.
Definition NS_PER_HOUR : Z := 3600 * NS_PER_SECOND.
Definition NS_PER_DAY : Z := 24 * NS_PER_HOUR.

(** [Timedelta.days]: whole days, rounded towards minus infinity. *)
Definition timedelta_days (delta : Z) : Z := delta / NS_PER_DAY.

(** [Series.dt.date] as a day number. *)
Definition date (t : Z) : Z := t / NS_PER_DAY.

(** [Series.dt.hour]. *)
Definition hour (t : Z) : Z := (t / NS_PER_HOUR) mod 24.

(** [Series.dt.dayofweek], Monday = 0; day 0 was a Thursday. *)
Definition dayofweek (t : Z) : Z := (date t + 3) mod 7.

(** Civil year of a day number, and the day number of a year's first
    day (proleptic Gregorian calendar). *)
Definition days_before_year (y : Z) : Z :=
  let p := y - 1 in 365 * p + p / 4 - p / 100 + p / 400 - 719162.

Definition year_of_day (d : Z) : Z :=
  let guess := (d + 719162) / 365 + 1 in
  let fix back (fuel : nat) (y : Z) : Z :=
    match fuel with
    | O => y
    | S fuel' => if d <? days_before_year y then back fuel' (y - 1) else y
    end in
  back 4%nat guess.

(** [Series.dt.isocalendar().week]: the week, in its ISO year, of the
    Thursday of the date's week. *)
Definition isocalendar_week (t : Z) : Z :=
  let d := date t in
  let thursday := d - (d + 3) mod 7 + 3 in
  (thursday - days_before_year (year_of_day thursday)) / 7 + 1.

(** A cell of a timestamp column before [pd.to_datetime]: text still to
    be parsed, or a datetime. *)
Inductive TimestampValue : Type :=
  | TsText (s : string)
  | TsDatetime (t : Z).

#[global] Instance TimestampValue_eq_dec : EqDecision TimestampValue.
Proof. solve_decision. Defined.

Definition is_datetime (v : TimestampValue) : bool :=
  match v with TsDatetime _ => true | TsText _ => false end.

(** The parser behind [pd.to_datetime]. *)
Class DateParser := { parse_datetime : string → Z }.

Definition to_datetime `{DateParser} (v : TimestampValue) : Z :=
  match v with
  | TsText s => parse_datetime s
  | TsDatetime t => t
  end.

End Time.

(** ** Interfaces of the numeric libraries *)

(** NumPy's transcendental functions on floats. *)
Class NumericLib := {
  np_sqrt : Q → Q;
  np_log2 : Q → Q;
  np_log1p : Q → Q;
  np_sqrt_nonneg : ∀ x, (0 <= np_sqrt x)%Q
}.

(** ** The input tables *)

Module Tables.

(** A row of the sessions table; [T] is the type of the cells of its
    [timestamp] column. *)
Record SessionRow (T : Type) := mkSession {
  session_id : string;
  user_id : string;
  track_id : string;
  timestamp : T;
  listen_duration_ms : Z;
  track_duration_ms : Z;
  skipped : bool;
  context : string;
  device : string
}.
Arguments mkSession {T}.
Arguments session_id {T}.
Arguments user_id {T}.
Arguments track_id {T}.
Arguments timestamp {T}.
Arguments listen_duration_ms {T}.
Arguments track_duration_ms {T}.
Arguments skipped {T}.
Arguments context {T}.
Arguments device {T}.

(** Replace the timestamp column of one row. *)
Definition with_timestamp {T U} (f : T → U) (s : SessionRow T) : SessionRow U :=
  mkSession (session_id s) (user_id s) (track_id s) (f (timestamp s))
    (listen_duration_ms s) (track_duration_ms s) (skipped s) (context s)
    (device s).

(** A row of the users table; [T] is the type of [signup_date]. *)
Record UserRow (T : Type) := mkUser {
  usr_user_id : string;
  signup_date : T;
  tier : string;
  country : string;
  age_group : string
}.
Arguments mkUser {T}.
Arguments usr_user_id {T}.
Arguments signup_date {T}.
Arguments tier {T}.
Arguments country {T}.
Arguments age_group {T}.

Definition with_signup_date {T U} (f : T → U) (u : UserRow T) : UserRow U :=
  mkUser (usr_user_id u) (f (signup_date u)) (tier u) (country u)
    (age_group u).

Record TrackRow := mkTrack {
  trk_track_id : string;
  tempo : Q;
  energy : Q;
  danceability : Q;
  valence : Q;
  acousticness : Q;
  genre : string;
  duration_ms : Z
}.

Record PlaylistTrackRow := mkPlaylistTrack {
  playlist_id : string;
  pt_track_id : string
}.

#[global] Instance SessionRow_eq_dec `{EqDecision T} : EqDecision (SessionRow T).
Proof. solve_decision. Defined.

End Tables.

(** ** Feature engineering ([feature_engineering.py]) *)

Module FeatureEngineering.
Import Python Pandas Time Tables.

(** *** Listening streaks *)

Record StreakFeatures := mkStreak {
  current_streak : Z;
  max_streak : Z;
  avg_streak : Q;
  streak_count : Z;
  active_days : Z;
  active_days_ratio : Q
}.

(** [sorted(set(dates))]. *)
Definition sorted_dates (dates : list Z) : list Z :=
  merge_sort Z.le (remove_dups dates).

(** The loop [for i in range(1, len(dates))]: [prev] is [dates[i-1]],
    [rest] the dates from index [i] on. *)
Fixpoint streak_loop (prev : Z) (rest : list Z) (current_streak : Z)
    (streaks : list Z) : list Z * Z :=
  match rest with
  | [] => (streaks, current_streak)
  | d :: rest' =>
      if d - prev =? 1
      then streak_loop d rest' (current_streak + 1) streaks
      else streak_loop d rest' 1 (streaks ++ [current_streak])
  end.

(** The list [streaks] after the final [streaks.append(current_streak)];
    [dates] is not empty there. *)
Definition compute_streaks (dates : list Z) : list Z :=
  match dates with
  | [] => []
  | d0 :: rest =>
      let '(streaks, current_streak) := streak_loop d0 rest 1 [] in
      streaks ++ [current_streak]
  end.

Definition list_max (xs : list Z) : Z :=
  match xs with
  | [] => 0
  | x :: xs' => foldl Z.max x xs'
  end.

Definition list_min (xs : list Z) : Z :=
  match xs with
  | [] => 0
  | x :: xs' => foldl Z.min x xs'
  end.

Definition Qratio (a b : Z) : Q := (inject_Z a / inject_Z b)%Q.

(** The feature row of one user, from the user's sorted distinct dates. *)
Definition streak_features_of_dates (dates : list Z) : StreakFeatures :=
  match dates with
  | [] => mkStreak 0 0 0 0 0 0
  | _ =>
      let streaks := compute_streaks dates in
      let date_range := list_max dates - list_min dates + 1 in
      let nonempty := negb (bool_decide (streaks = [])) in
      mkStreak
        (if nonempty then List.last streaks 0 else 0)
        (if nonempty then list_max streaks else 0)
        (if nonempty
         then Qratio (sumZ streaks) (Z.of_nat (length streaks)) else 0%Q)
        (Z.of_nat (length streaks))
        (Z.of_nat (length dates))
        (if 0 <? date_range
         then Qratio (Z.of_nat (length dates)) date_range else 0%Q)
  end.

Definition _create_listening_streak_features (sessions : list (SessionRow Z))
  : list (string * StreakFeatures) :=
  (λ '(u, rows),
     (u, streak_features_of_dates
           (sorted_dates ((λ s, date (timestamp s)) <$> rows))))
  <$> groupby user_id sessions.

(** *** Temporal patterns *)

Inductive TimeBucket := night | morning | afternoon | evening.

#[global] Instance TimeBucket_eq_dec : EqDecision TimeBucket.
Proof. solve_decision. Defined.

(** The label of the first interval [(lo, hi]] containing [x];
    [pd.cut] closes its intervals on the right by default. *)
Fixpoint cut {L} (x lo : Z) (edges : list (Z * L)) : option L :=
  match edges with
  | [] => None
  | (hi, label) :: edges' =>
      if (lo <? x) && (x <=? hi) then Some label
      else cut x hi edges'
  end.

(** [pd.cut(hour, bins=[-1, 6, 12, 18, 24], labels=[...])]. *)
Definition time_bucket (hour : Z) : option TimeBucket :=
  cut hour (-1) [(6, night); (12, morning); (18, afternoon); (24, evening)].

Record TemporalFeatures := mkTemporal {
  night_ratio : Q;
  morning_ratio : Q;
  afternoon_ratio : Q;
  evening_ratio : Q;
  weekend_ratio : Q;
  peak_hour : Z;
  hour_entropy : Q
}.

Definition count_hour (h : Z) (hours : list Z) : Z :=
  count_where (λ x, x =? h) hours.

(** [x.mode().iloc[0]]: the smallest of the most frequent values. *)
Definition mode_or (default : Z) (hours : list Z) : Z :=
  match merge_sort Z.le (remove_dups hours) with
  | [] => default
  | h0 :: hs =>
      foldl (λ best h,
               if count_hour best hours <? count_hour h hours
               then h else best) h0 hs
  end.

(** Shannon entropy of the hour histogram of one user. *)
Definition entropy_of_counts `{NumericLib} (counts : list Z) : Q :=
  let total := sumZ counts in
  (- sumQ ((λ c, let p := Qratio c total in
                 p * np_log2 (if Qeq_bool p 0 then 1 else p))
           <$> counts))%Q.

Definition temporal_features_of `{NumericLib} (rows : list (SessionRow Z))
  : TemporalFeatures :=
  let hours := (λ s, hour (timestamp s)) <$> rows in
  let user_count := Z.of_nat (length rows) in
  let ratio b :=
    Qratio (count_where (λ h, bool_decide (time_bucket h = Some b)) hours)
           user_count in
  mkTemporal (ratio night) (ratio morning) (ratio afternoon) (ratio evening)
    (Qratio (count_where (λ s, 5 <=? dayofweek (timestamp s)) rows)
            user_count)
    (mode_or 12 hours)
    (entropy_of_counts
       ((λ h, count_hour h hours) <$> merge_sort Z.le (remove_dups hours))).

Definition _create_temporal_features `{NumericLib}
    (sessions : list (SessionRow Z)) : list (string * TemporalFeatures) :=
  (λ '(u, rows), (u, temporal_features_of rows)) <$> groupby user_id sessions.

(** *** Sessions joined with their tracks *)

(** [sessions.merge(tracks[...], on='track_id', how='left')]. *)
Definition merge_tracks (sessions : list (SessionRow Z))
    (tracks : list TrackRow) : list (SessionRow Z * option TrackRow) :=
  snd <$> merge_left ((λ s, (track_id s, s)) <$> sessions)
                     ((λ t, (trk_track_id t, t)) <$> tracks).

Definition swt_user_id (r : SessionRow Z * option TrackRow) : string :=
  user_id r.1.

(** Mean and sample standard deviation of a column with missing cells,
    which pandas skips. *)
Definition nanmean (xs : list (option Q)) : option Q := mean (omap id xs).

Definition std `{NumericLib} (xs : list Q) : option Q :=
  match mean xs with
  | Some m =>
      if decide (length xs < 2)%nat then None
      else Some (np_sqrt (sumQ ((λ x, (x - m) * (x - m))%Q <$> xs)
                          / inject_Z (Z.of_nat (length xs) - 1)))
  | None => None
  end.

Definition nanstd `{NumericLib} (xs : list (option Q)) : option Q :=
  std (omap id xs).

Definition bool_mean {A} (p : A → bool) (rows : list A) : Q :=
  Qratio (count_where p rows) (Z.of_nat (length rows)).

(** *** Genre diversity *)

Record GenreFeatures := mkGenre {
  genre_entropy : Q;
  genre_count : Z;
  top_genre_ratio : Q;
  genre_exploration_rate : Q;
  genre_concentration : Q
}.

Definition genre_features_of `{NumericLib} (counts : list Z) : GenreFeatures :=
  let total := sumZ counts in
  if total =? 0 then mkGenre 0 0 0 0 1
  else
    let probs :=
      List.filter (λ p, negb (Qle_bool p 0))
                  ((λ c, Qratio c total) <$> counts) in
    let several := (1 <? Z.of_nat (length probs)) in
    mkGenre
      (if several then (- sumQ ((λ p, p * np_log2 p) <$> probs))%Q else 0%Q)
      (count_where (λ c, 0 <? c) counts)
      (Qratio (list_max counts) total)
      (if several
       then bool_mean (λ p, negb (Qle_bool (5 # 100) p)) probs else 0%Q)
      (sumQ ((λ p, p * p)%Q <$> probs)).

(** Rows whose track is unknown have no genre and are dropped by the
    [groupby]; the genre columns are those of the whole table. *)
Definition _create_genre_diversity_features `{NumericLib}
    (sessions : list (SessionRow Z * option TrackRow))
  : list (string * GenreFeatures) :=
  let known : list (string * string) :=
    omap (λ r, (λ t, (user_id r.1, genre t)) <$> r.2) sessions in
  let genres := sorted_keys (snd <$> known) in
  (λ '(u, rows),
     (u, genre_features_of
           ((λ g, count_where (λ r : string * string, bool_decide (r.2 = g))
                              rows) <$> genres)))
  <$> groupby fst known.

(** *** Playlist behaviour *)

Record PlaylistFeatures := mkPlaylist {
  playlist_session_ratio : Q;
  playlist_track_count : Z;
  playlist_skip_rate : Q;
  playlist_completion_tendency : Q
}.

Definition is_playlist (s : SessionRow Z) : bool :=
  bool_decide (context s = "playlist"%string).

Definition playlist_features_of (rows : list (SessionRow Z))
  : PlaylistFeatures :=
  let total := Z.of_nat (length rows) in
  let playlist_rows := List.filter is_playlist rows in
  let playlist_count := Z.of_nat (length playlist_rows) in
  let skip_rate :=
    match playlist_rows with
    | [] => 0%Q
    | _ => bool_mean skipped playlist_rows
    end in
  mkPlaylist (if 0 <? total then Qratio playlist_count total else 0%Q)
    playlist_count skip_rate (1 - skip_rate)%Q.

Definition _create_playlist_behavior_features
    (sessions : list (SessionRow Z)) : list (string * PlaylistFeatures) :=
  (λ '(u, rows), (u, playlist_features_of rows)) <$> groupby user_id sessions.

(** *** Session statistics *)

Record SessionFeatures := mkSessionF {
  total_listen_time_ms : Z;
  avg_listen_duration_ms : Q;
  std_listen_duration_ms : option Q;
  avg_track_duration_ms : Q;
  skip_rate : Q;
  total_skips : Z;
  session_count : Z;
  unique_tracks : Z;
  avg_listen_ratio : option Q;
  avg_tracks_per_session : Q;
  total_listen_hours : Q
}.

(** [(a / b).clip(0, 1)] on floats: a zero divisor gives an infinity,
    which is clipped, or no number at all. *)
Definition clipped_ratio (a b : Q) : option Q :=
  if Qeq_bool b 0
  then (if Qeq_bool a 0 then None
        else if Qle_bool 0 a then Some 1%Q else Some 0%Q)
  else Some (clip 0 1 (a / b)).

Definition session_features_of `{NumericLib}
    (rows : list (SessionRow Z * option TrackRow)) : SessionFeatures :=
  let n := Z.of_nat (length rows) in
  let listen := (λ r, listen_duration_ms r.1) <$> rows in
  let avg_listen := Qratio (sumZ listen) n in
  let avg_track := Qratio (sumZ ((λ r, track_duration_ms r.1) <$> rows)) n in
  let sessions_n := nunique ((λ r, session_id r.1) <$> rows) in
  mkSessionF (sumZ listen) avg_listen (std (inject_Z <$> listen)) avg_track
    (bool_mean (λ r, skipped r.1) rows)
    (count_where (λ r, skipped r.1) rows)
    sessions_n
    (nunique ((λ r, track_id r.1) <$> rows))
    (clipped_ratio avg_listen avg_track)
    (Qratio n sessions_n)
    (inject_Z (sumZ listen) / inject_Z (1000 * 60 * 60))%Q.

Definition _create_session_features `{NumericLib}
    (sessions : list (SessionRow Z * option TrackRow))
  : list (string * SessionFeatures) :=
  (λ '(u, rows), (u, session_features_of rows))
  <$> groupby swt_user_id sessions.

(** *** Audio preferences *)

Record AudioStat := mkAudioStat { pref : option Q; variance : Q }.

Record AudioFeatures := mkAudio {
  tempo_stat : AudioStat;
  energy_stat : AudioStat;
  danceability_stat : AudioStat;
  valence_stat : AudioStat;
  acousticness_stat : AudioStat;
  high_energy_ratio : Q;
  mellow_music_ratio : Q
}.

Definition audio_stat `{NumericLib} (col : TrackRow → Q)
    (rows : list (SessionRow Z * option TrackRow)) : AudioStat :=
  let cells : list (option Q) :=
    (λ r : SessionRow Z * option TrackRow, col <$> r.2) <$> rows in
  mkAudioStat (nanmean cells) (default 0%Q (nanstd cells)).

Definition audio_features_of `{NumericLib}
    (rows : list (SessionRow Z * option TrackRow)) : AudioFeatures :=
  mkAudio (audio_stat tempo rows) (audio_stat energy rows)
    (audio_stat danceability rows) (audio_stat valence rows)
    (audio_stat acousticness rows)
    (bool_mean (λ r : SessionRow Z * option TrackRow,
                  match r.2 with
                     | Some t => negb (Qle_bool (energy t) (7 # 10))
                     | None => false
                     end) rows)
    (bool_mean (λ r : SessionRow Z * option TrackRow,
                  match r.2 with
                     | Some t => negb (Qle_bool (4 # 10) (energy t))
                                 && negb (Qle_bool (acousticness t) (5 # 10))
                     | None => false
                     end) rows).

Definition _create_audio_preference_features `{NumericLib}
    (sessions : list (SessionRow Z * option TrackRow))
  : list (string * AudioFeatures) :=
  (λ '(u, rows), (u, audio_features_of rows))
  <$> groupby swt_user_id sessions.

(** *** Engagement *)

Record EngagementFeatures := mkEngagement {
  days_since_first_listen : Z;
  days_since_last_listen : Z;
  avg_daily_sessions : Q;
  engagement_score : Q;
  total_events : Z
}.

Definition engagement_features_of `{NumericLib} (current_date : Z)
    (rows : list (SessionRow Z)) : EngagementFeatures :=
  let stamps := timestamp <$> rows in
  let first_listen := list_min stamps in
  let last_listen := list_max stamps in
  let total := Z.of_nat (length rows) in
  let since_last := timedelta_days (current_date - last_listen) in
  let span := timedelta_days (last_listen - first_listen) + 1 in
  let avg_daily := clip 0 100 (Qratio total span) in
  let recency_score := (1 - clip 0 1 (inject_Z since_last / 365))%Q in
  let frequency_score := clip 0 1 (avg_daily / 10) in
  let volume_score := clip 0 1 (np_log1p (inject_Z total) / 10) in
  mkEngagement (timedelta_days (current_date - first_listen)) since_last
    avg_daily
    (recency_score * (3 # 10) + frequency_score * (4 # 10)
     + volume_score * (3 # 10))%Q
    total.

Definition _create_engagement_features `{NumericLib}
    (sessions : list (SessionRow Z)) : list (string * EngagementFeatures) :=
  let current_date := list_max (timestamp <$> sessions) in
  (λ '(u, rows), (u, engagement_features_of current_date rows))
  <$> groupby user_id sessions.

(** *** The combined feature table *)

(** A row of [all_features] while the groups are being merged: a group
    that has no row for the user leaves its columns missing. *)
Record MergedRow := mkMerged {
  m_streak : option StreakFeatures;
  m_genre : option GenreFeatures;
  m_playlist : option PlaylistFeatures;
  m_session : option SessionFeatures;
  m_temporal : option TemporalFeatures;
  m_audio : option AudioFeatures;
  m_engagement : option EngagementFeatures
}.

Definition no_columns : MergedRow :=
  mkMerged None None None None None None None.

(** [all_features.merge(group, on='user_id', how='outer')], the new
    columns being stored by [set]. *)
Definition merge_group {G} (set : MergedRow → option G → MergedRow)
    (all_features : list (string * MergedRow)) (group : list (string * G))
  : list (string * MergedRow) :=
  (λ '(u, (row, g)), (u, set (default no_columns row) g))
  <$> merge_outer all_features group.

(** The demographic columns taken from the users table. *)
Record Demographics := mkDemo {
  d_tier : string;
  d_country : string;
  d_age_group : string
}.

Definition tier_map (t : string) : option Q :=
  if String.eqb t "free" then Some 0%Q
  else if String.eqb t "student" then Some 1%Q
  else if String.eqb t "premium" then Some 2%Q
  else if String.eqb t "family" then Some 3%Q
  else None.

Definition age_map (a : string) : option Q :=
  if String.eqb a "18-24" then Some 0%Q
  else if String.eqb a "25-34" then Some 1%Q
  else if String.eqb a "35-44" then Some 2%Q
  else if String.eqb a "45-54" then Some 3%Q
  else if String.eqb a "55+" then Some 4%Q
  else None.

(** A row of the returned table: every numeric column is filled. *)
Record FeatureRow := mkFeatureRow {
  streak : StreakFeatures;
  genre_diversity : GenreFeatures;
  playlist : PlaylistFeatures;
  session : SessionFeatures;
  temporal : TemporalFeatures;
  audio : AudioFeatures;
  engagement : EngagementFeatures;
  demographics : option Demographics;
  tier_encoded : Q;
  age_group_encoded : Q;
  country_frequency : Q
}.

(** [fillna(0)] on the numeric columns of each group. *)
Definition filled (x : option Q) : option Q := Some (default 0%Q x).

Definition fill_session (f : SessionFeatures) : SessionFeatures :=
  mkSessionF (total_listen_time_ms f) (avg_listen_duration_ms f)
    (filled (std_listen_duration_ms f)) (avg_track_duration_ms f)
    (skip_rate f) (total_skips f) (session_count f) (unique_tracks f)
    (filled (avg_listen_ratio f)) (avg_tracks_per_session f)
    (total_listen_hours f).

Definition fill_stat (a : AudioStat) : AudioStat :=
  mkAudioStat (filled (pref a)) (variance a).

Definition fill_audio (f : AudioFeatures) : AudioFeatures :=
  mkAudio (fill_stat (tempo_stat f)) (fill_stat (energy_stat f))
    (fill_stat (danceability_stat f)) (fill_stat (valence_stat f))
    (fill_stat (acousticness_stat f)) (high_energy_ratio f)
    (mellow_music_ratio f).

Definition zero_stat : AudioStat := mkAudioStat (Some 0%Q) 0.

(** [_encode_categorical_features] and the final [fillna(0)], on one row
    of the merged table; [countries] is the whole [country] column. *)
Definition encode_and_fill (countries : list (option string))
    (row : MergedRow * option Demographics) : FeatureRow :=
  let '(m, demo) := row in
  let known := omap id countries in
  mkFeatureRow
    (default (mkStreak 0 0 0 0 0 0) (m_streak m))
    (default (mkGenre 0 0 0 0 0) (m_genre m))
    (default (mkPlaylist 0 0 0 0) (m_playlist m))
    (fill_session
       (default (mkSessionF 0 0 None 0 0 0 0 0 None 0 0) (m_session m)))
    (default (mkTemporal 0 0 0 0 0 0 0) (m_temporal m))
    (fill_audio
       (default (mkAudio zero_stat zero_stat zero_stat zero_stat zero_stat
                         0 0) (m_audio m)))
    (default (mkEngagement 0 0 0 0 0) (m_engagement m))
    demo
    (default 0%Q (demo ≫= λ d, tier_map (d_tier d)))
    (default 1%Q (demo ≫= λ d, age_map (d_age_group d)))
    (match demo with
     | Some d =>
         Qratio (count_where (λ c, bool_decide (c = d_country d)) known)
                (Z.of_nat (length known))
     | None => 1 # 10
     end).

(** The caller's three tables; [create_all_features] receives references
    to them. *)
Record Caller := mkCaller {
  sessions_df : list (SessionRow TimestampValue);
  users_df : list (UserRow TimestampValue);
  tracks_df : list TrackRow
}.

(** [pd.api.types.is_datetime64_any_dtype(sessions['timestamp'])]. *)
Definition is_datetime64_any_dtype (col : list TimestampValue) : bool :=
  forallb is_datetime col.

(** The statement [sessions['timestamp'] = pd.to_datetime(...)], which
    assigns a column of the table the caller passed in. *)
Definition assign_timestamp `{DateParser} (caller : Caller) : Caller :=
  mkCaller
    (with_timestamp (λ v, TsDatetime (to_datetime v)) <$> sessions_df caller)
    (users_df caller) (tracks_df caller).

(** [FeatureEngineer.create_all_features]: the outcome and the caller's
    tables after the call. The streak, genre and playlist frames are
    built from lists of records, so an empty one has no [user_id]
    column and the merge on it raises [KeyError]; this is the case when
    no session plays a track of the tracks table. *)
Definition create_all_features `{DateParser, NumericLib} (caller : Caller)
  : Result (list (string * FeatureRow)) * Caller :=
  let caller :=
    if is_datetime64_any_dtype (timestamp <$> sessions_df caller)
    then caller else assign_timestamp caller in
  let sessions := with_timestamp to_datetime <$> sessions_df caller in
  let sessions_with_tracks := merge_tracks sessions (tracks_df caller) in
  let streak_features := _create_listening_streak_features sessions in
  let genre_features :=
    _create_genre_diversity_features sessions_with_tracks in
  let playlist_features := _create_playlist_behavior_features sessions in
  let session_features := _create_session_features sessions_with_tracks in
  let temporal_features := _create_temporal_features sessions in
  let audio_features :=
    _create_audio_preference_features sessions_with_tracks in
  let engagement_features := _create_engagement_features sessions in
  let all_features :=
    (λ '(u, f), (u, mkMerged (Some f) None None None None None None))
    <$> streak_features in
  let all_features :=
    merge_group (λ m g, mkMerged (m_streak m) g (m_playlist m) (m_session m)
                          (m_temporal m) (m_audio m) (m_engagement m))
                all_features genre_features in
  let all_features :=
    merge_group (λ m g, mkMerged (m_streak m) (m_genre m) g (m_session m)
                          (m_temporal m) (m_audio m) (m_engagement m))
                all_features playlist_features in
  let all_features :=
    merge_group (λ m g, mkMerged (m_streak m) (m_genre m) (m_playlist m) g
                          (m_temporal m) (m_audio m) (m_engagement m))
                all_features session_features in
  let all_features :=
    merge_group (λ m g, mkMerged (m_streak m) (m_genre m) (m_playlist m)
                          (m_session m) g (m_audio m) (m_engagement m))
                all_features temporal_features in
  let all_features :=
    merge_group (λ m g, mkMerged (m_streak m) (m_genre m) (m_playlist m)
                          (m_session m) (m_temporal m) g (m_engagement m))
                all_features audio_features in
  let all_features :=
    merge_group (λ m g, mkMerged (m_streak m) (m_genre m) (m_playlist m)
                          (m_session m) (m_temporal m) (m_audio m) g)
                all_features engagement_features in
  let with_users :=
    merge_left all_features
      ((λ u, (usr_user_id u, mkDemo (tier u) (country u) (age_group u)))
       <$> users_df caller) in
  let countries :=
    (λ r : string * (MergedRow * option Demographics),
       d_country <$> r.2.2) <$> with_users in
  (match streak_features, genre_features, playlist_features with
   | _ :: _, _ :: _, _ :: _ =>
       Return ((λ '(u, row), (u, encode_and_fill countries row))
               <$> with_users)
   | _, _, _ => Raise KeyError
   end, caller).

End FeatureEngineering.

(** ** Skip-prediction features ([create_skip_prediction_features]) *)

Module SkipPrediction.
Import Pandas Time Tables FeatureEngineering.
Local Open Scope string_scope.
Local Open Scope Z_scope.
Local Open Scope list_scope.

(** A row of the tracks table, with the audio columns that
    [create_skip_prediction_features] selects. *)
Record TrackAudio := mkTrackAudio {
  ta_track_id : string;
  ta_tempo : Q;
  ta_energy : Q;
  ta_danceability : Q;
  ta_valence : Q;
  ta_acousticness : Q;
  ta_instrumentalness : Q;
  ta_liveness : Q;
  ta_speechiness : Q;
  ta_loudness : Q
}.

(** A row of the feature matrix [X]. The one-hot columns of a row are
    listed with their names, in column order. *)
Record SkipFeatures := mkSkipFeatures {
  sf_tempo : Q;
  sf_energy : Q;
  sf_danceability : Q;
  sf_valence : Q;
  sf_acousticness : Q;
  sf_instrumentalness : Q;
  sf_liveness : Q;
  sf_speechiness : Q;
  sf_loudness : Q;
  sf_hour : Z;
  is_weekend : Z;
  is_morning : Z;
  is_evening : Z;
  user_historical_skip_rate : Q;
  user_listen_count : Z;
  track_skip_rate : Q;
  context_columns : list (string * bool);
  device_columns : list (string * bool)
}.

(** [sessions.merge(tracks, on='track_id', how='left')]. *)
Definition merge_track_audio (sessions : list (SessionRow Z))
    (tracks : list TrackAudio) : list (SessionRow Z * option TrackAudio) :=
  snd <$> merge_left ((λ s, (track_id s, s)) <$> sessions)
                     ((λ t, (ta_track_id t, t)) <$> tracks).

(** One row of [pd.get_dummies(column, prefix=prefix)]: a column per
    distinct value, in ascending order. *)
Definition get_dummies (prefix : string) (categories : list string)
    (value : string) : list (string * bool) :=
  (λ c, (prefix +:+ "_" +:+ c, bool_decide (value = c))) <$> categories.

(** A cell of an audio column after [fillna(0)]. *)
Definition audio_cell (col : TrackAudio → Q) (t : option TrackAudio) : Q :=
  default 0%Q (col <$> t).

(** [create_skip_prediction_features]: the matrix [X], the labels [y],
    and the [user_id] and [session_id] columns. The timestamps are
    datetimes: the function reads them through [.dt] without converting
    them. The historical rates of a row are the means over all rows of
    the joined table with the same user, or the same track. *)
Definition create_skip_prediction_features (sessions : list (SessionRow Z))
    (tracks : list TrackAudio)
  : list SkipFeatures * list Z * list string * list string :=
  let df := merge_track_audio sessions tracks in
  let contexts := sorted_keys ((λ r, context r.1) <$> df) in
  let devices := sorted_keys ((λ r, device r.1) <$> df) in
  let X :=
    (λ r : SessionRow Z * option TrackAudio,
       let h := hour (timestamp r.1) in
       let day_of_week := dayofweek (timestamp r.1) in
       let of_user :=
         filter (λ r' : SessionRow Z * option TrackAudio,
                   user_id r'.1 = user_id r.1) df in
       let of_track :=
         filter (λ r' : SessionRow Z * option TrackAudio,
                   track_id r'.1 = track_id r.1) df in
       mkSkipFeatures
         (audio_cell ta_tempo r.2) (audio_cell ta_energy r.2)
         (audio_cell ta_danceability r.2) (audio_cell ta_valence r.2)
         (audio_cell ta_acousticness r.2)
         (audio_cell ta_instrumentalness r.2) (audio_cell ta_liveness r.2)
         (audio_cell ta_speechiness r.2) (audio_cell ta_loudness r.2)
         h
         (Z.b2z (5 <=? day_of_week))
         (Z.b2z ((6 <=? h) && (h <? 12)))
         (Z.b2z ((18 <=? h) && (h <? 24)))
         (bool_mean (λ r', skipped r'.1) of_user)
         (Z.of_nat (length of_user))
         (bool_mean (λ r', skipped r'.1) of_track)
         (get_dummies "context" contexts (context r.1))
         (get_dummies "device" devices (device r.1)))
    <$> df in
  (X, (λ r, Z.b2z (skipped r.1)) <$> df, (λ r, user_id r.1) <$> df,
   (λ r, session_id r.1) <$> df).

End SkipPrediction.

(** ** Funnel analysis ([funnel_analysis.py]) *)

(** NumPy's global generator. Its state is global to the process, so
    the functions that draw from it take the state and return the new one. *)
Class RandomState := {
  rng : Type;
  (** [np.random.seed(s)] for a seed that NumPy accepts,
      [0 <= s < 2 ^ 32]: the state afterwards. Another seed raises
      [ValueError] and leaves the state as it was, which is the caller's
      part. *)
  np_seed : Z → rng;
  (** [np.random.geometric(p=0.15, size=n)] *)
  np_geometric : rng → nat → list Z * rng;
  (** [np.random.choice(values, size=n)] among [k] values, as positions *)
  np_choice : rng → nat → nat → list nat * rng;
  (** [np.random.permutation(xs)] *)
  np_permutation : rng → list string → list string * rng;
  np_geometric_length : ∀ g n, length (np_geometric g n).1 = n;
  np_choice_length : ∀ g k n, length (np_choice g k n).1 = n;
  np_choice_range :
    ∀ g k n, (0 < k)%nat → Forall (λ i, (i < k)%nat) (np_choice g k n).1;
  np_permutation_Permutation : ∀ g xs, (np_permutation g xs).1 ≡ₚ xs
}.

Module FunnelAnalysis.
Import Python Pandas Time Tables.

Definition Qratio (a b : Z) : Q := (inject_Z a / inject_Z b)%Q.

Record FunnelStage := mkStage {
  name : string;
  users : Z;
  conversion_rate : Q;
  drop_off_rate : Q
}.

(** The analyzer object: [funnel_data] is [None] until an analysis ran;
    afterwards it is the table built from [funnel_stages]. *)
Record FunnelAnalyzer := mkAnalyzer {
  funnel_stages : list FunnelStage;
  funnel_data : option (list FunnelStage)
}.

(** [FunnelAnalyzer()]. *)
Definition new_analyzer : FunnelAnalyzer := mkAnalyzer [] None.

(** The loop that fills [self.funnel_stages] from [(name, users)] pairs;
    [prev_users] starts at the total. *)
Fixpoint build_stages (total prev_users : Z) (stages : list (string * Z))
  : list FunnelStage :=
  match stages with
  | [] => []
  | (name, users) :: rest =>
      mkStage name users
        (if 0 <? total then Qratio users total else 0%Q)
        (if 0 <? prev_users
         then Qratio (prev_users - users) prev_users else 0%Q)
      :: build_stages total users rest
  end.

(** [_find_biggest_drop_off]. *)
Definition _find_biggest_drop_off (self : FunnelAnalyzer) : string :=
  match funnel_stages self with
  | [] => "unknown"%string
  | _ :: later =>
      snd (foldl (λ '(max_drop, max_stage) stage,
                    if Qlt_le_dec max_drop (drop_off_rate stage)
                    then (drop_off_rate stage, name stage)
                    else (max_drop, max_stage))
                 (0%Q, "unknown"%string) later)
  end.

(** *** Playlist completion *)

Record ProgressRow := mkProgress {
  pr_user_id : string;
  tracks_completed : Z;
  playlist_length : Z;
  completion_ratio : Q
}.

(** [_simulate_playlist_progress]; the generator is seeded afresh, and
    its state afterwards is returned with the table. *)
Definition _simulate_playlist_progress `{RandomState} {T}
    (sessions : list (SessionRow T)) (playlist_lengths : list Z)
  : list ProgressRow * rng :=
  let g := np_seed 42 in
  let n_sessions := length sessions in
  let avg_playlist_length :=
    match playlist_lengths with
    | [] => 20
    | _ => sumZ playlist_lengths / Z.of_nat (length playlist_lengths)
    end in
  let '(draws, g) := np_geometric g n_sessions in
  let tracks_completed :=
    (λ x, Z.min (Z.max x 1) avg_playlist_length) <$> draws in
  let values :=
    match playlist_lengths with [] => [20] | _ => playlist_lengths end in
  let '(picks, g) := np_choice g (length values) n_sessions in
  let lengths := (λ i, values !!! i) <$> picks in
  ((λ '(s, (t, l)), mkProgress (user_id s) t l (clip 0 1 (Qratio t l)))
   <$> zip sessions (zip tracks_completed lengths), g).

Record PlaylistMetrics := mkPlaylistMetrics {
  total_playlist_starts : Z;
  overall_completion_rate : Q;
  track_1_completion : Q;
  track_3_completion : Q;
  track_5_completion : Q;
  drop_off_track_1_3 : Q;
  drop_off_track_3_5 : Q;
  biggest_drop_off_stage : string
}.

(** The list [stages] of the playlist funnel. *)
Definition playlist_stage_counts (progress : list ProgressRow)
  : list (string * Z) :=
  let at_least k := count_where (λ r, k <=? tracks_completed r) progress in
  let ratio_at_least q :=
    count_where (λ r, Qle_bool q (completion_ratio r)) progress in
  [("started", Z.of_nat (length progress));
   ("track_1_complete", at_least 1);
   ("track_3_complete", at_least 3);
   ("track_5_complete", at_least 5);
   ("50_percent_complete", ratio_at_least (1 # 2));
   ("75_percent_complete", ratio_at_least (3 # 4));
   ("100_percent_complete", ratio_at_least 1%Q)]%string.

(** The part of [analyze_playlist_completion] after the progress table
    is known. *)
Definition playlist_funnel (progress : list ProgressRow)
  : PlaylistMetrics * FunnelAnalyzer :=
  let total_starts := Z.of_nat (length progress) in
  let stages := playlist_stage_counts progress in
  let built := build_stages total_starts total_starts stages in
  let self := mkAnalyzer built (Some built) in
  let count i := (snd <$> stages) !!! i in
  let of_total (c : Z) :=
    if 0 <? total_starts then Qratio c total_starts else 0%Q in
  (mkPlaylistMetrics total_starts
     (of_total (List.last (snd <$> stages) 0))
     (of_total (count 1%nat)) (of_total (count 2%nat))
     (of_total (count 3%nat))
     (if 0 <? count 1%nat
      then Qratio (count 1%nat - count 2%nat) (count 1%nat) else 0%Q)
     (if 0 <? count 2%nat
      then Qratio (count 2%nat - count 3%nat) (count 2%nat) else 0%Q)
     (_find_biggest_drop_off self),
   self).

(** [analyze_playlist_completion]: the metrics ([None] for the empty
    dictionary), the analyzer and the generator afterwards. *)
Definition analyze_playlist_completion `{RandomState} {T P}
    (self : FunnelAnalyzer) (g : rng) (sessions : list (SessionRow T))
    (playlists : list P) (playlist_tracks : list PlaylistTrackRow)
  : option PlaylistMetrics * FunnelAnalyzer * rng :=
  let playlist_sessions :=
    List.filter (λ s, bool_decide (context s = "playlist"%string))
                sessions in
  match playlist_sessions with
  | [] => (None, self, g)
  | _ =>
      let playlist_lengths :=
        (λ grp, Z.of_nat (length grp.2))
        <$> groupby playlist_id playlist_tracks in
      let '(user_playlist_progress, g) :=
        _simulate_playlist_progress playlist_sessions playlist_lengths in
      let '(metrics, self) := playlist_funnel user_playlist_progress in
      (Some metrics, self, g)
  end.

(** *** User activation *)

Record ActivationMetrics := mkActivationMetrics {
  total_signups : Z;
  first_session_rate : Q;
  day_1_activation_rate : Q;
  week_1_retention_rate : Q;
  week_2_retention_rate : Q;
  weekly_active_rate : Q;
  signup_to_active_conversion : Q
}.

Definition list_min (xs : list Z) : Z :=
  match xs with
  | [] => 0
  | x :: xs' => foldl Z.min x xs'
  end.

(** Sessions of one user within [days] days of the user's first one. *)
Definition sessions_within (days : Z) (rows : list (SessionRow Z)) : Z :=
  let first := list_min (timestamp <$> rows) in
  count_where (λ s, timestamp s <=? first + days * NS_PER_DAY) rows.

(** The list [stages] of the activation funnel. *)
Definition activation_stage_counts (users : list (UserRow Z))
    (sessions : list (SessionRow Z)) : list (string * Z) :=
  let total_users := Z.of_nat (length users) in
  let users_with_sessions := nunique (user_id <$> sessions) in
  let by_user := groupby user_id sessions in
  let first_session :=
    (λ '(u, rows), (u, list_min (timestamp <$> rows))) <$> by_user in
  let users_first_session :=
    merge_left ((λ u, (usr_user_id u, u)) <$> users) first_session in
  let activated_day_1 :=
    count_where
      (λ r : string * (UserRow Z * option Z),
         match r.2.2 with
         | Some first => timedelta_days (first - signup_date r.2.1) <=? 1
         | None => false
         end) users_first_session in
  let activated_week_1 :=
    count_where (λ g, 2 <=? sessions_within 7 g.2) by_user in
  let retained_week_2 :=
    count_where (λ g, 3 <=? sessions_within 14 g.2) by_user in
  let weekly_active :=
    count_where
      (λ g, 4 <=? nunique ((λ s, isocalendar_week (timestamp s)) <$> g.2))
      by_user in
  [("signed_up", total_users);
   ("first_session", users_with_sessions);
   ("activated_day_1", activated_day_1);
   ("active_week_1", activated_week_1);
   ("retained_week_2", retained_week_2);
   ("weekly_active", weekly_active)]%string.

(** [analyze_user_activation]: the outcome and the analyzer afterwards;
    it works on copies of both tables. On an empty sessions table the
    count of the users with two sessions in a week raises [TypeError],
    before any stage is stored. *)
Definition analyze_user_activation `{DateParser} (self : FunnelAnalyzer)
    (users : list (UserRow TimestampValue))
    (sessions : list (SessionRow TimestampValue))
  : Result ActivationMetrics * FunnelAnalyzer :=
  let users := with_signup_date to_datetime <$> users in
  let sessions := with_timestamp to_datetime <$> sessions in
  let total_users := Z.of_nat (length users) in
  let stages := activation_stage_counts users sessions in
  let built := build_stages total_users total_users stages in
  let count i := (snd <$> stages) !!! i in
  let of_total (c : Z) :=
    if 0 <? total_users then Qratio c total_users else 0%Q in
  match sessions with
  | [] => (Raise TypeError, self)
  | _ =>
      (Return
         (mkActivationMetrics total_users
            (of_total (count 1%nat)) (of_total (count 2%nat))
            (of_total (count 3%nat)) (of_total (count 4%nat))
            (of_total (count 5%nat)) (of_total (count 5%nat))),
       mkAnalyzer built (Some built))
  end.

(** *** Recommendations *)

(** The messages of [get_recommendations], by kind and by the values
    formatted into them. *)
Inductive Recommendation :=
  | RunAnalysisFirst
  | HighDropOff (rate : Q) (stage : string)
  | SignificantDropOff (rate : Q)
  | Healthy.

(** [needle in text]. *)
Fixpoint contains (needle text : string) : bool :=
  String.prefix needle text
  || match text with
     | EmptyString => false
     | String _ text' => contains needle text'
     end.

(** [next((s for s in stages if needle in s.name), None)]. *)
Definition first_named (needle : string) (stages : list FunnelStage)
  : option FunnelStage :=
  List.find (λ s, contains needle (name s)) stages.

(** [get_recommendations]. The stage counts are NumPy integers, so a
    zero [track_3] count makes the quotient not a number (the numerator
    cannot be positive then) and the comparison false. *)
Definition get_recommendations (self : FunnelAnalyzer)
  : list Recommendation :=
  match funnel_data self with
  | None | Some [] => [RunAnalysisFirst]
  | Some _ =>
      let flags :=
        (λ s, HighDropOff (drop_off_rate s) (name s))
        <$> List.filter (λ s, negb (Qle_bool (drop_off_rate s) (20 # 100)))
                        (tail (funnel_stages self)) in
      let specific :=
        if existsb (λ s, contains "track_3" (name s)
                         || contains "track_5" (name s))
                   (funnel_stages self)
        then
          match first_named "track_3" (funnel_stages self),
                first_named "track_5" (funnel_stages self) with
          | Some track_3_stage, Some track_5_stage =>
              if users track_3_stage =? 0 then []
              else
                let drop_off :=
                  Qratio (users track_3_stage - users track_5_stage)
                         (users track_3_stage) in
                if negb (Qle_bool drop_off (15 # 100))
                then [SignificantDropOff drop_off] else []
          | _, _ => []
          end
        else [] in
      let recommendations := flags ++ specific in
      match recommendations with
      | [] => [Healthy]
      | _ => recommendations
      end
  end.

End FunnelAnalysis.

(** ** Double-precision rounding *)

Module Float64.






End Float64.

(** ** A/B testing ([ab_framework.py]) *)

(** SciPy's distribution functions. A result that is not a finite number
    is [None]. The standard normal quantile is finite and non-negative on
    the upper half of the open unit interval. *)
Class SciPyStats := {
  (** [stats.norm.ppf] *)
  norm_ppf : Q → option Q;
  (** the p-value of [stats.ttest_ind(a, b, equal_var=False)] *)
  ttest_ind_pvalue : list Q → list Q → option Q;
  norm_ppf_upper_half :
    ∀ p, (1 # 2 <= p)%Q → (p < 1)%Q → ∃ z, norm_ppf p = Some z ∧ (0 <= z)%Q
}.

Module ABFramework.
Import Python Pandas Float64.

(** A float that may be NaN. *)
Abbreviation float := (option Q).

Definition lift2 (f : Q → Q → Q) (a b : float) : float :=
  x ← a; y ← b; Some (f x y).

Record ExperimentConfig := mkConfig {
  cfg_name : string;
  description : string;
  control_name : string;
  treatment_name : string;
  cfg_significance_level : Q
}.

Record ExperimentResults := mkResults {
  control_mean : float;
  treatment_mean : float;
  control_std : float;
  treatment_std : float;
  control_n : Z;
  treatment_n : Z;
  absolute_effect : float;
  relative_effect : float;
  p_value : float;
  confidence_interval : float * float;
  is_significant : bool;
  power : Q;
  effect_size : float
}.

Record Assignment := mkAssignment {
  asg_user_id : string;
  variant : string;
  experiment : string
}.

Record ABTestFramework := mkFramework {
  significance_level : Q;
  experiments : gmap string ExperimentConfig;
  assignments : gmap string (list Assignment);
  results : gmap string ExperimentResults
}.

(** [ABTestFramework(significance_level)]. *)
Definition new_framework (significance_level : Q) : ABTestFramework :=
  mkFramework significance_level ∅ ∅ ∅.

(** [calculate_sample_size]; [None] when [int(np.ceil(n))] raises because
    [n] is not finite. *)
Definition calculate_sample_size `{SciPyStats} (self : ABTestFramework)
    (baseline_rate mde power : Q) : option Z :=
  let treatment_rate := (baseline_rate * (1 + mde))%Q in
  let pooled_rate := ((baseline_rate + treatment_rate) / 2)%Q in
  let z_alpha := norm_ppf (1 - significance_level self / 2)%Q in
  let z_beta := norm_ppf power in
  let effect := Qabs (treatment_rate - baseline_rate) in
  let variance := (2 * pooled_rate * (1 - pooled_rate))%Q in
  if Qeq_bool effect 0 then Some 10000
  else
    za ← z_alpha; zb ← z_beta;
    Some (Qceiling (variance * ((za + zb) * (za + zb))
                    / (effect * effect))).

(** [create_experiment]. *)
Definition create_experiment (self : ABTestFramework) (name : string)
    (control_users treatment_users : list string) (description : string)
  : ABTestFramework :=
  let config := mkConfig name description "control" "treatment" (5 # 100) in
  let control_df := (λ u, mkAssignment u "control" name) <$> control_users in
  let treatment_df :=
    (λ u, mkAssignment u "treatment" name) <$> treatment_users in
  mkFramework (significance_level self)
    (<[name := config]> (experiments self))
    (<[name := control_df ++ treatment_df]> (assignments self))
    (results self).








(** [metric_data.merge(assignments, left_on=user_column,
    right_on='user_id')]: the inner join, in the order of the metric
    rows. *)
Definition merge_assignments (metric_data : list (string * Q))
    (assignments : list Assignment) : list (Q * Assignment) :=
  metric_data ≫= λ '(u, x),
    (λ a, (x, a))
    <$> List.filter (λ a, bool_decide (asg_user_id a = u)) assignments.

(** The metric column of the rows of one variant. *)
Definition variant_data (v : string) (merged : list (Q * Assignment))
  : list Q :=
  fst <$> List.filter (λ r, bool_decide (variant r.2 = v)) merged.

(** [Series.std()]: the sample standard deviation, NaN below two
    values. (Of an empty column it is the Python float [nan], of a
    single value NumPy's; [analyze_results] tells them apart.) *)
Definition std `{NumericLib} (xs : list Q) : float :=
  match mean xs with
  | Some m =>
      if decide (length xs < 2)%nat then None
      else Some (np_sqrt (sumQ ((λ x, (x - m) * (x - m))%Q <$> xs)
                          / inject_Z (Z.of_nat (length xs) - 1)))
  | None => None
  end.

(** Division of a NumPy float by a count; a zero count gives no finite
    number. *)
Definition div_count (a : float) (n : Z) : float :=
  if n =? 0 then None else (λ x, x / inject_Z n)%Q <$> a.

Definition square (a : float) : float := lift2 Qmult a a.

Definition sqrt_float `{NumericLib} (a : float) : float :=
  x ← a; if Qle_bool 0 x then Some (np_sqrt x) else None.

(** [a / b if b != 0 else 0] on floats. *)
Definition guarded_div (a b : float) : float :=
  match b with
  | Some y => if Qeq_bool y 0 then Some 0%Q else (λ x, x / y)%Q <$> a
  | None => None
  end.

(** [analyze_results]: the outcome and the framework afterwards. An
    unknown experiment is a [KeyError]. A group without observations
    has the Python float [nan] as standard deviation, and line 113
    divides it by the group's size, zero: a [ZeroDivisionError]. With
    one observation the standard deviation is NumPy's NaN, whose
    division by zero on line 117 is again NaN. An exception is raised
    before the results are stored. *)
Definition analyze_results `{NumericLib, SciPyStats}
    (self : ABTestFramework) (experiment_name : string)
    (metric_data : list (string * Q))
  : Result ExperimentResults * ABTestFramework :=
  match experiments self !! experiment_name,
        assignments self !! experiment_name with
  | Some config, Some assignments_ =>
      let merged := merge_assignments metric_data assignments_ in
      let control_data := variant_data "control" merged in
      let treatment_data := variant_data "treatment" merged in
      let control_mean := mean control_data in
      let treatment_mean := mean treatment_data in
      let control_std := std control_data in
      let treatment_std := std treatment_data in
      let control_n := Z.of_nat (length control_data) in
      let treatment_n := Z.of_nat (length treatment_data) in
      let absolute_effect := lift2 Qminus treatment_mean control_mean in
      let relative_effect := guarded_div absolute_effect control_mean in
      let p_value := ttest_ind_pvalue treatment_data control_data in
      if decide (control_n = 0 ∨ treatment_n = 0)
      then (Raise ZeroDivisionError, self)
      else
        let pooled_se :=
          sqrt_float
            (lift2 Qplus (div_count (square control_std) control_n)
                         (div_count (square treatment_std) treatment_n)) in
        let z := norm_ppf (1 - significance_level self / 2)%Q in
        let margin := lift2 Qmult z pooled_se in
        let ci := (lift2 Qminus absolute_effect margin,
                   lift2 Qplus absolute_effect margin) in
        let pooled_std :=
          sqrt_float
            (div_count
               (lift2 Qplus
                  (lift2 Qmult (Some (inject_Z (control_n - 1)))
                               (square control_std))
                  (lift2 Qmult (Some (inject_Z (treatment_n - 1)))
                               (square treatment_std)))
               (control_n + treatment_n - 2)) in
        let cohens_d := guarded_div absolute_effect pooled_std in
        let results_ :=
          mkResults control_mean treatment_mean control_std treatment_std
            control_n treatment_n absolute_effect relative_effect p_value ci
            (match p_value with
             | Some p => negb (Qle_bool (significance_level self) p)
             | None => false
             end)
            (80 # 100) cohens_d in
        (Return results_,
         mkFramework (significance_level self) (experiments self)
           (assignments self)
           (<[experiment_name := results_]> (results self)))
  | _, _ => (Raise KeyError, self)
  end.

End ABFramework.

(** ** The properties under study, as predicates *)

Module Properties.
Import Pandas Time Tables FeatureEngineering FunnelAnalysis.

(** *** Streaks *)

(** Each date is exactly one day after the previous one. *)
Definition consecutive_days (run : list Z) : Prop :=
  ∀ i a b, run !! i = Some a → run !! S i = Some b → b - a = 1.

(** [runs] cuts [dates] into its maximal runs of consecutive days: the
    runs are not empty, put end to end they give [dates], each is a run
    of consecutive days, and no run can be extended into the next. *)
Definition run_decomposition (dates : list Z) (runs : list (list Z)) : Prop :=
  concat runs = dates
  ∧ Forall (λ run, run ≠ [] ∧ consecutive_days run) runs
  ∧ ∀ i r1 r2 a b, runs !! i = Some r1 → runs !! S i = Some r2 →
      last r1 = Some a → head r2 = Some b → b - a ≠ 1.

(** The maximal runs of a list of dates, cut from the front. *)
Fixpoint split_runs (dates : list Z) : list (list Z) :=
  match dates with
  | [] => []
  | d :: rest =>
      match head rest, split_runs rest with
      | Some d', run :: runs =>
          if d' - d =? 1 then (d :: run) :: runs else [d] :: run :: runs
      | _, _ => [[d]]
      end
  end.

(** [dates] lists, in increasing order and once each, the days on which
    user [u] has a session. *)
Definition sorted_distinct_active_dates (sessions : list (SessionRow Z))
    (u : string) (dates : list Z) : Prop :=
  StronglySorted Z.lt dates
  ∧ ∀ d, d ∈ dates
         ↔ ∃ s, s ∈ sessions ∧ user_id s = u ∧ date (timestamp s) = d.


(** *** Funnels *)


(** [winner] names the first stage, the first one left aside, whose
    drop-off rate is the largest. *)
Definition first_largest_drop_off (stages : list FunnelStage)
    (winner : string) : Prop :=
  ∃ i s, stages !! S i = Some s ∧ name s = winner
    ∧ (∀ j t, stages !! S j = Some t →
         (drop_off_rate t <= drop_off_rate s)%Q)
    ∧ (∀ j t, (j < i)%nat → stages !! S j = Some t →
         (drop_off_rate t < drop_off_rate s)%Q).

(** The flag raised for a stage. *)
Definition flag_of (s : FunnelStage) : Recommendation :=
  HighDropOff (drop_off_rate s) (name s).

(** The recommendation rule as the specification words it: a stage is
    flagged exactly when its drop-off rate exceeds 0.20, and without any
    such stage the list is the single healthy message. *)
Definition recommendation_rule (self : FunnelAnalyzer) : Prop :=
  (∀ s, s ∈ funnel_stages self →
     flag_of s ∈ get_recommendations self
     ↔ (20 # 100 < drop_off_rate s)%Q)
  ∧ ((∀ s, s ∈ funnel_stages self → ¬ (20 # 100 < drop_off_rate s)%Q) →
     get_recommendations self = [Healthy]).

(** The analyzer left by either analysis: the stages built from the
    stage list, whose first count is the total. *)
Definition computed_funnel (total : Z) (first : string)
    (later : list (string * Z)) : FunnelAnalyzer :=
  let built := build_stages total total ((first, total) :: later) in
  mkAnalyzer built (Some built).

(** The message about tracks 3 to 5 is due: the first stages named
    after [track_3] and [track_5] lose more than 15% of the users
    between them. *)
Definition tracks_3_5_drop (stages : list FunnelStage) (rate : Q) : Prop :=
  ∃ t3 t5, first_named "track_3" stages = Some t3
    ∧ first_named "track_5" stages = Some t5
    ∧ users t3 ≠ 0
    ∧ rate = FunnelAnalysis.Qratio (users t3 - users t5) (users t3)
    ∧ (15 # 100 < rate)%Q.


(** *** Auxiliary notions of the proofs *)

(** The list of dates that the code builds for user [u]. *)
Definition active_dates (u : string) (sessions : list (SessionRow Z))
  : list Z :=
  sorted_dates
    ((λ s, date (timestamp s)) <$> filter (λ s, user_id s = u) sessions).

(** The lengths of a list of runs. *)
Definition run_lengths (runs : list (list Z)) : list Z :=
  (λ run, Z.of_nat (length run)) <$> runs.

(** One turn of the loop of [_find_biggest_drop_off]. *)
Definition biggest_step : Q * string → FunnelStage → Q * string :=
  λ '(max_drop, max_stage) stage,
    if Qlt_le_dec max_drop (drop_off_rate stage)
    then (drop_off_rate stage, name stage) else (max_drop, max_stage).

(** What the loop knows after the stages [seen]: either nothing dropped
    so far, or the running maximum is positive and is the drop-off of
    the first stage that reaches it. *)
Definition biggest_invariant (seen : list FunnelStage) (acc : Q * string)
  : Prop :=
  (acc = (0%Q, "unknown"%string)
   ∧ Forall (λ t, (drop_off_rate t <= 0)%Q) seen)
  ∨ (∃ i s, seen !! i = Some s
       ∧ acc = (drop_off_rate s, name s)
       ∧ (0 < drop_off_rate s)%Q
       ∧ Forall (λ t, (drop_off_rate t <= drop_off_rate s)%Q) seen
       ∧ Forall (λ t, (drop_off_rate t < drop_off_rate s)%Q) (take i seen)).

(** The two groups of messages of [get_recommendations]. *)
Definition exceeds_20 (s : FunnelStage) : bool :=
  negb (Qle_bool (drop_off_rate s) (20 # 100)).

Definition flags_of (stages : list FunnelStage) : list Recommendation :=
  flag_of <$> List.filter exceeds_20 (tail stages).

Definition specific_of (stages : list FunnelStage) : list Recommendation :=
  if existsb (λ s, contains "track_3" (name s) || contains "track_5" (name s))
             stages
  then
    match first_named "track_3" stages, first_named "track_5" stages with
    | Some track_3_stage, Some track_5_stage =>
        if users track_3_stage =? 0 then []
        else
          let drop_off :=
            FunnelAnalysis.Qratio (users track_3_stage - users track_5_stage)
                   (users track_3_stage) in
          if negb (Qle_bool drop_off (15 # 100))
          then [SignificantDropOff drop_off] else []
    | _, _ => []
    end
  else [].

(** *** Time of day and playlist lengths *)

(** The hour falls in bucket [b]. *)
Definition in_bucket (b : TimeBucket) (h : Z) : bool :=
  bool_decide (time_bucket h = Some b).

(** The truncated mean playlist length used by the simulation; 20 when
    there is no playlist. *)
Definition average_length (playlist_lengths : list Z) : Z :=
  match playlist_lengths with
  | [] => 20
  | _ => sumZ playlist_lengths / Z.of_nat (length playlist_lengths)
  end.

End Properties.

(** ** Executable instances of the library interfaces

    Small computable stand-ins on which the embedding can be run. They
    satisfy the laws of the interfaces; they do not reproduce the digits
    of NumPy or SciPy. *)

Module StandIns.
Import Pandas Time.

(** *** Dates written [YYYY-MM-DD hh:mm:ss] *)

Definition digit (c : Ascii.ascii) : Z := Z.of_N (Ascii.N_of_ascii c) - 48.

Fixpoint number_from (acc : Z) (s : string) : Z :=
  match s with
  | EmptyString => acc
  | String c s' => number_from (10 * acc + digit c) s'
  end.

Definition field (start len : nat) (s : string) : Z :=
  number_from 0 (String.substring start len s).

Definition is_leap (y : Z) : bool :=
  (y mod 4 =? 0) && (negb (y mod 100 =? 0) || (y mod 400 =? 0)).

Definition days_before_month (y m : Z) : Z :=
  [0; 31; 59; 90; 120; 151; 181; 212; 243; 273; 304; 334]
    !!! Z.to_nat (m - 1)
  + (if (2 <? m) && is_leap y then 1 else 0).

Definition parse_iso (s : string) : Z :=
  let y := field 0 4 s in
  let m := field 5 2 s in
  let days := days_before_year y + days_before_month y m + field 8 2 s - 1 in
  (days * 86400 + field 11 2 s * 3600 + field 14 2 s * 60 + field 17 2 s)
  * NS_PER_SECOND.

#[export] Instance iso_parser : DateParser := {| parse_datetime := parse_iso |}.

(** *** Rational approximations of the transcendental functions *)

Definition sqrt_approx (x : Q) : Q :=
  Qmake (Z.sqrt (Qnum x * Zpos (Qden x) * 10 ^ 18))
        (Qden x * 1000000000).

Definition log2_approx (x : Q) : Q :=
  inject_Z (Z.log2 (Qnum x * 2 ^ 30 / Zpos (Qden x)) - 30).

Definition log1p_approx (x : Q) : Q :=
  (log2_approx (1 + x) * (693147 # 1000000))%Q.

Lemma sqrt_approx_nonneg (x : Q) : (0 <= sqrt_approx x)%Q.
Proof.
  unfold sqrt_approx, Qle; simpl. rewrite Z.mul_1_r. apply Z.sqrt_nonneg.
Qed.

#[export] Instance approx_numeric : NumericLib := {|
  np_sqrt := sqrt_approx;
  np_log2 := log2_approx;
  np_log1p := log1p_approx;
  np_sqrt_nonneg := sqrt_approx_nonneg
|}.

(** *** A linear congruential generator *)

Definition lcg_next (g : Z) : Z := (1103515245 * g + 12345) mod 2147483648.

(** [n] draws in [0, bound), each from a fresh state. *)
Fixpoint lcg_draws (g : Z) (bound : Z) (n : nat) : list Z * Z :=
  match n with
  | O => ([], g)
  | S n' =>
      let g' := lcg_next g in
      let '(rest, g'') := lcg_draws g' bound n' in
      ((g' / 65536) mod bound :: rest, g'')
  end.

(** Insert each element at a drawn position of the list built so far. *)
Fixpoint lcg_shuffle (g : Z) (acc xs : list string) : list string * Z :=
  match xs with
  | [] => (acc, g)
  | x :: xs' =>
      let g' := lcg_next g in
      let i := Z.to_nat ((g' / 65536) mod (Z.of_nat (length acc) + 1)) in
      lcg_shuffle g' (take i acc ++ x :: drop i acc) xs'
  end.

Lemma lcg_draws_length g bound n : length (lcg_draws g bound n).1 = n.
Proof.
  revert g. induction n as [|n IH]; intros g; simpl; [done|].
  specialize (IH (lcg_next g)).
  destruct (lcg_draws (lcg_next g) bound n) as [rest g'']. simpl in *.
  by rewrite IH.
Qed.

Lemma lcg_draws_range g bound n :
  0 < bound → Forall (λ x, 0 ≤ x < bound) (lcg_draws g bound n).1.
Proof.
  intros Hb. revert g. induction n as [|n IH]; intros g; simpl; [done|].
  specialize (IH (lcg_next g)).
  destruct (lcg_draws (lcg_next g) bound n) as [rest g'']. simpl in *.
  constructor; [|done]. by apply Z.mod_pos_bound.
Qed.

Lemma lcg_shuffle_Permutation g acc xs :
  (lcg_shuffle g acc xs).1 ≡ₚ acc ++ xs.
Proof.
  revert g acc. induction xs as [|x xs IH]; intros g acc; simpl.
  - by rewrite app_nil_r.
  - rewrite IH, <- app_assoc. simpl.
    rewrite <- !Permutation_middle. by rewrite app_assoc, take_drop.
Qed.

Definition lcg_geometric (g : Z) (n : nat) : list Z * Z :=
  let '(xs, g') := lcg_draws g 9 n in ((λ x, x + 1) <$> xs, g').

Definition lcg_choice (g : Z) (k n : nat) : list nat * Z :=
  let '(xs, g') := lcg_draws g (Z.of_nat k) n in (Z.to_nat <$> xs, g').

#[export, refine] Instance lcg_random : RandomState := {|
  rng := Z;
  np_seed := λ s, s;
  np_geometric := lcg_geometric;
  np_choice := lcg_choice;
  np_permutation := λ g xs, lcg_shuffle g [] xs
|}.
Proof.
  - intros g n. unfold lcg_geometric.
    pose proof (lcg_draws_length g 9 n) as Hlen.
    destruct (lcg_draws g 9 n); simpl in *. by rewrite length_fmap.
  - intros g k n. unfold lcg_choice.
    pose proof (lcg_draws_length g (Z.of_nat k) n) as Hlen.
    destruct (lcg_draws g (Z.of_nat k) n); simpl in *.
    by rewrite length_fmap.
  - intros g k n Hk. unfold lcg_choice.
    pose proof (lcg_draws_range g (Z.of_nat k) n ltac:(lia)) as Hr.
    destruct (lcg_draws g (Z.of_nat k) n); simpl in *.
    apply Forall_fmap. eapply Forall_impl; [exact Hr|].
    intros x Hx. cbv beta delta [compose] in *. lia.
  - intros g xs. apply (lcg_shuffle_Permutation g [] xs).
Defined.

(** *** Quantiles and p-values *)

(** A few quantiles of the standard normal distribution, rounded, and a
    line through zero elsewhere inside the unit interval. *)
Definition ppf_table (p : Q) : option Q :=
  if Qle_bool p 0 then None
  else if Qle_bool 1 p then None
  else if Qeq_bool p (975 # 1000) then Some (1959964 # 1000000)
  else if Qeq_bool p (8 # 10) then Some (841621 # 1000000)
  else if Qeq_bool p (1 # 4) then Some (- (674490 # 1000000))%Q
  else Some (5 * (p - (1 # 2)))%Q.

Definition sample_var (xs : list Q) : option Q :=
  m ← mean xs;
  if decide (length xs < 2)%nat then None
  else Some (sumQ ((λ x, (x - m) * (x - m))%Q <$> xs)
             / inject_Z (Z.of_nat (length xs) - 1))%Q.

(** A value in the unit interval that decreases as the standardized
    difference of the means grows. *)
Definition pvalue_standin (a b : list Q) : option Q :=
  ma ← mean a; mb ← mean b; va ← sample_var a; vb ← sample_var b;
  let se2 := (va / inject_Z (Z.of_nat (length a))
              + vb / inject_Z (Z.of_nat (length b)))%Q in
  if Qeq_bool se2 0 then None
  else Some (1 / (1 + (ma - mb) * (ma - mb) / se2))%Q.

Lemma ppf_table_upper_half (p : Q) :
  (1 # 2 <= p)%Q → (p < 1)%Q → ∃ z, ppf_table p = Some z ∧ (0 <= z)%Q.
Proof.
  intros Hlo Hhi. unfold ppf_table.
  destruct (Qle_bool p 0) eqn:E0.
  { apply Qle_bool_iff in E0. lra. }
  destruct (Qle_bool 1 p) eqn:E1.
  { apply Qle_bool_iff in E1. lra. }
  destruct (Qeq_bool p (975 # 1000)); [eexists; split; [done|lra]|].
  destruct (Qeq_bool p (8 # 10)); [eexists; split; [done|lra]|].
  destruct (Qeq_bool p (1 # 4)) eqn:E4.
  { apply Qeq_bool_iff in E4. lra. }
  eexists; split; [done|lra].
Qed.

#[export] Instance table_stats : SciPyStats := {|
  norm_ppf := ppf_table;
  ttest_ind_pvalue := pvalue_standin;
  norm_ppf_upper_half := ppf_table_upper_half
|}.

End StandIns.

(** ** Example inputs *)

Module Examples.
Import Pandas Time Tables FeatureEngineering FunnelAnalysis ABFramework.
Local Open Scope string_scope.
Local Open Scope Z_scope.
Local Open Scope list_scope.

(** 2024-01-01 06:00:00, 12:00:00 and 18:00:00. *)
Definition jan_1_2024 : Z := 19723 * NS_PER_DAY.
Definition at_hour (h : Z) : Z := jan_1_2024 + h * NS_PER_HOUR.

Definition listen (user : string) (t : TimestampValue)
  : SessionRow TimestampValue :=
  mkSession "s1" user "t1" t 180000 200000 false "playlist" "mobile".

Definition two_users : list (UserRow TimestampValue) :=
  [mkUser "u1" (TsDatetime jan_1_2024) "free" "US" "18-24";
   mkUser "u2" (TsDatetime jan_1_2024) "premium" "UK" "25-34"].

Definition one_track : list TrackRow :=
  [mkTrack "t1" 120 (8 # 10) (5 # 10) (5 # 10) (1 # 10) "pop" 200000].

(** Only [u1] has a session. *)
Definition silent_user_input : Caller :=
  mkCaller [listen "u1" (TsDatetime (at_hour 6))] two_users one_track.

(** The timestamp column is still text. *)
Definition text_timestamp_input : Caller :=
  mkCaller [listen "u1" (TsText "2024-01-01 06:00:00")] two_users one_track.

Definition day (n : Z) : TimestampValue :=
  TsDatetime ((19723 + n) * NS_PER_DAY).

Definition visit (id user : string) (t : TimestampValue)
  : SessionRow TimestampValue :=
  mkSession id user "t1" t 180000 200000 false "playlist" "mobile".

Definition one_user : list (UserRow TimestampValue) :=
  [mkUser "u1" (day 0) "free" "US" "18-24"].


(** A user active on the day of signing up and in each of the four
    weeks that follow. *)
Definition loyal_user : list (SessionRow TimestampValue) :=
  [visit "s1" "u1" (day 0); visit "s2" "u1" (day 1);
   visit "s3" "u1" (day 2); visit "s4" "u1" (day 7);
   visit "s5" "u1" (day 14); visit "s6" "u1" (day 21)].

Definition progress_row (tracks length : Z) : ProgressRow :=
  mkProgress "u1" tracks length (clip 0 1 (FunnelAnalysis.Qratio tracks length)).

(** Five sessions that complete a playlist of twenty tracks and one that
    stops after three tracks. *)
Definition one_early_leaver : list ProgressRow :=
  [progress_row 20 20; progress_row 20 20; progress_row 20 20;
   progress_row 20 20; progress_row 20 20; progress_row 3 20].


Definition example_metric : list (string * Q) :=
  [("a", 1%Q); ("b", 2%Q); ("c", 3%Q); ("d", 2%Q); ("e", 3%Q); ("f", 5%Q)].

(** Sessions of two users on three days. *)
Definition three_day_sessions : list (SessionRow Z) :=
  [mkSession "s1" "u1" "t1" (19723 * NS_PER_DAY) 1 1 false "album" "web";
   mkSession "s2" "u1" "t1" (19724 * NS_PER_DAY) 1 1 true "playlist" "web";
   mkSession "s3" "u2" "t1" (19726 * NS_PER_DAY) 1 1 false "radio" "web"].


(** Six playlist sessions of one user. *)
Definition six_playlist_sessions : list (SessionRow Z) :=
  (λ i, mkSession "s" "u1" "t1" i 1 1 false "playlist" "web")
  <$> [1; 2; 3; 4; 5; 6].



(** An experiment whose control group has a single user. *)
Definition lonely_experiment : ABTestFramework :=
  create_experiment (new_framework (5 # 100)) "tiny" ["a"] ["d"; "e"] "".

(** The audio columns of one track. *)
Definition one_track_audio : list SkipPrediction.TrackAudio :=
  [SkipPrediction.mkTrackAudio "t1" 120 (8 # 10) (5 # 10) (5 # 10)
     (1 # 10) (1 # 10) (2 # 10) (1 # 10) (-6)].

End Examples.

(** ** Facts about the table primitives *)

Module PandasFacts.
Import Pandas.

Lemma sorted_keys_Permutation ks : sorted_keys ks ≡ₚ remove_dups ks.
Proof. apply merge_sort_Permutation. Qed.

Lemma elem_of_sorted_keys k ks : k ∈ sorted_keys ks ↔ k ∈ ks.
Proof. by rewrite sorted_keys_Permutation, elem_of_remove_dups. Qed.

Lemma NoDup_sorted_keys ks : NoDup (sorted_keys ks).
Proof. rewrite sorted_keys_Permutation. apply NoDup_remove_dups. Qed.


Lemma elem_of_groupby {A} (key : A → string) rows k g :
  (k, g) ∈ groupby key rows
  ↔ k ∈ key <$> rows ∧ g = filter (λ r, key r = k) rows.
Proof.
  unfold groupby. rewrite list_elem_of_fmap. split.
  - intros (k' & [= -> ->] & Hk). by rewrite elem_of_sorted_keys in Hk.
  - intros [Hk ->]. exists k. by rewrite elem_of_sorted_keys.
Qed.


Lemma count_where_le_length {A} (p : A → bool) rows :
  count_where p rows ≤ Z.of_nat (length rows).
Proof.
  unfold count_where. apply Nat2Z.inj_le.
  induction rows as [|r rows IH]; simpl; [done|].
  destruct (p r); simpl; lia.
Qed.








Lemma rows_of_unique {B} k (frame : list (string * B)) :
  NoDup frame.*1 → (length (rows_of k frame) ≤ 1)%nat.
Proof.
  unfold rows_of. rewrite length_fmap.
  induction frame as [|[k' b] frame IH]; intros Hnd; [simpl; lia|].
  apply NoDup_cons in Hnd as [Hk' Hnd]. rewrite filter_cons. simpl.
  destruct (decide (k' = k)) as [->|]; [|by apply IH].
  simpl. assert (filter (λ kb : string * B, kb.1 = k) frame = []) as ->;
    [|simpl; lia].
  destruct (filter _ frame) as [|[k0 b0] rest] eqn:E; [done|].
  assert ((k0, b0) ∈ filter (λ kb : string * B, kb.1 = k) frame) as Hin
    by (rewrite E; left).
  apply list_elem_of_filter in Hin as [Hk0 Hin]. simpl in Hk0; subst.
  exfalso. apply Hk'. apply list_elem_of_fmap. by exists (k, b0).
Qed.



End PandasFacts.

(** ** Feature engineering: streaks, buckets, row set, caller's tables *)

Module FeatureFacts.
Import Python Pandas Time Tables FeatureEngineering Properties PandasFacts Examples.
Local Open Scope string_scope.
Local Open Scope Z_scope.
Local Open Scope list_scope.

Lemma split_runs_cons d rest : ∃ run runs,
  split_runs (d :: rest) = (d :: run) :: runs.
Proof.
  destruct rest as [|d' rest]; [by exists [], []|].
  change (split_runs (d :: d' :: rest)) with
      (match head (d' :: rest), split_runs (d' :: rest) with
       | Some d', run :: runs =>
           if d' - d =? 1 then (d :: run) :: runs
           else [d] :: run :: runs
       | _, _ => [[d]]
       end).
  cbn [head].
  destruct (split_runs (d' :: rest)) as [|run runs]; [by exists [], []|].
  destruct (d' - d =? 1); by eexists _, _.
Qed.

(** The loop adds the length of the first run to the running streak and
    then emits the lengths of the later runs. *)
Lemma streak_loop_split_runs rest : ∀ prev current streaks,
  let '(streaks', current') := streak_loop prev rest current streaks in
  streaks' ++ [current']
  = streaks ++
      match run_lengths (split_runs (prev :: rest)) with
      | [] => []
      | first :: later => (current - 1 + first) :: later
      end.
Proof.
  induction rest as [|d rest IH]; intros prev current streaks.
  - simpl. f_equal. apply (f_equal2 cons); [lia|done].
  - specialize (IH d).
    cbn [streak_loop].
    change (split_runs (prev :: d :: rest)) with
      (match head (d :: rest), split_runs (d :: rest) with
       | Some d', run :: runs =>
           if d' - prev =? 1 then (prev :: run) :: runs
           else [prev] :: run :: runs
       | _, _ => [[prev]]
       end).
    destruct (split_runs_cons d rest) as (run & runs & Hsplit).
    rewrite Hsplit in IH |- *. cbn [head].
    destruct (d - prev =? 1).
    + specialize (IH (current + 1) streaks).
      destruct (streak_loop d rest (current + 1) streaks) as [s c].
      rewrite IH. cbn. f_equal. apply (f_equal2 cons); [lia|done].
    + specialize (IH 1 (streaks ++ [current])).
      destruct (streak_loop d rest 1 (streaks ++ [current])) as [s c].
      rewrite IH, <- app_assoc. cbn. f_equal.
      apply (f_equal2 cons); [lia|done].
Qed.

Lemma compute_streaks_split_runs dates :
  compute_streaks dates = run_lengths (split_runs dates).
Proof.
  destruct dates as [|d rest]; [done|].
  unfold compute_streaks.
  pose proof (streak_loop_split_runs rest d 1 []) as H.
  destruct (split_runs_cons d rest) as (run & runs & Hsplit).
  rewrite Hsplit in H |- *.
  destruct (streak_loop d rest 1 []) as [s c]. rewrite H.
  cbn. apply (f_equal2 cons); [lia|done].
Qed.


Lemma split_runs_concat dates : concat (split_runs dates) = dates.
Proof.
  induction dates as [|d rest IH]; [done|].
  destruct rest as [|d' rest]; [done|].
  change (split_runs (d :: d' :: rest)) with
      (match head (d' :: rest), split_runs (d' :: rest) with
       | Some d', run :: runs =>
           if d' - d =? 1 then (d :: run) :: runs
           else [d] :: run :: runs
       | _, _ => [[d]]
       end).
  cbn [head].
  destruct (split_runs_cons d' rest) as (run & runs & Hsplit).
  rewrite Hsplit in IH |- *.
  destruct (d' - d =? 1); simpl in *; by rewrite IH.
Qed.

Lemma consecutive_days_singleton d : consecutive_days [d].
Proof. intros [|i] a b Ha Hb; simplify_eq/=. Qed.

Lemma consecutive_days_cons d d' run :
  d' - d = 1 → consecutive_days (d' :: run) → consecutive_days (d :: d' :: run).
Proof.
  intros Hd Hrun [|i] a b Ha Hb; simplify_eq/=; [done|].
  by apply (Hrun i).
Qed.

Lemma split_runs_run_decomposition dates :
  run_decomposition dates (split_runs dates).
Proof.
  split; [apply split_runs_concat|].
  induction dates as [|d rest IH].
  { split; [constructor|]. intros i r1 r2 a b H1. by destruct i. }
  destruct rest as [|d' rest].
  { split.
    - repeat constructor; [done|apply consecutive_days_singleton].
    - intros [|i] ???? H1 H2; simplify_eq/=. }
  change (split_runs (d :: d' :: rest)) with
      (match head (d' :: rest), split_runs (d' :: rest) with
       | Some d', run :: runs =>
           if d' - d =? 1 then (d :: run) :: runs
           else [d] :: run :: runs
       | _, _ => [[d]]
       end).
  cbn [head].
  destruct (split_runs_cons d' rest) as (run & runs & Hsplit).
  rewrite Hsplit in IH |- *. destruct IH as [Hall Hmax].
  apply Forall_cons in Hall as [[_ Hrun] Hall].
  destruct (d' - d =? 1) eqn:Hd.
  - apply Z.eqb_eq in Hd. split.
    + constructor; [|done]. split; [done|].
      by apply consecutive_days_cons.
    + intros [|i] r1 r2 a b H1 H2 Ha Hb.
      * simplify_eq/=. by apply (Hmax 0%nat (d' :: run) r2 a b).
      * by apply (Hmax (S i) r1 r2 a b).
  - apply Z.eqb_neq in Hd. split.
    + constructor; [split; [done|apply consecutive_days_singleton]|].
      by constructor.
    + intros [|i] r1 r2 a b H1 H2 Ha Hb.
      * by simplify_eq/=.
      * by apply (Hmax i r1 r2 a b).
Qed.

Lemma sumZ_run_lengths runs :
  sumZ (run_lengths runs) = Z.of_nat (length (concat runs)).
Proof.
  induction runs as [|run runs IH]; [done|].
  simpl. rewrite length_app, IH. lia.
Qed.

Lemma last_run_lengths runs :
  List.last (run_lengths runs) 0
  = from_option (λ run, Z.of_nat (length run)) 0 (last runs).
Proof.
  induction runs as [|run runs IH]; [done|].
  destruct runs as [|run' runs]; [done|].
  rewrite last_cons_cons. rewrite <- IH. done.
Qed.

Lemma foldl_max_ge xs : ∀ x, x ≤ foldl Z.max x xs
  ∧ Forall (λ y, y ≤ foldl Z.max x xs) xs.
Proof.
  induction xs as [|y xs IH]; intros x; simpl; [by split; [lia|]|].
  destruct (IH (Z.max x y)) as [H1 H2]. split; [lia|].
  constructor; [lia|done].
Qed.

Lemma last_le_list_max xs : List.last xs 0 ≤ list_max xs.
Proof.
  destruct xs as [|x xs]; [done|]. unfold list_max.
  destruct (foldl_max_ge xs x) as [H1 H2].
  revert x H1 H2. induction xs as [|y xs IH]; intros x H1 H2; [done|].
  change (List.last (x :: y :: xs) 0) with (List.last (y :: xs) 0).
  destruct xs as [|z xs].
  - simpl in *. by apply Forall_cons in H2 as [? _].
  - simpl in H2 |- *. apply Forall_cons in H2 as [Hy H2].
    apply (IH (Z.max x y)); [by destruct (foldl_max_ge (z :: xs) (Z.max x y))|].
    done.
Qed.


Lemma sorted_dates_Permutation ds : sorted_dates ds ≡ₚ remove_dups ds.
Proof. apply merge_sort_Permutation. Qed.

Lemma active_dates_spec u sessions d :
  d ∈ active_dates u sessions
  ↔ ∃ s, s ∈ sessions ∧ user_id s = u ∧ date (timestamp s) = d.
Proof.
  unfold active_dates.
  rewrite sorted_dates_Permutation, elem_of_remove_dups, list_elem_of_fmap.
  split.
  - intros (s & -> & Hs). apply list_elem_of_filter in Hs as [Hu Hs].
    by exists s.
  - intros (s & Hs & Hu & <-). exists s. split; [done|].
    by apply list_elem_of_filter.
Qed.

Lemma active_dates_increasing u sessions :
  StronglySorted Z.lt (active_dates u sessions).
Proof.
  unfold active_dates.
  set (ds := (λ s, date (timestamp s)) <$> _).
  assert (NoDup (sorted_dates ds)) as Hnd.
  { rewrite sorted_dates_Permutation. apply NoDup_remove_dups. }
  assert (StronglySorted Z.le (sorted_dates ds)) as Hs.
  { apply StronglySorted_merge_sort; apply _. }
  induction Hs as [|x l Hs IH Hx]; [constructor|].
  apply NoDup_cons in Hnd as [Hx' Hnd]. constructor; [by apply IH|].
  apply Forall_forall. intros y Hy.
  rewrite Forall_forall in Hx. specialize (Hx y Hy).
  assert (x ≠ y) by (intros ->; done). lia.
Qed.

(** Two lists in strictly increasing order with the same elements are
    equal. *)
Lemma increasing_lists_equal (l k : list Z) :
  StronglySorted Z.lt l → StronglySorted Z.lt k →
  (∀ x, x ∈ l ↔ x ∈ k) → l = k.
Proof.
  intros Hl. revert k. induction Hl as [|x l Hl IH Hx]; intros k Hk Hsame.
  { destruct k as [|y k]; [done|]. exfalso.
    assert (y ∈ []) as Hin by (apply Hsame; left).
    by apply elem_of_nil in Hin. }
  destruct Hk as [|y k Hk Hy].
  { exfalso. assert (x ∈ []) as Hin by (apply Hsame; left).
    by apply elem_of_nil in Hin. }
  rewrite Forall_forall in Hx, Hy.
  assert (x = y) as <-.
  { assert (x ∈ y :: k) as Hxin by (apply Hsame; left).
    assert (y ∈ x :: l) as Hyin by (apply Hsame; left).
    apply elem_of_cons in Hxin as [?|Hxin]; [done|].
    apply elem_of_cons in Hyin as [?|Hyin]; [done|].
    specialize (Hx _ Hyin). specialize (Hy _ Hxin). lia. }
  f_equal. apply IH; [done|]. intros z. split; intros Hz.
  - assert (z ∈ x :: k) as Hin by (apply Hsame; by right).
    apply elem_of_cons in Hin as [->|?]; [|done].
    specialize (Hx _ Hz). lia.
  - assert (z ∈ x :: l) as Hin by (apply Hsame; by right).
    apply elem_of_cons in Hin as [->|?]; [|done].
    specialize (Hy _ Hz). lia.
Qed.

(** The list the code builds is the sorted list of the distinct active
    dates, and the only one. *)
Lemma active_dates_unique sessions u dates :
  sorted_distinct_active_dates sessions u dates →
  dates = active_dates u sessions.
Proof.
  intros [Hsorted Hdates].
  apply increasing_lists_equal;
    [done|apply active_dates_increasing|].
  intros d. by rewrite Hdates, active_dates_spec.
Qed.

Lemma list_max_ge_all xs : Forall (λ x, x ≤ list_max xs) xs.
Proof.
  destruct xs as [|x xs]; [constructor|]. unfold list_max.
  destruct (foldl_max_ge xs x) as [Hx Hxs]. by constructor.
Qed.

(** The streak row of a user, in terms of the maximal runs of the list
    of dates the code builds. *)
Lemma streak_row_of_runs (sessions : list (SessionRow Z)) (u : string) :
  u ∈ user_id <$> sessions →
  let dates := active_dates u sessions in
  ∃ f runs last_run,
    (u, f) ∈ _create_listening_streak_features sessions
    ∧ (∀ f', (u, f') ∈ _create_listening_streak_features sessions → f' = f)
    ∧ run_decomposition dates runs
    ∧ compute_streaks dates = (λ run, Z.of_nat (length run)) <$> runs
    ∧ streak_count f = Z.of_nat (length runs)
    ∧ sumZ ((λ run, Z.of_nat (length run)) <$> runs) = active_days f
    ∧ active_days f = Z.of_nat (length dates)
    ∧ last runs = Some last_run
    ∧ current_streak f = Z.of_nat (length last_run)
    ∧ Forall (λ run, Z.of_nat (length run) ≤ max_streak f) runs
    ∧ current_streak f ≤ max_streak f.
Proof.
  intros Hu dates.
  assert (∃ d ds, dates = d :: ds) as (d & ds & Hdates).
  { apply list_elem_of_fmap in Hu as (s & -> & Hs).
    assert (date (timestamp s) ∈ dates) as Hd.
    { apply active_dates_spec. by exists s. }
    destruct dates; [by apply elem_of_nil in Hd|by eexists _, _]. }
  destruct (split_runs_cons d ds) as (run & runs' & Hsplit).
  assert (∃ last_run, last (split_runs dates) = Some last_run) as [lr Hlr].
  { rewrite Hdates, Hsplit.
    destruct (last ((d :: run) :: runs')) eqn:E; [by eexists|].
    by apply last_None in E. }
  exists (streak_features_of_dates dates), (split_runs dates), lr.
  pose proof (compute_streaks_split_runs dates) as Hcs.
  fold (run_lengths (split_runs dates)).
  assert (streak_features_of_dates dates
          = let streaks := run_lengths (split_runs dates) in
            mkStreak (List.last streaks 0) (list_max streaks)
              (Qratio (sumZ streaks) (Z.of_nat (length streaks)))
              (Z.of_nat (length streaks)) (Z.of_nat (length dates))
              (if 0 <? list_max dates - list_min dates + 1
               then Qratio (Z.of_nat (length dates))
                           (list_max dates - list_min dates + 1)
               else 0%Q)) as Hf.
  { unfold streak_features_of_dates. rewrite Hcs, Hdates, Hsplit. done. }
  split_and!.
  - unfold _create_listening_streak_features.
    apply list_elem_of_fmap.
    exists (u, filter (λ s, user_id s = u) sessions). split; [done|].
    by apply elem_of_groupby.
  - intros f' Hf'. unfold _create_listening_streak_features in Hf'.
    apply list_elem_of_fmap in Hf' as ([u' rows] & Heq & Hg).
    injection Heq as <- ->. by apply elem_of_groupby in Hg as [_ ->].
  - apply split_runs_run_decomposition.
  - done.
  - rewrite Hf. simpl. unfold run_lengths. by rewrite length_fmap.
  - rewrite Hf, sumZ_run_lengths, split_runs_concat. done.
  - by rewrite Hf.
  - done.
  - rewrite Hf. simpl. rewrite last_run_lengths, Hlr. done.
  - rewrite Hf. cbv zeta. cbn [max_streak].
    pose proof (list_max_ge_all (run_lengths (split_runs dates))) as Hall.
    rewrite Forall_forall in Hall. apply Forall_forall. intros r Hr.
    apply Hall. unfold run_lengths. apply list_elem_of_fmap. by exists r.
  - rewrite Hf. simpl. apply last_le_list_max.
Qed.

(** C8. For every user with at least one session, and for the list of
    the user's distinct active dates in increasing order, the streak row
    of the user is that of the maximal runs of consecutive days of this
    list: the streak lengths the loop finds are the lengths of the runs,
    they sum to [active_days], which is the number of distinct dates;
    [current_streak] is the length of the last run; [max_streak] bounds
    every run, and so [current_streak]. *)
Theorem streak_run_length_decomposition
    (sessions : list (SessionRow Z)) (u : string) (dates : list Z) :
  u ∈ user_id <$> sessions →
  sorted_distinct_active_dates sessions u dates →
  ∃ f runs last_run,
    (u, f) ∈ _create_listening_streak_features sessions
    ∧ (∀ f', (u, f') ∈ _create_listening_streak_features sessions → f' = f)
    ∧ run_decomposition dates runs
    ∧ compute_streaks dates = (λ run, Z.of_nat (length run)) <$> runs
    ∧ streak_count f = Z.of_nat (length runs)
    ∧ sumZ ((λ run, Z.of_nat (length run)) <$> runs) = active_days f
    ∧ active_days f = Z.of_nat (length dates)
    ∧ last runs = Some last_run
    ∧ current_streak f = Z.of_nat (length last_run)
    ∧ Forall (λ run, Z.of_nat (length run) ≤ max_streak f) runs
    ∧ current_streak f ≤ max_streak f.
Proof.
  intros Hu Hdates. rewrite (active_dates_unique sessions u dates Hdates).
  by apply streak_row_of_runs.
Qed.

Lemma streak_run_length_decomposition_witness :
  let sessions :=
    [mkSession "s1" "u1" "t1" (19726 * NS_PER_DAY) 1 1 false "album" "web";
     mkSession "s2" "u1" "t1" (19723 * NS_PER_DAY) 1 1 false "album" "web";
     mkSession "s3" "u1" "t1" (19724 * NS_PER_DAY) 1 1 false "album" "web";
     mkSession "s4" "u1" "t1" (19724 * NS_PER_DAY + 5) 1 1 false "album"
       "web"]
  in
  let dates := [19723; 19724; 19726] in
  "u1" ∈ user_id <$> sessions
  ∧ sorted_distinct_active_dates sessions "u1" dates
  ∧ ∃ f runs last_run,
      (("u1" : string), f) ∈ _create_listening_streak_features sessions
      ∧ run_decomposition dates runs
      ∧ active_days f = Z.of_nat (length dates)
      ∧ last runs = Some last_run
      ∧ current_streak f = Z.of_nat (length last_run)
      ∧ current_streak f ≤ max_streak f.
Proof.
  intros sessions dates.
  assert ("u1" ∈ user_id <$> sessions) as Hu by (by left).
  assert (sorted_distinct_active_dates sessions "u1" dates) as Hdates.
  { split.
    - unfold dates. repeat constructor; lia.
    - intros d. rewrite <- active_dates_spec.
      by assert (active_dates "u1" sessions = dates) as ->
        by (vm_compute; reflexivity). }
  split; [exact Hu|]. split; [exact Hdates|].
  destruct (streak_run_length_decomposition sessions "u1" dates Hu Hdates)
    as (f & runs & last_run & Hrow & _ & Hruns & _ & _ & _ & Hdays & Hlast
        & Hcur & _ & Hmax).
  by exists f, runs, last_run.
Defined.





(** Every bucket is closed on the right: 0..6, 7..12, 13..18, 19..23. *)
Lemma time_bucket_right_closed (h : Z) :
  (0 ≤ h < 24)%Z →
  time_bucket h
  = Some (if h <=? 6 then night else if h <=? 12 then morning
          else if h <=? 18 then afternoon else evening).
Proof.
  intros Hh. unfold time_bucket, cut.
  repeat match goal with
  | |- context [?a <? ?b] => destruct (Z.ltb_spec a b)
  | |- context [?a <=? ?b] => destruct (Z.leb_spec a b)
  end; simpl; try done; lia.
Qed.

(** C1, on the code. The users table has two users and only [u1] has a
    session: the returned table has the single row of [u1], not one row
    per user of the users table. *)
Theorem users_without_sessions_get_no_row `{DateParser, NumericLib} :
  ∃ table,
    (create_all_features silent_user_input).1 = Return table
    ∧ table.*1 = ["u1"]
    ∧ length table = 1%nat
    ∧ length (users_df silent_user_input) = 2%nat.
Proof. eexists. split; [vm_compute; reflexivity|]. vm_compute. done. Qed.

(** C3, on the code. Hours 6, 12 and 18 are put in the night, morning
    and afternoon buckets, and a user whose only session is at 06:00 has
    night ratio 1 and morning ratio 0. *)
Theorem hours_6_12_18_fall_in_the_earlier_bucket `{NumericLib} :
  time_bucket 6 = Some night
  ∧ time_bucket 12 = Some morning
  ∧ time_bucket 18 = Some afternoon
  ∧ ∃ f, _create_temporal_features
           [with_timestamp (λ _, at_hour 6) (listen "u1" (TsText ""))]
         = [("u1", f)]
      ∧ night_ratio f = 1%Q ∧ morning_ratio f = 0%Q.
Proof. split_and!; try done. eexists. vm_compute. done. Qed.

(** C4, on the code. When the timestamp column holds text, the call
    replaces it by parsed datetimes in the table the caller passed in. *)
Theorem text_timestamps_are_replaced_in_the_callers_table
    `{DateParser, NumericLib} :
  sessions_df (create_all_features text_timestamp_input).2
  = [listen "u1" (TsDatetime (parse_datetime "2024-01-01 06:00:00"))]
  ∧ (create_all_features text_timestamp_input).2 ≠ text_timestamp_input.
Proof. split; [done|]. intros Heq. discriminate Heq. Qed.

(** X3. The call never touches the users and tracks tables, and leaves the
    sessions table alone when its timestamps are datetimes already. *)
Lemma create_all_features_frame `{DateParser, NumericLib} caller :
  users_df (create_all_features caller).2 = users_df caller
  ∧ tracks_df (create_all_features caller).2 = tracks_df caller
  ∧ (is_datetime64_any_dtype (timestamp <$> sessions_df caller) = true →
     (create_all_features caller).2 = caller).
Proof.
  unfold create_all_features. cbv zeta. cbn [snd].
  destruct (is_datetime64_any_dtype _); by split_and!.
Qed.

End FeatureFacts.

(** ** Funnels: stage counts, biggest drop-off, recommendations *)

Module FunnelFacts.
Import Python Pandas Time Tables FunnelAnalysis Properties PandasFacts Examples.
Local Open Scope string_scope.
Local Open Scope Z_scope.
Local Open Scope list_scope.

Lemma build_stages_users total prev stages :
  users <$> build_stages total prev stages = stages.*2.
Proof.
  revert prev. induction stages as [|[n c] stages IH]; intros prev; [done|].
  simpl. by rewrite IH.
Qed.













(** *** The biggest drop-off *)

Lemma biggest_invariant_step seen acc stage :
  biggest_invariant seen acc →
  biggest_invariant (seen ++ [stage]) (biggest_step acc stage).
Proof.
  intros [[-> Hall]|(i & s & Hi & -> & Hpos & Hle & Hlt)]; unfold biggest_step.
  - destruct (Qlt_le_dec 0 (drop_off_rate stage)) as [Hlt|Hle].
    + right. exists (length seen), stage. split_and!; try done.
      * by rewrite lookup_app_r, Nat.sub_diag.
      * apply Forall_app. split; [|repeat constructor; lra].
        eapply Forall_impl; [exact Hall|]. intros t Ht. simpl in *. lra.
      * rewrite take_app_length.
        eapply Forall_impl; [exact Hall|]. intros t Ht. simpl in *. lra.
    + left. split; [done|]. apply Forall_app. by split; [|repeat constructor].
  - destruct (Qlt_le_dec (drop_off_rate s) (drop_off_rate stage))
      as [Hlt'|Hle'].
    + right. exists (length seen), stage. split_and!; try done.
      * by rewrite lookup_app_r, Nat.sub_diag.
      * lra.
      * apply Forall_app. split; [|repeat constructor; lra].
        eapply Forall_impl; [exact Hle|]. intros t Ht. simpl in *. lra.
      * rewrite take_app_length.
        eapply Forall_impl; [exact Hle|]. intros t Ht. simpl in *. lra.
    + right. exists i, s. split_and!; try done.
      * by apply lookup_app_l_Some.
      * apply Forall_app. by split; [|repeat constructor].
      * rewrite take_app_le; [done|].
        apply lookup_lt_Some in Hi. lia.
Qed.

Lemma biggest_invariant_foldl later : ∀ seen acc,
  biggest_invariant seen acc →
  biggest_invariant (seen ++ later) (foldl biggest_step acc later).
Proof.
  induction later as [|stage later IH]; intros seen acc Hinv; simpl.
  - by rewrite app_nil_r.
  - rewrite cons_middle, app_assoc. apply IH.
    by apply biggest_invariant_step.
Qed.

Lemma find_biggest_drop_off_fold self :
  _find_biggest_drop_off self
  = match funnel_stages self with
    | [] => "unknown"
    | _ :: later => (foldl biggest_step (0%Q, "unknown") later).2
    end.
Proof.
  unfold _find_biggest_drop_off. by destruct (funnel_stages self).
Qed.

(** C6, counterexample. After the activation analysis of a user who
    passes every stage, no stage loses anyone, and the result is
    ["unknown"], which names no stage. *)
Lemma no_drop_off_gives_unknown :
  let self :=
    (analyze_user_activation (H := StandIns.iso_parser) new_analyzer
       one_user loyal_user).2 in
  users <$> funnel_stages self = [1; 1; 1; 1; 1; 1]
  ∧ _find_biggest_drop_off self = "unknown"
  ∧ ¬ first_largest_drop_off (funnel_stages self)
        (_find_biggest_drop_off self).
Proof.
  split_and!; [done|done|].
  intros (i & s & Hi & Hname & _).
  vm_compute in Hi, Hname.
  do 5 (destruct i as [|i]; [by simplify_eq|]). done.
Qed.

(** C6, as the code has it. When a stage after the first has a positive
    drop-off rate, the result names the first stage, the first one left
    aside, with the largest rate; when none has, it is ["unknown"]. *)
Theorem biggest_drop_off_first_largest_if_positive (self : FunnelAnalyzer) :
  ((∃ s, s ∈ tail (funnel_stages self) ∧ (0 < drop_off_rate s)%Q) →
   first_largest_drop_off (funnel_stages self) (_find_biggest_drop_off self))
  ∧ ((∀ s, s ∈ tail (funnel_stages self) → (drop_off_rate s <= 0)%Q) →
     _find_biggest_drop_off self = "unknown").
Proof.
  rewrite find_biggest_drop_off_fold.
  destruct (funnel_stages self) as [|s0 later].
  { split; [|done]. intros (s & Hs & _). by apply elem_of_nil in Hs. }
  cbn [tail].
  assert (biggest_invariant [] (0%Q, "unknown")) as Hinit.
  { left. by split. }
  apply (biggest_invariant_foldl later) in Hinit. rewrite app_nil_l in Hinit.
  destruct Hinit as [[-> Hall]|(i & s & Hi & -> & Hpos & Hle & Hlt)].
  - split; [|done]. intros (s & Hs & Hpos).
    rewrite Forall_forall in Hall. specialize (Hall s Hs). lra.
  - split.
    + intros _. exists i, s. split_and!; try done.
      * intros j t Hj. simpl in Hj. rewrite Forall_forall in Hle.
        apply Hle. by eapply list_elem_of_lookup_2.
      * intros j t Hji Hj. simpl in Hj. rewrite Forall_forall in Hlt.
        apply Hlt. apply list_elem_of_lookup. exists j.
        by rewrite lookup_take_lt.
    + intros Hall. specialize (Hall s).
      assert (drop_off_rate s <= 0)%Q; [|lra].
      apply Hall. by eapply list_elem_of_lookup_2.
Qed.


(** *** Recommendations *)

Lemma get_recommendations_computed total first later :
  let self := computed_funnel total first later in
  get_recommendations self
  = match (flags_of (funnel_stages self)
           ++ specific_of (funnel_stages self))%list with
    | [] => [Healthy]
    | _ => (flags_of (funnel_stages self)
            ++ specific_of (funnel_stages self))%list
    end.
Proof. intros self. reflexivity. Qed.

Lemma exceeds_20_iff s : exceeds_20 s = true ↔ (20 # 100 < drop_off_rate s)%Q.
Proof.
  unfold exceeds_20. rewrite negb_true_iff.
  destruct (Qle_bool (drop_off_rate s) (20 # 100)) eqn:E.
  - apply Qle_bool_iff in E. split; [done|lra].
  - split; [|done]. intros _.
    destruct (Qlt_le_dec (20 # 100) (drop_off_rate s)) as [|Hle]; [done|].
    apply Qle_bool_iff in Hle. congruence.
Qed.

Lemma find_existsb {A} (p q : A → bool) l x :
  List.find p l = Some x → existsb (λ y, p y || q y) l = true.
Proof.
  induction l as [|y l IH]; simpl; [done|].
  destruct (p y); [done|]. intros Hx. rewrite (IH Hx). apply orb_true_r.
Qed.

Lemma specific_of_cases stages :
  (specific_of stages = [] ∧ ∀ r, ¬ tracks_3_5_drop stages r)
  ∨ (∃ r, tracks_3_5_drop stages r
       ∧ specific_of stages = [SignificantDropOff r]).
Proof.
  unfold specific_of, tracks_3_5_drop.
  destruct (first_named "track_3" stages) as [t3|] eqn:E3; cycle 1.
  { left. split; [by destruct (existsb _ _)|]. by intros r (? & ? & ? & _). }
  destruct (first_named "track_5" stages) as [t5|] eqn:E5; cycle 1.
  { left. split; [by destruct (existsb _ _)|].
    by intros r (? & ? & _ & ? & _). }
  rewrite (find_existsb _ _ _ _ E3).
  destruct (Z.eqb_spec (users t3) 0) as [Hz|Hnz].
  { left. split; [done|]. intros r (? & ? & [= <-] & _ & ? & _). done. }
  cbv zeta.
  destruct (Qle_bool _ (15 # 100)) eqn:E; simpl.
  - left. split; [done|]. intros r (? & ? & [= <-] & [= <-] & _ & -> & Hr).
    apply Qle_bool_iff in E. lra.
  - right. eexists. split; [|done]. exists t3, t5. split_and!; try done.
    match goal with |- (_ < ?r)%Q =>
      destruct (Qlt_le_dec (15 # 100) r) as [|Hle]; [done|] end.
    apply Qle_bool_iff in Hle. congruence.
Qed.

Lemma first_stage_never_flagged total first later s :
  funnel_stages (computed_funnel total first later) !! 0%nat = Some s →
  ¬ (20 # 100 < drop_off_rate s)%Q.
Proof.
  intros [= <-]. simpl. destruct (0 <? total); [|lra].
  unfold FunnelAnalysis.Qratio. rewrite Z.sub_diag.
  unfold Qlt, Qdiv, Qmult, inject_Z. simpl. lia.
Qed.

(** C7, counterexample. Five of six sessions reach track 5: no stage
    drops more than 20% of its users, yet the result is the message
    about tracks 3 to 5, not the healthy one. *)
Lemma quiet_funnel_is_not_always_healthy :
  let self := (playlist_funnel one_early_leaver).2 in
  (∀ s, s ∈ funnel_stages self → ¬ (20 # 100 < drop_off_rate s)%Q)
  ∧ get_recommendations self = [SignificantDropOff (1 # 6)]
  ∧ ¬ recommendation_rule self.
Proof.
  assert (∀ s, s ∈ funnel_stages (playlist_funnel one_early_leaver).2 →
               ¬ (20 # 100 < drop_off_rate s)%Q) as Hquiet.
  { intros s Hs. apply Forall_forall with (x := s) (2 := Hs).
    vm_compute. repeat constructor; discriminate. }
  split_and!; [done|done|].
  intros [_ Hhealthy]. specialize (Hhealthy Hquiet). discriminate Hhealthy.
Qed.

(** C7, as the code has it. In a computed funnel a stage is flagged
    exactly when its drop-off rate exceeds 0.20. When no rate exceeds
    0.20, the result is the single healthy message, unless the stages
    named after track 3 and track 5 lose more than 15% of the users
    between them: then it is the single message about tracks 3 to 5. *)
Theorem recommendations_of_computed_funnel (total : Z) (first : string)
    (later : list (string * Z)) :
  let self := computed_funnel total first later in
  let quiet :=
    ∀ s, s ∈ funnel_stages self → ¬ (20 # 100 < drop_off_rate s)%Q in
  (∀ s, s ∈ funnel_stages self →
     flag_of s ∈ get_recommendations self ↔ (20 # 100 < drop_off_rate s)%Q)
  ∧ (quiet → (∀ r, ¬ tracks_3_5_drop (funnel_stages self) r) →
     get_recommendations self = [Healthy])
  ∧ (quiet → ∀ r, tracks_3_5_drop (funnel_stages self) r →
     get_recommendations self = [SignificantDropOff r]).
Proof.
  intros self quiet.
  pose proof (get_recommendations_computed total first later) as Hrec.
  fold self in Hrec.
  assert (∀ s, flag_of s ∈ get_recommendations self
               ↔ flag_of s ∈ flags_of (funnel_stages self)) as Hflag.
  { intros s. rewrite Hrec.
    destruct (specific_of_cases (funnel_stages self))
      as [[-> _]|(r & _ & ->)].
    - rewrite app_nil_r. destruct (flags_of _) eqn:E; [|done].
      split; intros Hin; [|by apply elem_of_nil in Hin].
      by apply list_elem_of_singleton in Hin.
    - destruct (flags_of _) eqn:E.
      + simpl. split; intros Hin; [|by apply elem_of_nil in Hin].
        by apply list_elem_of_singleton in Hin.
      + rewrite <- E.
        destruct (flags_of (funnel_stages self) ++ _)%list eqn:E';
          [by rewrite E in E'|].
        rewrite <- E', elem_of_app, list_elem_of_singleton.
        split; [intros [?|?]; [done|discriminate]|by left]. }
  assert (quiet → flags_of (funnel_stages self) = []) as Hquiet.
  { intros Hq. unfold flags_of.
    destruct (List.filter _ _) as [|s l] eqn:E; [done|]. exfalso.
    assert (In s (List.filter exceeds_20 (tail (funnel_stages self))))
      as Hin by (rewrite E; by left).
    apply filter_In in Hin as [Hin Hs]. apply exceeds_20_iff in Hs.
    apply (Hq s); [|done]. apply list_elem_of_In in Hin.
    by right. }
  split_and!.
  - intros s Hs. rewrite Hflag. unfold flags_of.
    rewrite list_elem_of_fmap. split.
    + intros (s' & Heq & Hin). apply list_elem_of_In, filter_In in Hin.
      destruct Hin as [_ Hs']. apply exceeds_20_iff in Hs'.
      injection Heq as -> _. done.
    + intros Hlt. exists s. split; [done|].
      apply list_elem_of_In, filter_In. split; [|by apply exceeds_20_iff].
      apply list_elem_of_In.
      apply list_elem_of_lookup in Hs as [[|i] Hi].
      * by apply first_stage_never_flagged in Hi.
      * apply list_elem_of_lookup. by exists i.
  - intros Hq Hnone. rewrite Hrec, (Hquiet Hq).
    destruct (specific_of_cases (funnel_stages self))
      as [[-> _]|(r & Hr & _)]; [done|]. by apply Hnone in Hr.
  - intros Hq r Hr. rewrite Hrec, (Hquiet Hq).
    destruct (specific_of_cases (funnel_stages self))
      as [[_ Hnone]|(r' & Hr' & ->)]; [by apply Hnone in Hr|].
    simpl. do 2 f_equal.
    destruct Hr as (t3 & t5 & H3 & H5 & _ & -> & _).
    destruct Hr' as (t3' & t5' & H3' & H5' & _ & -> & _). congruence.
Qed.

End FunnelFacts.

(** ** Rounding to a double *)

Module FloatFacts.
Import Float64.
Local Open Scope Z_scope.






















(** *** The rounding error *)




End FloatFacts.

(** ** A/B tests: sample size, assignment, confidence interval *)

Module ABFacts.
Import Python Pandas Float64 ABFramework Examples FloatFacts.
Local Open Scope string_scope.
Local Open Scope Z_scope.
Local Open Scope list_scope.

(** C9. Whenever [baseline_rate * mde] is zero, [calculate_sample_size]
    returns exactly 10000, whatever the power and the significance
    level. *)
Theorem zero_effect_gives_fallback_sample_size `{SciPyStats}
    (self : ABTestFramework) (baseline_rate mde power : Q) :
  (baseline_rate * mde == 0)%Q →
  calculate_sample_size self baseline_rate mde power = Some 10000.
Proof.
  intros Hzero. unfold calculate_sample_size.
  assert (Qeq_bool (Qabs (baseline_rate * (1 + mde) - baseline_rate)) 0
          = true) as ->; [|done].
  apply Qeq_bool_iff.
  assert (baseline_rate * (1 + mde) - baseline_rate == 0)%Q as ->
    by (rewrite <- Hzero; ring).
  done.
Qed.

Lemma zero_effect_gives_fallback_sample_size_witness :
  ((3 # 10) * 0 == 0)%Q
  ∧ calculate_sample_size (H := StandIns.table_stats)
      (new_framework (5 # 100)) (3 # 10) 0 (8 # 10) = Some 10000.
Proof.
  split; [reflexivity|].
  apply (zero_effect_gives_fallback_sample_size (H := StandIns.table_stats)).
  reflexivity.
Defined.


(** *** The split index *)








(** *** The exponent range *)










(** *** The confidence interval *)






End ABFacts.

(** ** Further facts about the table primitives *)

Module TableExtras.
Import Pandas PandasFacts.
Local Open Scope string_scope.
Local Open Scope Z_scope.
Local Open Scope list_scope.

Lemma groupby_group_nonempty {A} (key : A → string) rows k g :
  (k, g) ∈ groupby key rows → g ≠ [].
Proof.
  intros Hin. apply elem_of_groupby in Hin as [Hk ->].
  apply list_elem_of_fmap in Hk as (r & -> & Hr). intros Hnil.
  assert (r ∈ filter (λ r0, key r0 = key r) rows) as Hin
    by (by apply list_elem_of_filter).
  rewrite Hnil in Hin. by apply elem_of_nil in Hin.
Qed.

Lemma count_where_cons {A} (p : A → bool) (x : A) (l : list A) :
  count_where p (x :: l) = Z.b2z (p x) + count_where p l.
Proof. unfold count_where. simpl. destruct (p x); simpl; lia. Qed.

Lemma clip_bounds (lo hi x : Q) :
  (lo <= hi)%Q → (lo <= clip lo hi x)%Q ∧ (clip lo hi x <= hi)%Q.
Proof.
  intros Hle. unfold clip. destruct (Qlt_le_dec x lo); [split; lra|].
  destruct (Qlt_le_dec hi x); split; lra.
Qed.

Lemma length_remove_dups_le `{EqDecision K} (xs : list K) :
  (length (remove_dups xs) ≤ length xs)%nat.
Proof.
  induction xs as [|x xs IH]; [done|]. simpl.
  destruct (decide_rel elem_of x xs); simpl; lia.
Qed.

Lemma nunique_bounds `{EqDecision K} (xs : list K) :
  xs ≠ [] → 1 ≤ nunique xs ∧ nunique xs ≤ Z.of_nat (length xs).
Proof.
  intros Hne. unfold nunique. pose proof (length_remove_dups_le xs).
  split; [|lia]. destruct xs as [|x xs]; [done|].
  assert (x ∈ remove_dups (x :: xs)) as Hin
    by (apply elem_of_remove_dups; left).
  destruct (remove_dups (x :: xs)); [by apply elem_of_nil in Hin|simpl; lia].
Qed.

Lemma count_where_nonneg {A} (p : A → bool) (rows : list A) :
  0 ≤ count_where p rows.
Proof. unfold count_where. lia. Qed.

Lemma count_where_exclusive {A} (p q : A → bool) (rows : list A) :
  (∀ r, p r = true → q r = false) →
  count_where p rows + count_where q rows ≤ Z.of_nat (length rows).
Proof.
  intros Hex. induction rows as [|r rows IH]; [done|].
  rewrite !count_where_cons. specialize (Hex r).
  destruct (p r), (q r); try (by specialize (Hex eq_refl));
    simpl length; simpl Z.b2z; lia.
Qed.

Lemma foldl_min_le xs : ∀ x, foldl Z.min x xs ≤ x
  ∧ Forall (λ y, foldl Z.min x xs ≤ y) xs.
Proof.
  induction xs as [|y xs IH]; intros x; simpl; [split; [lia|constructor]|].
  destruct (IH (Z.min x y)) as [H1 H2]. split; [lia|].
  constructor; [lia|done].
Qed.

Lemma foldl_max_elem xs : ∀ x, foldl Z.max x xs ∈ x :: xs.
Proof.
  induction xs as [|y xs IH]; intros x; simpl; [left|].
  specialize (IH (Z.max x y)). apply elem_of_cons in IH as [->|IH].
  - destruct (Z.max_spec x y) as [[_ ->]|[_ ->]]; [right; left|left].
  - right; by right.
Qed.

Lemma length_filter_fmap {A B} (p : B → bool) (f : A → B) (l : list A) :
  length (List.filter p (f <$> l)) = length (List.filter (p ∘ f) l).
Proof.
  induction l as [|x l IH]; [done|].
  rewrite fmap_cons. cbn [List.filter compose].
  destruct (p (f x)); cbn [length]; by rewrite IH.
Qed.

Lemma length_filter_filter {A} (p q : A → bool) (l : list A) :
  length (List.filter p (List.filter q l))
  = length (List.filter (λ x, q x && p x) l).
Proof.
  induction l as [|x l IH]; [done|].
  cbn [List.filter]. destruct (q x); cbn [List.filter andb]; [|done].
  destruct (p x); simpl; by rewrite IH.
Qed.

Lemma length_filter_ext {A} (p q : A → bool) (l : list A) :
  (∀ x, p x = q x) → length (List.filter p l) = length (List.filter q l).
Proof.
  intros Hext. induction l as [|x l IH]; [done|].
  cbn [List.filter]. rewrite Hext. destruct (q x); simpl; by rewrite IH.
Qed.

Lemma length_filter_false {A} (p : A → bool) (l : list A) :
  (∀ x, p x = false) → length (List.filter p l) = 0%nat.
Proof.
  intros Hext. induction l as [|x l IH]; [done|].
  cbn [List.filter]. by rewrite Hext.
Qed.

Lemma occurrences_NoDup (u : string) (l : list string) :
  NoDup l →
  length (List.filter (λ x, bool_decide (x = u)) l)
  = if bool_decide (u ∈ l) then 1%nat else 0%nat.
Proof.
  induction 1 as [|x l Hx Hnd IH]; [done|].
  cbn [List.filter]. destruct (decide (x = u)) as [->|Hne].
  - rewrite bool_decide_eq_true_2 by done.
    rewrite (bool_decide_eq_true_2 (u ∈ u :: l)) by left.
    rewrite (bool_decide_eq_false_2 (u ∈ l)) in IH by done.
    simpl. by rewrite IH.
  - rewrite bool_decide_eq_false_2 by done. rewrite IH.
    apply (f_equal (λ b : bool, if b then 1%nat else 0%nat)).
    apply bool_decide_ext. rewrite elem_of_cons.
    split; [by right|]. intros [Heq|?]; [by symmetry in Heq|done].
Qed.


Lemma length_filter_bool {A} (P : A → Prop) `{∀ x, Decision (P x)}
    (l : list A) :
  length (filter P l) = length (List.filter (λ x, bool_decide (P x)) l).
Proof.
  induction l as [|x l IH]; [done|].
  rewrite filter_cons. cbn [List.filter].
  destruct (decide (P x)).
  - rewrite bool_decide_eq_true_2 by done. simpl. by rewrite IH.
  - by rewrite bool_decide_eq_false_2 by done.
Qed.

End TableExtras.

(** ** Further properties of the feature table *)

Module FeatureExtras.
Import Python Pandas Time Tables FeatureEngineering Properties PandasFacts
  FeatureFacts TableExtras Examples.
Local Open Scope string_scope.
Local Open Scope Z_scope.
Local Open Scope list_scope.

(** *** Row count *)
















(** *** Streak bounds *)

Lemma foldl_min_increasing x l :
  StronglySorted Z.lt (x :: l) → foldl Z.min x l = x.
Proof.
  revert x. induction l as [|y l IH]; intros x Hs; [done|].
  apply StronglySorted_inv in Hs as [Hs Hx]. simpl.
  apply Forall_cons in Hx as [Hxy Hx].
  rewrite Z.min_l by lia. apply IH. constructor; [|done].
  by apply StronglySorted_inv in Hs as [? _].
Qed.

Lemma foldl_max_increasing x l :
  StronglySorted Z.lt (x :: l) → x + Z.of_nat (length l) ≤ foldl Z.max x l.
Proof.
  revert x. induction l as [|y l IH]; intros x Hs; [simpl; lia|].
  apply StronglySorted_inv in Hs as [Hs Hx]. simpl.
  apply Forall_cons in Hx as [Hxy Hx].
  rewrite Z.max_r by lia. specialize (IH y Hs). lia.
Qed.

Lemma list_max_le_sumZ xs :
  Forall (λ x, 0 ≤ x) xs → list_max xs ≤ sumZ xs.
Proof.
  destruct xs as [|x xs]; [done|]. intros Hall.
  apply Forall_cons in Hall as [Hx Hall]. unfold list_max. simpl.
  revert x Hx. induction Hall as [|y ys Hy Hall IH]; intros x Hx; simpl; [lia|].
  specialize (IH (Z.max x y) ltac:(lia)). lia.
Qed.

Lemma Qratio_unit_interval (a b : Z) :
  0 < a → a ≤ b → (0 < Qratio a b)%Q ∧ (Qratio a b <= 1)%Q.
Proof.
  intros Ha Hab. unfold Qratio.
  assert (0 < inject_Z a)%Q by (change 0%Q with (inject_Z 0);
    rewrite <- Zlt_Qlt; lia).
  assert (0 < inject_Z b)%Q by (change 0%Q with (inject_Z 0);
    rewrite <- Zlt_Qlt; lia).
  assert (inject_Z a <= inject_Z b)%Q by (rewrite <- Zle_Qle; lia).
  split.
  - apply Qlt_shift_div_l; [done|]. lra.
  - apply Qle_shift_div_r; [done|]. lra.
Qed.

Lemma streak_features_closed_form dates :
  dates ≠ [] →
  streak_features_of_dates dates
  = let streaks := run_lengths (split_runs dates) in
    mkStreak (List.last streaks 0) (list_max streaks)
      (Qratio (sumZ streaks) (Z.of_nat (length streaks)))
      (Z.of_nat (length streaks)) (Z.of_nat (length dates))
      (if 0 <? list_max dates - list_min dates + 1
       then Qratio (Z.of_nat (length dates))
                   (list_max dates - list_min dates + 1)
       else 0%Q).
Proof.
  intros Hne. destruct dates as [|d ds]; [done|].
  unfold streak_features_of_dates.
  rewrite compute_streaks_split_runs.
  destruct (split_runs_cons d ds) as (run & runs & ->). done.
Qed.

(** X4. Every row of the streak table has at least one streak, streaks of at
    least one day, [current_streak <= max_streak <= active_days], and an
    [active_days_ratio] in (0, 1]. *)
Theorem streak_features_bounds (sessions : list (SessionRow Z))
    (u : string) (f : StreakFeatures) :
  (u, f) ∈ _create_listening_streak_features sessions →
  1 ≤ streak_count f
  ∧ 1 ≤ current_streak f
  ∧ current_streak f ≤ max_streak f
  ∧ max_streak f ≤ active_days f
  ∧ (0 < active_days_ratio f)%Q ∧ (active_days_ratio f <= 1)%Q.
Proof.
  intros Hrow. unfold _create_listening_streak_features in Hrow.
  apply list_elem_of_fmap in Hrow as ([u' rows] & [= -> ->] & Hg).
  apply elem_of_groupby in Hg as [Hu ->].
  fold (active_dates u' sessions).
  pose proof (active_dates_increasing u' sessions) as Hsorted.
  assert (∃ s, s ∈ sessions ∧ user_id s = u') as (s & Hs & Hsu).
  { apply list_elem_of_fmap in Hu as (s & -> & Hs). by exists s. }
  assert (date (timestamp s) ∈ active_dates u' sessions) as Hd.
  { apply active_dates_spec. by exists s. }
  destruct (active_dates u' sessions) as [|d ds] eqn:Hdates;
    [by apply elem_of_nil in Hd|].
  rewrite (streak_features_closed_form (d :: ds)) by done.
  destruct (split_runs_run_decomposition (d :: ds)) as (Hcat & Hruns & _).
  destruct (split_runs_cons d ds) as (run & runs & Hsplit).
  rewrite Hsplit in *. cbv zeta.
  cbn [streak_count current_streak max_streak active_days active_days_ratio].
  assert (Forall (λ x, 1 ≤ x) (run_lengths ((d :: run) :: runs))) as Hpos.
  { unfold run_lengths. apply Forall_fmap.
    eapply Forall_impl; [exact Hruns|]. intros r [Hr _]. simpl.
    destruct r; [done|]. simpl. lia. }
  assert (1 ≤ List.last (run_lengths ((d :: run) :: runs)) 0) as Hlast.
  { rewrite last_run_lengths.
    destruct (last ((d :: run) :: runs)) as [r|] eqn:E;
      [|by apply last_None in E].
    apply last_Some_elem_of in E. rewrite Forall_forall in Hruns.
    destruct (Hruns r E) as [Hr _]. simpl. destruct r; [done|]. simpl. lia. }
  assert (sumZ (run_lengths ((d :: run) :: runs))
          = Z.of_nat (length (d :: ds))) as Hsum.
  { by rewrite sumZ_run_lengths, Hcat. }
  split_and!.
  - unfold run_lengths. rewrite length_fmap. simpl. lia.
  - done.
  - apply last_le_list_max.
  - rewrite <- Hsum. apply list_max_le_sumZ.
    eapply Forall_impl; [exact Hpos|]. intros x Hx. simpl in *. lia.
  - assert (Z.of_nat (length (d :: ds)) ≤ list_max (d :: ds)
                                          - list_min (d :: ds) + 1) as Hrange.
    { unfold list_max, list_min. rewrite foldl_min_increasing by done.
      pose proof (foldl_max_increasing d ds Hsorted). simpl length. lia. }
    destruct (Z.ltb_spec 0 (list_max (d :: ds) - list_min (d :: ds) + 1));
      [|simpl length in *; lia].
    apply Qratio_unit_interval; [simpl; lia|done].
  - assert (Z.of_nat (length (d :: ds)) ≤ list_max (d :: ds)
                                          - list_min (d :: ds) + 1) as Hrange.
    { unfold list_max, list_min. rewrite foldl_min_increasing by done.
      pose proof (foldl_max_increasing d ds Hsorted). simpl length. lia. }
    destruct (Z.ltb_spec 0 (list_max (d :: ds) - list_min (d :: ds) + 1));
      [|simpl length in *; lia].
    apply Qratio_unit_interval; [simpl; lia|done].
Qed.


Lemma streak_features_bounds_witness :
  ∃ f, ("u1", f) ∈ _create_listening_streak_features three_day_sessions
    ∧ 1 ≤ streak_count f ∧ 1 ≤ current_streak f
    ∧ current_streak f ≤ max_streak f ∧ max_streak f ≤ active_days f
    ∧ (0 < active_days_ratio f)%Q ∧ (active_days_ratio f <= 1)%Q.
Proof.
  eexists. 
  assert (("u1", mkStreak 2 2 (Qratio 2 1) 1 2 (Qratio 2 2))
          ∈ _create_listening_streak_features three_day_sessions) as Hrow
    by (vm_compute; left).
  split; [exact Hrow|].
  exact (streak_features_bounds three_day_sessions "u1" _ Hrow).
Defined.

(** *** Temporal buckets *)

Lemma hour_range (t : Z) : 0 ≤ hour t < 24.
Proof. unfold hour. apply Z.mod_pos_bound. lia. Qed.

Lemma exactly_one_bucket (h : Z) :
  0 ≤ h < 24 →
  Z.b2z (in_bucket night h) + Z.b2z (in_bucket morning h)
  + Z.b2z (in_bucket afternoon h) + Z.b2z (in_bucket evening h) = 1.
Proof.
  intros Hh. unfold in_bucket. rewrite (time_bucket_right_closed h Hh).
  destruct (h <=? 6); [done|]. destruct (h <=? 12); [done|].
  by destruct (h <=? 18).
Qed.

Lemma bucket_counts_partition (hours : list Z) :
  Forall (λ h, 0 ≤ h < 24) hours →
  count_where (in_bucket night) hours + count_where (in_bucket morning) hours
  + count_where (in_bucket afternoon) hours
  + count_where (in_bucket evening) hours
  = Z.of_nat (length hours).
Proof.
  induction 1 as [|h hours Hh _ IH]; [done|].
  rewrite !count_where_cons. pose proof (exactly_one_bucket h Hh).
  simpl length. lia.
Qed.

Lemma Qratio_share (c n : Z) :
  0 ≤ c → c ≤ n → (0 <= Qratio c n)%Q ∧ (Qratio c n <= 1)%Q.
Proof.
  intros Hc Hn. unfold Qratio. destruct (decide (n = 0)) as [->|Hne].
  { assert (c = 0) as -> by lia. by split. }
  assert (0 < inject_Z n)%Q
    by (change 0%Q with (inject_Z 0); rewrite <- Zlt_Qlt; lia).
  assert (0 <= inject_Z c)%Q
    by (change 0%Q with (inject_Z 0); rewrite <- Zle_Qle; lia).
  assert (inject_Z c <= inject_Z n)%Q by (rewrite <- Zle_Qle; lia).
  split.
  - apply Qle_shift_div_l; [done|]. lra.
  - apply Qle_shift_div_r; [done|]. lra.
Qed.

Lemma Qratio_extremes (c n : Z) :
  0 < n →
  ((Qratio c n == 0)%Q ↔ c = 0) ∧ ((Qratio c n == 1)%Q ↔ c = n).
Proof.
  intros Hn. unfold Qratio.
  assert (0 < inject_Z n)%Q as Hn'
    by (change 0%Q with (inject_Z 0); rewrite <- Zlt_Qlt; lia).
  assert (inject_Z c / inject_Z n * inject_Z n == inject_Z c)%Q as Hq.
  { field. intros Hz. rewrite Hz in Hn'. by apply Qlt_irrefl in Hn'. }
  split; split.
  - intros Hr. rewrite Hr in Hq. apply inject_Z_injective.
    rewrite <- Hq. change (inject_Z 0) with 0%Q. ring.
  - intros ->. unfold Qdiv. apply Qmult_0_l.
  - intros Hr. rewrite Hr in Hq. apply inject_Z_injective.
    rewrite <- Hq. ring.
  - intros ->. apply Qmult_inv_r. intros Hz. rewrite Hz in Hn'.
    by apply Qlt_irrefl in Hn'.
Qed.

(** X5. Every session of a user falls in exactly one time bucket: the four
    bucket counts of the user add up to the user's number of sessions.
    Each of the four time-of-day ratios lies in [0, 1]; it is 0 exactly
    when no session of the user falls in its bucket and 1 exactly when
    all of them do. *)
Theorem time_buckets_partition_the_sessions `{NumericLib}
    (sessions : list (SessionRow Z)) (u : string) (f : TemporalFeatures) :
  (u, f) ∈ _create_temporal_features sessions →
  let rows := filter (λ s, user_id s = u) sessions in
  let n := Z.of_nat (length rows) in
  let count b :=
    count_where (in_bucket b) ((λ s, hour (timestamp s)) <$> rows) in
  let share (ratio : Q) (c : Z) :=
    (0 <= ratio)%Q ∧ (ratio <= 1)%Q
    ∧ ((ratio == 0)%Q ↔ c = 0) ∧ ((ratio == 1)%Q ↔ c = n) in
  1 ≤ n
  ∧ count night + count morning + count afternoon + count evening = n
  ∧ share (night_ratio f) (count night)
  ∧ share (morning_ratio f) (count morning)
  ∧ share (afternoon_ratio f) (count afternoon)
  ∧ share (evening_ratio f) (count evening).
Proof.
  intros Hrow rows n count share. unfold _create_temporal_features in Hrow.
  apply list_elem_of_fmap in Hrow as ([u' rows'] & [= -> ->] & Hg).
  pose proof (groupby_group_nonempty _ _ _ _ Hg) as Hne.
  apply elem_of_groupby in Hg as [_ ->]. fold rows in Hne |- *.
  unfold temporal_features_of. cbn [night_ratio morning_ratio afternoon_ratio
    evening_ratio].
  set (hours := (λ s, hour (timestamp s)) <$> rows) in *.
  assert (Forall (λ h, 0 ≤ h < 24) hours) as Hrange.
  { unfold hours. apply Forall_fmap, Forall_forall. intros s _.
    apply hour_range. }
  pose proof (bucket_counts_partition hours Hrange) as Hsum.
  assert (length hours = length rows) as Hlen by apply length_fmap.
  rewrite Hlen in Hsum. fold n in Hsum |- *.
  assert (1 ≤ n) as Hpos by (unfold n; destruct rows; [done|simpl; lia]).
  assert (∀ b, 0 ≤ count b ∧ count b ≤ n) as Hcount.
  { intros b. unfold count. split; [unfold count_where; lia|].
    unfold n. rewrite <- Hlen. apply count_where_le_length. }
  assert (∀ b, share (Qratio (count b) n) (count b)) as Hshare.
  { intros b. destruct (Hcount b) as [H0 H1].
    destruct (Qratio_share (count b) n H0 H1) as [Hlo Hhi].
    destruct (Qratio_extremes (count b) n ltac:(lia)) as [Hz Ho].
    by repeat split; try apply Hz; try apply Ho. }
  split; [done|]. split; [exact Hsum|].
  split_and!; apply Hshare.
Qed.

Lemma time_buckets_partition_the_sessions_witness :
  ∃ f, ("u1", f) ∈ _create_temporal_features (H := StandIns.approx_numeric)
                     three_day_sessions
    ∧ (0 <= night_ratio f)%Q ∧ (night_ratio f <= 1)%Q.
Proof.
  eexists.
  assert (("u1", temporal_features_of (H := StandIns.approx_numeric)
                   (filter (λ s, user_id s = "u1") three_day_sessions))
          ∈ _create_temporal_features (H := StandIns.approx_numeric)
              three_day_sessions) as Hrow by (vm_compute; left).
  split; [exact Hrow|].
  pose proof (time_buckets_partition_the_sessions
                (H := StandIns.approx_numeric) three_day_sessions "u1" _
                Hrow) as (_ & _ & (Hlo & Hhi & _) & _).
  by split.
Defined.

(** *** Playlist behaviour *)

Lemma Qratio_zero (n : Z) : (Qratio 0 n == 0)%Q.
Proof. unfold Qratio, Qdiv. apply Qmult_0_l. Qed.

Lemma bool_mean_bounds {A} (p : A → bool) (rows : list A) :
  (0 <= bool_mean p rows)%Q ∧ (bool_mean p rows <= 1)%Q.
Proof.
  unfold bool_mean. destruct rows as [|r rows].
  { unfold Qratio, Qdiv, Qle. simpl. lia. }
  pose proof (count_where_le_length p (r :: rows)) as Hle.
  assert (0 ≤ count_where p (r :: rows)) as H0 by (unfold count_where; lia).
  set (c := count_where p (r :: rows)) in *.
  assert (0 < Z.of_nat (length (r :: rows))) as Hn by (simpl; lia).
  set (n := Z.of_nat (length (r :: rows))) in *.
  unfold Qratio.
  assert (0 < inject_Z n)%Q by (change 0%Q with (inject_Z 0);
    rewrite <- Zlt_Qlt; lia).
  assert (0 <= inject_Z c)%Q by (change 0%Q with (inject_Z 0);
    rewrite <- Zle_Qle; lia).
  assert (inject_Z c <= inject_Z n)%Q by (rewrite <- Zle_Qle; lia).
  split.
  - apply Qle_shift_div_l; [done|]. lra.
  - apply Qle_shift_div_r; [done|]. lra.
Qed.

(** X6. Every row of the playlist table has a session ratio and a skip rate
    in [0, 1]; a user without any playlist session gets ratio 0, count 0,
    skip rate 0 and completion tendency 1. *)
Theorem playlist_features_bounds_and_default (sessions : list (SessionRow Z))
    (u : string) (f : PlaylistFeatures) :
  (u, f) ∈ _create_playlist_behavior_features sessions →
  (0 <= playlist_session_ratio f)%Q ∧ (playlist_session_ratio f <= 1)%Q
  ∧ (0 <= playlist_skip_rate f)%Q ∧ (playlist_skip_rate f <= 1)%Q
  ∧ ((∀ s, s ∈ sessions → user_id s = u → context s ≠ "playlist") →
     (playlist_session_ratio f == 0)%Q ∧ playlist_track_count f = 0
     ∧ playlist_skip_rate f = 0%Q ∧ playlist_completion_tendency f = 1%Q).
Proof.
  intros Hrow. unfold _create_playlist_behavior_features in Hrow.
  apply list_elem_of_fmap in Hrow as ([u' rows] & [= -> ->] & Hg).
  pose proof (groupby_group_nonempty _ _ _ _ Hg) as Hne.
  apply elem_of_groupby in Hg as [Hu ->].
  set (rows := filter (λ r, user_id r = u') sessions) in *.
  unfold playlist_features_of.
  cbn [playlist_session_ratio playlist_track_count playlist_skip_rate
         playlist_completion_tendency].
  assert (0 < Z.of_nat (length rows)) as Hpos
    by (destruct rows; [done|simpl; lia]).
  apply Z.ltb_lt in Hpos as Hposb. rewrite Hposb.
  pose proof (bool_mean_bounds is_playlist rows) as [Hr0 Hr1].
  split_and!.
  - exact Hr0.
  - exact Hr1.
  - destruct (List.filter is_playlist rows); [done|]. apply bool_mean_bounds.
  - destruct (List.filter is_playlist rows); [done|]. apply bool_mean_bounds.
  - intros Hnone.
    assert (List.filter is_playlist rows = []) as ->.
    { destruct (List.filter is_playlist rows) as [|s l] eqn:E; [done|].
      assert (In s (List.filter is_playlist rows)) as Hin
        by (rewrite E; by left).
      apply filter_In in Hin as [Hin Hp]. apply list_elem_of_In in Hin.
      apply list_elem_of_filter in Hin as [Hsu Hin].
      apply bool_decide_eq_true in Hp. by apply Hnone in Hp. }
    split_and!; try done; apply Qratio_zero.
Qed.

Lemma playlist_features_bounds_and_default_witness :
  ∃ f, ("u2", f) ∈ _create_playlist_behavior_features three_day_sessions
    ∧ (∀ s, s ∈ three_day_sessions → user_id s = "u2" →
            context s ≠ "playlist")
    ∧ (playlist_session_ratio f == 0)%Q ∧ playlist_track_count f = 0.
Proof.
  eexists.
  assert (("u2", playlist_features_of
                   (filter (λ s, user_id s = "u2") three_day_sessions))
          ∈ _create_playlist_behavior_features three_day_sessions) as Hrow
    by (vm_compute; right; left).
  assert (∀ s, s ∈ three_day_sessions → user_id s = "u2" →
               context s ≠ "playlist") as Hnone.
  { intros s Hs Hu Hc. unfold three_day_sessions in Hs.
    repeat (apply elem_of_cons in Hs as [->|Hs]; [discriminate|]).
    by apply elem_of_nil in Hs. }
  split; [exact Hrow|]. split; [exact Hnone|].
  pose proof (playlist_features_bounds_and_default three_day_sessions "u2" _
                Hrow) as (_ & _ & _ & _ & Hdef).
  destruct (Hdef Hnone) as (Hr & Hc & _). by split.
Defined.

(** *** Users missing from the users table *)



(** *** Session statistics *)

Lemma clipped_ratio_bounds (a b x : Q) :
  clipped_ratio a b = Some x → (0 <= x)%Q ∧ (x <= 1)%Q.
Proof.
  unfold clipped_ratio. destruct (Qeq_bool b 0).
  - destruct (Qeq_bool a 0); [done|].
    destruct (Qle_bool 0 a); intros [= <-]; split; lra.
  - intros [= <-]. apply clip_bounds. lra.
Qed.

Lemma Qratio_ge_1 (a b : Z) : 0 < b → b ≤ a → (1 <= Qratio a b)%Q.
Proof.
  intros Hb Hab. unfold Qratio.
  assert (0 < inject_Z b)%Q
    by (change 0%Q with (inject_Z 0); rewrite <- Zlt_Qlt; lia).
  assert (inject_Z b <= inject_Z a)%Q by (rewrite <- Zle_Qle; lia).
  apply Qle_shift_div_l; [done|]. lra.
Qed.

(** X8. Every row of the session table describes a user with [n >= 1] rows
    in the joined table: the distinct sessions and tracks number between
    1 and [n], the skips between 0 and [n], the skip rate is the share of
    skipped rows, the tracks per session are at least 1 and the listen
    ratio, when it is a number, lies in [0, 1]. *)
Theorem session_features_bounds `{NumericLib}
    (sessions : list (SessionRow Z * option TrackRow)) (u : string)
    (f : SessionFeatures) :
  (u, f) ∈ _create_session_features sessions →
  let n := Z.of_nat (length (filter (λ r, swt_user_id r = u) sessions)) in
  1 ≤ n
  ∧ (1 ≤ session_count f ∧ session_count f ≤ n)
  ∧ (1 ≤ unique_tracks f ∧ unique_tracks f ≤ n)
  ∧ (0 ≤ total_skips f ∧ total_skips f ≤ n)
  ∧ skip_rate f = Qratio (total_skips f) n
  ∧ ((0 <= skip_rate f)%Q ∧ (skip_rate f <= 1)%Q)
  ∧ (1 <= avg_tracks_per_session f)%Q
  ∧ (∀ x, avg_listen_ratio f = Some x → (0 <= x)%Q ∧ (x <= 1)%Q).
Proof.
  intros Hrow n. unfold _create_session_features in Hrow.
  apply list_elem_of_fmap in Hrow as ([u' rows] & [= -> ->] & Hg).
  pose proof (groupby_group_nonempty _ _ _ _ Hg) as Hne.
  apply elem_of_groupby in Hg as [_ ->].
  set (rows := filter (λ r, swt_user_id r = u') sessions) in *.
  assert (1 ≤ n) as Hn by (unfold n; destruct rows; [done|simpl; lia]).
  unfold session_features_of.
  cbn [session_count unique_tracks total_skips skip_rate
         avg_tracks_per_session avg_listen_ratio].
  fold n.
  assert (∀ (g : SessionRow Z * option TrackRow → string),
            1 ≤ nunique (g <$> rows) ∧ nunique (g <$> rows) ≤ n) as Huniq.
  { intros g. unfold n. rewrite <- (length_fmap g rows).
    apply nunique_bounds. by destruct rows. }
  split_and!; try apply Huniq; try done.
  - apply count_where_nonneg.
  - apply count_where_le_length.
  - apply bool_mean_bounds.
  - apply bool_mean_bounds.
  - apply Qratio_ge_1; [|apply Huniq]. pose proof (Huniq (λ r, session_id r.1)).
    lia.
  - intros x. apply clipped_ratio_bounds.
Qed.

Lemma session_features_bounds_witness :
  ∃ f, ("u1", f) ∈ _create_session_features (H := StandIns.approx_numeric)
                     (merge_tracks three_day_sessions one_track)
    ∧ 1 ≤ session_count f ∧ (1 <= avg_tracks_per_session f)%Q.
Proof.
  eexists.
  assert (("u1", session_features_of (H := StandIns.approx_numeric)
                   (filter (λ r, swt_user_id r = "u1")
                      (merge_tracks three_day_sessions one_track)))
          ∈ _create_session_features (H := StandIns.approx_numeric)
              (merge_tracks three_day_sessions one_track)) as Hrow
    by (vm_compute; left).
  split; [exact Hrow|].
  pose proof (session_features_bounds (H := StandIns.approx_numeric)
                (merge_tracks three_day_sessions one_track) "u1" _ Hrow)
    as (_ & [Hc _] & _ & _ & _ & _ & Ha & _).
  by split.
Defined.

(** *** Engagement *)

Lemma list_max_ge (xs : list Z) x : x ∈ xs → x ≤ list_max xs.
Proof.
  destruct xs as [|y ys]; [by intros ?%elem_of_nil|].
  unfold list_max. destruct (foldl_max_ge ys y) as [Hy Hys].
  intros [->|Hin]%elem_of_cons; [done|].
  rewrite Forall_forall in Hys. by apply Hys.
Qed.

Lemma list_min_le (xs : list Z) x : x ∈ xs → list_min xs ≤ x.
Proof.
  destruct xs as [|y ys]; [by intros ?%elem_of_nil|].
  unfold list_min. destruct (foldl_min_le ys y) as [Hy Hys].
  intros [->|Hin]%elem_of_cons; [done|].
  rewrite Forall_forall in Hys. by apply Hys.
Qed.

Lemma list_max_elem (xs : list Z) : xs ≠ [] → list_max xs ∈ xs.
Proof. destruct xs as [|y ys]; [done|]. intros _. apply foldl_max_elem. Qed.

Lemma timedelta_days_mono (a b : Z) :
  a ≤ b → timedelta_days a ≤ timedelta_days b.
Proof.
  intros Hab. unfold timedelta_days. apply Z.div_le_mono; [|done].
  by vm_compute.
Qed.

(** X9. Days are counted back from the latest session of the whole table, so
    in every row of the engagement table
    [0 <= days_since_last_listen <= days_since_first_listen]; there is
    at least one event, [avg_daily_sessions] lies in [0, 100] and the
    engagement score in [0, 1]. When the table is not empty some user
    has [days_since_last_listen = 0]. *)
Theorem engagement_features_bounds `{NumericLib}
    (sessions : list (SessionRow Z)) :
  (∀ u f, (u, f) ∈ _create_engagement_features sessions →
     0 ≤ days_since_last_listen f
     ∧ days_since_last_listen f ≤ days_since_first_listen f
     ∧ 1 ≤ total_events f
     ∧ (0 <= avg_daily_sessions f)%Q ∧ (avg_daily_sessions f <= 100)%Q
     ∧ (0 <= engagement_score f)%Q ∧ (engagement_score f <= 1)%Q)
  ∧ (sessions ≠ [] →
     ∃ u f, (u, f) ∈ _create_engagement_features sessions
       ∧ days_since_last_listen f = 0).
Proof.
  unfold _create_engagement_features.
  set (current_date := list_max (timestamp <$> sessions)).
  split.
  - intros u f Hrow.
    apply list_elem_of_fmap in Hrow as ([u' rows] & [= -> ->] & Hg).
    pose proof (groupby_group_nonempty _ _ _ _ Hg) as Hne.
    apply elem_of_groupby in Hg as [_ ->].
    set (rows := filter (λ r, user_id r = u') sessions) in *.
    unfold engagement_features_of.
    cbn [days_since_last_listen days_since_first_listen total_events
           avg_daily_sessions engagement_score].
    set (stamps := timestamp <$> rows).
    assert (stamps ≠ []) as Hstamps by (unfold stamps; by destruct rows).
    pose proof (list_max_elem stamps Hstamps) as Hmax.
    assert (list_min stamps ≤ list_max stamps) as Hminmax
      by (by apply list_min_le).
    assert (list_max stamps ≤ current_date) as Hcur.
    { apply list_max_ge.
      apply list_elem_of_fmap in Hmax as (s & Heq & Hs).
      apply list_elem_of_filter in Hs as [_ Hs].
      apply list_elem_of_fmap. by exists s. }
    split_and!.
    + change 0 with (timedelta_days 0). apply timedelta_days_mono. lia.
    + apply timedelta_days_mono. lia.
    + destruct rows; [done|simpl; lia].
    + apply clip_bounds. lra.
    + apply clip_bounds. lra.
    + match goal with
      | |- (0 <= (1 - clip 0 1 ?a) * _ + clip 0 1 ?b * _ + clip 0 1 ?c * _)%Q =>
          pose proof (clip_bounds 0 1 a ltac:(lra));
          pose proof (clip_bounds 0 1 b ltac:(lra));
          pose proof (clip_bounds 0 1 c ltac:(lra))
      end. lra.
    + match goal with
      | |- ((1 - clip 0 1 ?a) * _ + clip 0 1 ?b * _ + clip 0 1 ?c * _ <= 1)%Q =>
          pose proof (clip_bounds 0 1 a ltac:(lra));
          pose proof (clip_bounds 0 1 b ltac:(lra));
          pose proof (clip_bounds 0 1 c ltac:(lra))
      end. lra.
  - intros Hne.
    assert (timestamp <$> sessions ≠ []) as Hst by (by destruct sessions).
    pose proof (list_max_elem _ Hst) as Hmax. fold current_date in Hmax.
    apply list_elem_of_fmap in Hmax as (s & Hts & Hs).
    set (rows := filter (λ r, user_id r = user_id s) sessions).
    exists (user_id s), (engagement_features_of current_date rows).
    split.
    + apply list_elem_of_fmap. exists (user_id s, rows). split; [done|].
      apply elem_of_groupby. split; [|done].
      apply list_elem_of_fmap. by exists s.
    + unfold engagement_features_of. cbn [days_since_last_listen].
      assert (list_max (timestamp <$> rows) = current_date) as ->.
      { apply Z.le_antisymm.
        - assert (timestamp <$> rows ≠ []) as Hr.
          { assert (s ∈ rows) as Hin by (by apply list_elem_of_filter).
            destruct rows; [by apply elem_of_nil in Hin|done]. }
          pose proof (list_max_elem _ Hr) as Hm.
          apply list_elem_of_fmap in Hm as (s' & Heq & Hs').
          apply list_elem_of_filter in Hs' as [_ Hs'].
          apply list_max_ge, list_elem_of_fmap. by exists s'.
        - rewrite Hts. apply list_max_ge, list_elem_of_fmap. exists s.
          split; [done|]. by apply list_elem_of_filter. }
      by rewrite Z.sub_diag.
Qed.

(** *** Audio preferences *)

Lemma bool_mean_exclusive {A} (p q : A → bool) (rows : list A) :
  (∀ r, p r = true → q r = false) →
  (bool_mean p rows + bool_mean q rows <= 1)%Q.
Proof.
  intros Hex. unfold bool_mean. destruct rows as [|r rows].
  { unfold Qratio, Qdiv, Qle. simpl. lia. }
  pose proof (count_where_exclusive p q (r :: rows) Hex) as Hle.
  set (n := Z.of_nat (length (r :: rows))) in *.
  assert (0 < n) as Hn by (unfold n; simpl; lia).
  unfold Qratio, Qdiv. rewrite <- Qmult_plus_distr_l, <- inject_Z_plus.
  assert (0 < inject_Z n)%Q
    by (change 0%Q with (inject_Z 0); rewrite <- Zlt_Qlt; lia).
  assert (inject_Z (count_where p (r :: rows) + count_where q (r :: rows))
          <= inject_Z n)%Q by (rewrite <- Zle_Qle; lia).
  apply Qle_shift_div_r; [done|]. lra.
Qed.

Lemma audio_stat_variance_nonneg `{NumericLib} (col : TrackRow → Q)
    (rows : list (SessionRow Z * option TrackRow)) :
  (0 <= variance (audio_stat col rows))%Q.
Proof.
  unfold audio_stat, nanstd, std. cbn [variance].
  destruct (mean _); [|simpl; lra].
  destruct (decide _); simpl; [lra|]. apply np_sqrt_nonneg.
Qed.

(** X10. A track cannot be both high-energy (energy above 0.7) and mellow
    (energy below 0.4), so in every row of the audio table the two
    ratios are non-negative and add up to at most 1; the five variance
    columns are never negative. *)
Theorem audio_ratios_exclusive `{NumericLib}
    (sessions : list (SessionRow Z * option TrackRow)) (u : string)
    (f : AudioFeatures) :
  (u, f) ∈ _create_audio_preference_features sessions →
  (0 <= high_energy_ratio f)%Q ∧ (0 <= mellow_music_ratio f)%Q
  ∧ (high_energy_ratio f + mellow_music_ratio f <= 1)%Q
  ∧ (0 <= variance (tempo_stat f))%Q ∧ (0 <= variance (energy_stat f))%Q
  ∧ (0 <= variance (danceability_stat f))%Q
  ∧ (0 <= variance (valence_stat f))%Q
  ∧ (0 <= variance (acousticness_stat f))%Q.
Proof.
  intros Hrow. unfold _create_audio_preference_features in Hrow.
  apply list_elem_of_fmap in Hrow as ([u' rows] & [= -> ->] & _).
  unfold audio_features_of.
  cbn [high_energy_ratio mellow_music_ratio tempo_stat energy_stat
         danceability_stat valence_stat acousticness_stat].
  split_and!; try apply audio_stat_variance_nonneg; try apply bool_mean_bounds.
  apply bool_mean_exclusive. intros [s [t|]]; cbn [snd]; [|done].
  intros Hhigh. apply negb_true_iff in Hhigh.
  apply andb_false_iff. left. apply negb_false_iff, Qle_bool_iff.
  assert (¬ (energy t <= 7 # 10)%Q) as Hgt.
  { intros Hle. apply Qle_bool_iff in Hle. congruence. }
  lra.
Qed.

Lemma audio_ratios_exclusive_witness :
  ∃ f, ("u1", f) ∈ _create_audio_preference_features
                     (H := StandIns.approx_numeric)
                     (merge_tracks three_day_sessions one_track)
    ∧ (high_energy_ratio f + mellow_music_ratio f <= 1)%Q.
Proof.
  eexists.
  assert (("u1", audio_features_of (H := StandIns.approx_numeric)
                   (filter (λ r, swt_user_id r = "u1")
                      (merge_tracks three_day_sessions one_track)))
          ∈ _create_audio_preference_features (H := StandIns.approx_numeric)
              (merge_tracks three_day_sessions one_track)) as Hrow
    by (vm_compute; left).
  split; [exact Hrow|].
  pose proof (audio_ratios_exclusive (H := StandIns.approx_numeric)
                (merge_tracks three_day_sessions one_track) "u1" _ Hrow)
    as (_ & _ & Hsum & _).
  exact Hsum.
Defined.

(** *** Genre diversity *)

Lemma count_where_pos {A} (p : A → bool) (rows : list A) r :
  r ∈ rows → p r = true → 1 ≤ count_where p rows.
Proof.
  intros Hin Hp. induction rows as [|x rows IH];
    [by apply elem_of_nil in Hin|].
  rewrite count_where_cons. pose proof (count_where_nonneg p rows).
  apply elem_of_cons in Hin as [<-|Hin].
  - rewrite Hp. simpl. lia.
  - specialize (IH Hin). destruct (p x); simpl; lia.
Qed.

Lemma sumZ_nonneg (xs : list Z) : Forall (λ x, 0 ≤ x) xs → 0 ≤ sumZ xs.
Proof. induction 1; simpl; lia. Qed.

Lemma sumZ_ge_elem (xs : list Z) x :
  Forall (λ x, 0 ≤ x) xs → x ∈ xs → x ≤ sumZ xs.
Proof.
  induction 1 as [|y ys Hy Hall IH]; [by intros ?%elem_of_nil|].
  pose proof (sumZ_nonneg ys Hall).
  intros [->|Hin]%elem_of_cons; simpl; [lia|]. specialize (IH Hin). lia.
Qed.

Lemma positive_share (c total : Z) :
  0 < total → Qle_bool (Qratio c total) 0 = negb (0 <? c).
Proof.
  intros Ht. unfold Qratio.
  assert (0 < inject_Z total)%Q
    by (change 0%Q with (inject_Z 0); rewrite <- Zlt_Qlt; lia).
  destruct (Z.ltb_spec 0 c) as [Hc|Hc]; simpl.
  - apply not_true_is_false. intros Hle%Qle_bool_iff.
    assert (0 < inject_Z c)%Q
      by (change 0%Q with (inject_Z 0); rewrite <- Zlt_Qlt; lia).
    assert (0 < inject_Z c / inject_Z total)%Q
      by (apply Qlt_shift_div_l; [done|]; lra).
    lra.
  - apply Qle_bool_iff.
    assert (inject_Z c <= 0)%Q
      by (change 0%Q with (inject_Z 0); rewrite <- Zle_Qle; lia).
    apply Qle_shift_div_r; [done|]. lra.
Qed.

(** The shares that survive [probs[probs > 0]] are those of the positive
    counts. *)
Lemma positive_shares (counts : list Z) (total : Z) :
  0 < total →
  List.filter (λ p, negb (Qle_bool p 0)) ((λ c, Qratio c total) <$> counts)
  = (λ c, Qratio c total) <$> List.filter (λ c, 0 <? c) counts.
Proof.
  intros Ht. induction counts as [|c cs IH]; [done|].
  rewrite fmap_cons. cbn [List.filter].
  rewrite (positive_share c total Ht), negb_involutive, IH.
  by destruct (0 <? c).
Qed.

(** With non-negative counts of which exactly one is positive, that one
    is the total. *)
Lemma single_positive_count (counts : list Z) :
  Forall (λ x, 0 ≤ x) counts → count_where (λ c, 0 <? c) counts = 1 →
  List.filter (λ c, 0 <? c) counts = [sumZ counts].
Proof.
  unfold count_where. induction 1 as [|c cs Hc Hall IH]; [done|].
  cbn [List.filter sumZ foldr]. fold (sumZ cs).
  destruct (Z.ltb_spec 0 c) as [Hpos|Hzero].
  - cbn [length]. intros Hlen.
    assert (List.filter (λ c, 0 <? c) cs = []) as Hnil
      by (destruct (List.filter _ cs); [done|simpl in Hlen; lia]).
    rewrite Hnil. f_equal.
    assert (sumZ cs = 0) as ->; [|lia].
    clear -Hall Hnil. induction Hall as [|y ys Hy Hall IH]; [done|].
    cbn [List.filter] in Hnil. destruct (Z.ltb_spec 0 y); [done|].
    simpl. rewrite (IH Hnil). lia.
  - intros Hlen. rewrite (IH Hlen). f_equal. lia.
Qed.

(** X11. Every row of the genre table belongs to a user with at least one
    track of known genre: the branch for a zero total is never taken,
    [genre_count >= 1], the top genre's share lies in (0, 1] and the
    exploration rate in [0, 1]. A user with a single genre has entropy
    0, exploration rate 0, and top share and concentration 1. *)
Theorem genre_features_bounds `{NumericLib}
    (sessions : list (SessionRow Z * option TrackRow)) (u : string)
    (f : GenreFeatures) :
  (u, f) ∈ _create_genre_diversity_features sessions →
  1 ≤ genre_count f
  ∧ ((0 < top_genre_ratio f)%Q ∧ (top_genre_ratio f <= 1)%Q)
  ∧ ((0 <= genre_exploration_rate f)%Q ∧ (genre_exploration_rate f <= 1)%Q)
  ∧ (genre_count f = 1 →
     genre_entropy f = 0%Q ∧ genre_exploration_rate f = 0%Q
     ∧ (top_genre_ratio f == 1)%Q ∧ (genre_concentration f == 1)%Q).
Proof.
  intros Hrow. unfold _create_genre_diversity_features in Hrow.
  cbv zeta in Hrow.
  set (known := omap _ sessions) in Hrow.
  apply list_elem_of_fmap in Hrow as ([u' rows] & [= -> ->] & Hg).
  pose proof (groupby_group_nonempty _ _ _ _ Hg) as Hne.
  apply elem_of_groupby in Hg as [_ ->].
  set (rows := filter (λ r, r.1 = u') known) in *.
  set (genres := sorted_keys known.*2).
  set (counts := (λ g, count_where (λ r : string * string,
                                     bool_decide (r.2 = g)) rows) <$> genres).
  assert (Forall (λ x, 0 ≤ x) counts) as Hnonneg.
  { unfold counts. apply Forall_fmap, Forall_forall. intros g _.
    apply count_where_nonneg. }
  assert (∃ c, c ∈ counts ∧ 1 ≤ c) as (c & Hc & Hc1).
  { assert (∃ r, r ∈ rows) as [r Hr].
    { clear -Hne. destruct rows as [|r ?]; [done|]. exists r. left. }
    exists (count_where (λ r0 : string * string, bool_decide (r0.2 = r.2))
              rows).
    split.
    - unfold counts. apply list_elem_of_fmap. exists r.2.
      split; [done|]. apply elem_of_sorted_keys.
      apply list_elem_of_fmap. exists r. split; [done|].
      unfold rows in Hr. by apply list_elem_of_filter in Hr as [_ ?].
    - apply (count_where_pos _ rows r Hr). by apply bool_decide_eq_true. }
  assert (c ≤ sumZ counts) as Hsum by (by apply sumZ_ge_elem).
  assert (0 < sumZ counts) as Htotal by lia.
  unfold genre_features_of. fold counts.
  rewrite (proj2 (Z.eqb_neq (sumZ counts) 0)) by lia.
  cbn [genre_count top_genre_ratio genre_exploration_rate genre_entropy
         genre_concentration].
  rewrite positive_shares by done.
  assert (c ≤ list_max counts) as Hmax by (by apply list_max_ge).
  pose proof (list_max_le_sumZ counts Hnonneg) as Hmaxle.
  split_and!.
  - apply (count_where_pos _ counts c Hc). apply Z.ltb_lt. lia.
  - apply Qratio_unit_interval; lia.
  - apply Qratio_unit_interval; lia.
  - destruct (1 <? _); [apply bool_mean_bounds|lra].
  - destruct (1 <? _); [apply bool_mean_bounds|lra].
  - intros Hone. rewrite (single_positive_count counts Hnonneg Hone).
    cbn [fmap list_fmap length Z.of_nat Z.ltb Z.compare sumQ foldr].
    assert (list_max counts = sumZ counts) as ->.
    { apply Z.le_antisymm; [done|]. apply list_max_ge.
      assert (sumZ counts ∈ List.filter (λ c, 0 <? c) counts) as Hin
        by (rewrite (single_positive_count counts Hnonneg Hone); left).
      apply list_elem_of_In, filter_In in Hin as [Hin _].
      by apply list_elem_of_In. }
    assert (Qratio (sumZ counts) (sumZ counts) == 1)%Q as Hself.
    { unfold Qratio. apply Qmult_inv_r. change 0%Q with (inject_Z 0).
      rewrite inject_Z_injective. lia. }
    split_and!; [done|done|exact Hself|]. rewrite Hself. ring.
Qed.

Lemma genre_features_bounds_witness :
  ∃ f, ("u1", f) ∈ _create_genre_diversity_features
                     (H := StandIns.approx_numeric)
                     (merge_tracks three_day_sessions one_track)
    ∧ 1 ≤ genre_count f.
Proof.
  eexists.
  assert (("u1", genre_features_of (H := StandIns.approx_numeric) [2])
          ∈ _create_genre_diversity_features (H := StandIns.approx_numeric)
              (merge_tracks three_day_sessions one_track)) as Hrow
    by (vm_compute; left).
  split; [exact Hrow|].
  exact (proj1 (genre_features_bounds (H := StandIns.approx_numeric)
                  (merge_tracks three_day_sessions one_track) "u1" _ Hrow)).
Defined.

End FeatureExtras.

(** ** Properties of the skip-prediction features *)

Module SkipExtras.
Import Pandas Time Tables FeatureEngineering SkipPrediction Properties
  PandasFacts FeatureFacts TableExtras FeatureExtras Examples.
Local Open Scope string_scope.
Local Open Scope Z_scope.
Local Open Scope list_scope.

Lemma merge_left_unique_rows {A B} (left : list (string * A))
    (right : list (string * B)) :
  NoDup right.*1 → (merge_left left right).*1 = left.*1
  ∧ (λ r, r.2.1) <$> merge_left left right = left.*2.
Proof.
  intros Hnd. unfold merge_left.
  induction left as [|[k a] left [IH1 IH2]]; [done|].
  rewrite bind_cons, !fmap_app, IH1, IH2.
  pose proof (rows_of_unique k right Hnd) as Hlen.
  destruct (rows_of k right) as [|b [|b' bs]]; [done|done|].
  simpl in Hlen. lia.
Qed.

Lemma merge_left_sessions {A B} (left : list (string * A))
    (right : list (string * B)) a :
  a ∈ ((λ r, r.2.1) <$> merge_left left right) ↔ a ∈ left.*2.
Proof.
  unfold merge_left. rewrite !list_elem_of_fmap. split.
  - intros ([k [a' ob]] & -> & Hin).
    apply list_elem_of_bind in Hin as ([k' a''] & Hin & Hl).
    exists (k', a''). split; [|done].
    destruct (rows_of k' right);
      [apply list_elem_of_singleton in Hin as [= _ -> _]; done|].
    apply list_elem_of_fmap in Hin as (b' & [= _ -> _] & _). done.
  - intros ([k a'] & -> & Hin).
    destruct (rows_of k right) as [|b bs] eqn:E.
    + exists (k, (a', None)). split; [done|].
      apply list_elem_of_bind. exists (k, a'). split; [|done].
      rewrite E. left.
    + exists (k, (a', Some b)). split; [done|].
      apply list_elem_of_bind. exists (k, a'). split; [|done].
      rewrite E. apply list_elem_of_fmap. exists b. split; [done|left].
Qed.

(** X12. All four results have one entry per row of the joined table, which
    has at least one row per session. When the track ids of the tracks
    table are distinct there is exactly one row per session, in session
    order: the returned ids are the session and user columns, and the
    labels are the [skipped] column as 0 and 1. *)
Theorem skip_features_one_row_per_session (sessions : list (SessionRow Z))
    (tracks : list TrackAudio) :
  let result := create_skip_prediction_features sessions tracks in
  (length result.1.1.1 = length result.2
   ∧ length result.1.1.2 = length result.2
   ∧ length result.1.2 = length result.2
   ∧ (length sessions ≤ length result.2)%nat)
  ∧ (NoDup (ta_track_id <$> tracks) →
     result.2 = session_id <$> sessions
     ∧ result.1.2 = user_id <$> sessions
     ∧ result.1.1.2 = (λ s, Z.b2z (skipped s)) <$> sessions
     ∧ length result.1.1.1 = length sessions).
Proof.
  intros result. unfold result, create_skip_prediction_features.
  cbv zeta. cbn [fst snd]. rewrite !length_fmap. split.
  - split_and!; try done. unfold merge_track_audio. rewrite length_fmap.
    unfold merge_left. generalize ((λ t, (ta_track_id t, t)) <$> tracks).
    intros right. induction sessions as [|s ss IH]; [done|].
    rewrite fmap_cons, bind_cons, length_app.
    destruct (rows_of (track_id s) right);
      rewrite ?length_fmap; cbn [length] in *; lia.
  - intros Hnd.
    assert ((λ r : SessionRow Z * option TrackAudio, r.1)
            <$> merge_track_audio sessions tracks = sessions) as Hdf.
    { unfold merge_track_audio.
      destruct (merge_left_unique_rows
                  ((λ s, (track_id s, s)) <$> sessions)
                  ((λ t, (ta_track_id t, t)) <$> tracks)) as [_ Hrows].
      { by rewrite <- list_fmap_compose. }
      rewrite <- list_fmap_compose.
      etrans; [|etrans; [exact Hrows|]].
      - by apply list_fmap_ext.
      - rewrite <- list_fmap_compose. apply list_fmap_id. }
    assert (∀ {C} (g : SessionRow Z → C),
              (λ r : SessionRow Z * option TrackAudio, g r.1)
              <$> merge_track_audio sessions tracks = g <$> sessions) as Hcol.
    { intros C g. rewrite <- Hdf at 2. by rewrite <- list_fmap_compose. }
    split_and!; [apply Hcol|apply Hcol|apply (Hcol _ (λ s, Z.b2z (skipped s)))|].
    by rewrite <- Hdf at 2; rewrite length_fmap.
Qed.

Lemma skip_features_one_row_per_session_witness :
  NoDup (ta_track_id <$> one_track_audio)
  ∧ (create_skip_prediction_features three_day_sessions one_track_audio).2
    = session_id <$> three_day_sessions.
Proof.
  assert (NoDup (ta_track_id <$> one_track_audio)) as Hnd
    by (apply NoDup_ListNoDup; repeat constructor; simpl;
        intuition discriminate).
  split; [exact Hnd|].
  exact (proj1 (proj2 (skip_features_one_row_per_session three_day_sessions
                         one_track_audio) Hnd)).
Defined.

Lemma get_dummies_one_hot (prefix : string) (categories : list string)
    (value : string) :
  NoDup categories → value ∈ categories →
  count_where snd (get_dummies prefix categories value) = 1.
Proof.
  unfold get_dummies. induction 1 as [|c cs Hc Hnd IH];
    [by intros ?%elem_of_nil|].
  rewrite fmap_cons, count_where_cons. cbn [snd].
  intros Hin. destruct (decide (value = c)) as [->|Hne].
  - rewrite bool_decide_eq_true_2 by done.
    assert (count_where snd
              ((λ c0, (prefix +:+ "_" +:+ c0, bool_decide (c = c0))) <$> cs)
            = 0) as ->; [|done].
    clear -Hc. induction cs as [|c' cs IH]; [done|].
    rewrite fmap_cons, count_where_cons. cbn [snd].
    rewrite bool_decide_eq_false_2
      by (intros ->; apply Hc; left).
    rewrite IH; [done|]. intros Hin. apply Hc. by right.
  - rewrite bool_decide_eq_false_2 by done.
    apply elem_of_cons in Hin as [?|Hin]; [done|]. by rewrite IH.
Qed.

(** X13. In every row of [X] the hour lies in 0..23, the three calendar flags
    are 0 or 1, [is_morning] marks the hours 6 to 11 and [is_evening] the
    hours 18 to 23, so the two are never set together; exactly one
    context column and exactly one device column is set. *)
Theorem skip_features_flags (sessions : list (SessionRow Z))
    (tracks : list TrackAudio) (row : SkipFeatures) :
  row ∈ (create_skip_prediction_features sessions tracks).1.1.1 →
  0 ≤ sf_hour row < 24
  ∧ (is_weekend row = 0 ∨ is_weekend row = 1)
  ∧ (is_morning row = 1 ↔ 6 ≤ sf_hour row < 12)
  ∧ (is_morning row = 0 ↔ ¬ 6 ≤ sf_hour row < 12)
  ∧ (is_evening row = 1 ↔ 18 ≤ sf_hour row)
  ∧ (is_evening row = 0 ↔ sf_hour row < 18)
  ∧ is_morning row + is_evening row ≤ 1
  ∧ count_where snd (context_columns row) = 1
  ∧ count_where snd (device_columns row) = 1.
Proof.
  unfold create_skip_prediction_features. cbv zeta. cbn [fst].
  intros Hrow. apply list_elem_of_fmap in Hrow as (r & -> & Hr).
  cbn [sf_hour is_weekend is_morning is_evening context_columns
         device_columns].
  pose proof (hour_range (timestamp r.1)) as Hh.
  set (h := hour (timestamp r.1)) in *.
  split_and!.
  - lia.
  - lia.
  - by destruct (5 <=? _); [right|left].
  - destruct (Z.leb_spec 6 h), (Z.ltb_spec h 12); simpl; lia.
  - destruct (Z.leb_spec 6 h), (Z.ltb_spec h 12); simpl; lia.
  - destruct (Z.leb_spec 18 h), (Z.ltb_spec h 24); simpl; lia.
  - destruct (Z.leb_spec 18 h), (Z.ltb_spec h 24); simpl; lia.
  - destruct (Z.leb_spec 6 h), (Z.ltb_spec h 12), (Z.leb_spec 18 h),
      (Z.ltb_spec h 24); simpl; lia.
  - apply get_dummies_one_hot; [apply NoDup_sorted_keys|].
    apply elem_of_sorted_keys, list_elem_of_fmap. by exists r.
  - apply get_dummies_one_hot; [apply NoDup_sorted_keys|].
    apply elem_of_sorted_keys, list_elem_of_fmap. by exists r.
Qed.

Lemma skip_features_flags_witness :
  ∃ row,
    row ∈ (create_skip_prediction_features three_day_sessions
             one_track_audio).1.1.1
    ∧ is_morning row + is_evening row ≤ 1
    ∧ count_where snd (context_columns row) = 1.
Proof.
  set (X := (create_skip_prediction_features three_day_sessions
               one_track_audio).1.1.1).
  assert (∃ row rest, X = row :: rest) as (row & rest & HX)
    by (eexists _, _; vm_compute; reflexivity).
  exists row.
  assert (row ∈ X) as Hrow by (rewrite HX; left).
  split; [exact Hrow|].
  pose proof (skip_features_flags three_day_sessions one_track_audio row
                Hrow) as (_ & _ & _ & _ & _ & _ & Hexcl & Hctx & _).
  by split.
Defined.

(** X14. In every row of [X] the two historical skip rates lie in [0, 1] and
    [user_listen_count] is the number of rows of the row's user, at
    least 1; two rows of the same user carry the same user rate and
    count. *)
Theorem skip_features_rates (sessions : list (SessionRow Z))
    (tracks : list TrackAudio) :
  let result := create_skip_prediction_features sessions tracks in
  ∀ i row u,
    result.1.1.1 !! i = Some row → result.1.2 !! i = Some u →
    ((0 <= user_historical_skip_rate row)%Q
     ∧ (user_historical_skip_rate row <= 1)%Q)
    ∧ ((0 <= track_skip_rate row)%Q ∧ (track_skip_rate row <= 1)%Q)
    ∧ 1 ≤ user_listen_count row
    ∧ user_listen_count row
      = count_where (λ v, bool_decide (v = u)) result.1.2
    ∧ ∀ j row', result.1.1.1 !! j = Some row' → result.1.2 !! j = Some u →
        user_historical_skip_rate row' = user_historical_skip_rate row
        ∧ user_listen_count row' = user_listen_count row.
Proof.
  intros result. unfold result, create_skip_prediction_features.
  cbv zeta. cbn [fst snd].
  set (df := merge_track_audio sessions tracks).
  intros i row u Hrow Hu.
  rewrite list_lookup_fmap in Hrow. rewrite list_lookup_fmap in Hu.
  destruct (df !! i) as [r|] eqn:Hr; [|done].
  injection Hrow as <-. injection Hu as <-.
  cbn [user_historical_skip_rate track_skip_rate user_listen_count].
  assert (r ∈ df) as Hin by (by eapply list_elem_of_lookup_2).
  split_and!; try apply bool_mean_bounds.
  - assert (r ∈ filter (λ r' : SessionRow Z * option TrackAudio,
                          user_id r'.1 = user_id r.1) df) as Hin'
      by (by apply list_elem_of_filter).
    destruct (filter _ df); [by apply elem_of_nil in Hin'|simpl; lia].
  - unfold count_where. f_equal. rewrite length_filter_bool.
    by rewrite length_filter_fmap.
  - intros j row' Hrow' Hu'. rewrite list_lookup_fmap in Hrow'. rewrite list_lookup_fmap in Hu'.
    destruct (df !! j) as [r'|]; [|done].
    injection Hrow' as <-. injection Hu' as Heq.
    cbn [user_historical_skip_rate user_listen_count]. by rewrite Heq.
Qed.

Lemma skip_features_rates_witness :
  ∃ row u,
    (create_skip_prediction_features three_day_sessions
       one_track_audio).1.1.1 !! 0%nat = Some row
    ∧ (create_skip_prediction_features three_day_sessions
         one_track_audio).1.2 !! 0%nat = Some u
    ∧ 1 ≤ user_listen_count row.
Proof.
  eexists _, _.
  assert ((create_skip_prediction_features three_day_sessions
             one_track_audio).1.1.1 !! 0%nat
          = Some (mkSkipFeatures 120 (8 # 10) (5 # 10) (5 # 10) (1 # 10)
                    (1 # 10) (2 # 10) (1 # 10) (-6) 0 0 0 0
                    (Qratio 1 2) 2 (Qratio 1 3)
                    [("context_album", true); ("context_playlist", false);
                     ("context_radio", false)]
                    [("device_web", true)])) as Hrow
    by (vm_compute; reflexivity).
  assert ((create_skip_prediction_features three_day_sessions
             one_track_audio).1.2 !! 0%nat = Some "u1") as Hu
    by (vm_compute; reflexivity).
  split; [exact Hrow|]. split; [exact Hu|].
  pose proof (skip_features_rates three_day_sessions one_track_audio
                0%nat _ _ Hrow Hu) as (_ & _ & Hcount & _).
  exact Hcount.
Defined.

End SkipExtras.

(** ** Further properties of the funnels *)

Module FunnelExtras.
Import Python Pandas Time Tables FunnelAnalysis Properties PandasFacts
  FunnelFacts TableExtras Examples.
Local Open Scope string_scope.
Local Open Scope Z_scope.
Local Open Scope list_scope.

(** *** The simulated progress table *)

Lemma sumZ_ge_length (xs : list Z) :
  Forall (λ x, 1 ≤ x) xs → Z.of_nat (length xs) ≤ sumZ xs.
Proof. induction 1; simpl; lia. Qed.

Lemma average_length_ge_1 (playlist_lengths : list Z) :
  Forall (λ x, 1 ≤ x) playlist_lengths → 1 ≤ average_length playlist_lengths.
Proof.
  intros Hall. unfold average_length.
  destruct playlist_lengths as [|x xs]; [lia|].
  pose proof (sumZ_ge_length _ Hall).
  apply Z.div_le_lower_bound; simpl length in *; lia.
Qed.

Lemma clip_unit_interval (x : Q) : (0 <= clip 0 1 x)%Q ∧ (clip 0 1 x <= 1)%Q.
Proof.
  unfold clip. destruct (Qlt_le_dec x 0); [split; lra|].
  destruct (Qlt_le_dec 1 x); split; lra.
Qed.

Lemma simulated_progress_rows `{RandomState} {T}
    (sessions : list (SessionRow T)) (playlist_lengths : list Z) :
  Forall (λ x, 1 ≤ x) playlist_lengths →
  let progress := (_simulate_playlist_progress sessions playlist_lengths).1 in
  pr_user_id <$> progress = user_id <$> sessions
  ∧ Forall (λ r, 1 ≤ tracks_completed r
                 ∧ tracks_completed r ≤ average_length playlist_lengths
                 ∧ (0 <= completion_ratio r)%Q ∧ (completion_ratio r <= 1)%Q)
           progress.
Proof.
  intros Hall progress. unfold progress, _simulate_playlist_progress.
  fold (average_length playlist_lengths).
  pose proof (average_length_ge_1 _ Hall) as Havg.
  set (avg := average_length playlist_lengths) in *.
  pose proof (np_geometric_length (np_seed 42) (length sessions)) as Hg.
  destruct (np_geometric (np_seed 42) (length sessions)) as [draws g1].
  set (values := match playlist_lengths with [] => [20] | _ => _ end).
  pose proof (np_choice_length g1 (length values) (length sessions)) as Hc.
  destruct (np_choice g1 (length values) (length sessions)) as [picks g2].
  cbn [fst snd] in *.
  set (tracks := (λ x, Z.min (Z.max x 1) avg) <$> draws).
  set (lengths := (λ i, values !!! i) <$> picks).
  assert (length (zip tracks lengths) = length sessions) as Hzip.
  { rewrite length_zip_with. unfold tracks, lengths.
    rewrite !length_fmap. lia. }
  split.
  - rewrite <- list_fmap_compose.
    transitivity ((λ p : SessionRow T * (Z * Z), user_id p.1)
                  <$> zip sessions (zip tracks lengths)).
    { apply list_fmap_ext. by intros ? [? [? ?]] ?. }
    rewrite <- (fst_zip sessions (zip tracks lengths)) at 2 by lia.
    by rewrite <- list_fmap_compose.
  - apply Forall_fmap, Forall_forall. intros [s [t l]] Hin.
    cbn [compose tracks_completed completion_ratio].
    apply elem_of_zip_r in Hin. apply elem_of_zip_l in Hin.
    unfold tracks in Hin. apply list_elem_of_fmap in Hin as (x & -> & _).
    pose proof (clip_unit_interval (FunnelAnalysis.Qratio (Z.min (Z.max x 1) avg) l)).
    split_and!; [lia|lia|tauto|tauto].
Qed.

(** X15. The simulated progress table has one row per session, in session
    order; every row completes at least one track and at most the
    truncated average playlist length, and has a completion ratio in
    [0, 1]. *)
Theorem simulated_progress_invariants `{RandomState} {T}
    (sessions : list (SessionRow T)) (playlist_lengths : list Z) :
  Forall (λ x, 1 ≤ x) playlist_lengths →
  let progress := (_simulate_playlist_progress sessions playlist_lengths).1 in
  pr_user_id <$> progress = user_id <$> sessions
  ∧ Forall (λ r, 1 ≤ tracks_completed r
                 ∧ tracks_completed r ≤ average_length playlist_lengths
                 ∧ (0 <= completion_ratio r)%Q ∧ (completion_ratio r <= 1)%Q)
           progress.
Proof. apply simulated_progress_rows. Qed.

Lemma simulated_progress_invariants_witness :
  Forall (λ x, 1 ≤ x) [12; 8]
  ∧ pr_user_id <$> (_simulate_playlist_progress (H := StandIns.lcg_random)
                      six_playlist_sessions [12; 8]).1
    = user_id <$> six_playlist_sessions.
Proof.
  assert (Forall (λ x, 1 ≤ x) [12; 8]) as Hall by (repeat constructor; lia).
  split; [exact Hall|].
  exact (proj1 (simulated_progress_invariants (H := StandIns.lcg_random)
                  six_playlist_sessions [12; 8] Hall)).
Defined.

Lemma playlist_lengths_positive (playlist_tracks : list PlaylistTrackRow) :
  Forall (λ x, 1 ≤ x)
    ((λ grp, Z.of_nat (length grp.2)) <$> groupby playlist_id playlist_tracks).
Proof.
  apply Forall_fmap, Forall_forall. intros [k g] Hin.
  apply groupby_group_nonempty in Hin. simpl. destruct g; [done|simpl; lia].
Qed.

Lemma count_where_all {A} (p : A → bool) (rows : list A) :
  Forall (λ r, p r = true) rows → count_where p rows = Z.of_nat (length rows).
Proof.
  unfold count_where. induction 1 as [|r rows Hr _ IH]; [done|].
  simpl. rewrite Hr. simpl. lia.
Qed.

Lemma count_where_none {A} (p : A → bool) (rows : list A) :
  Forall (λ r, p r = false) rows → count_where p rows = 0.
Proof.
  unfold count_where. induction 1 as [|r rows Hr _ IH]; [done|].
  simpl. by rewrite Hr.
Qed.

(** X16. Whatever the generator draws, every simulated session completes its
    first track: in the playlist funnel the stage [track_1_complete]
    always counts as many sessions as [started], which is the number of
    playlist sessions. *)
Theorem first_track_stage_equals_started `{RandomState} {T P}
    (self : FunnelAnalyzer) (g : rng) (sessions : list (SessionRow T))
    (playlists : list P) (playlist_tracks : list PlaylistTrackRow) :
  let result :=
    analyze_playlist_completion self g sessions playlists playlist_tracks in
  let n :=
    count_where (λ s, bool_decide (context s = "playlist")) sessions in
  match result.1.1 with
  | None => n = 0
  | Some metrics =>
      total_playlist_starts metrics = n
      ∧ ∃ later, users <$> funnel_stages result.1.2 = n :: n :: later
  end.
Proof.
  intros result n. unfold result, analyze_playlist_completion, n, count_where.
  destruct (List.filter _ sessions) as [|s ss] eqn:E; [done|].
  set (lengths := (λ grp, Z.of_nat (length grp.2)) <$> _).
  pose proof (simulated_progress_rows (s :: ss) lengths
                (playlist_lengths_positive playlist_tracks)) as [Hids Hrows].
  destruct (_simulate_playlist_progress (s :: ss) lengths) as [progress g'].
  cbn [fst snd] in *.
  assert (length progress = length (s :: ss)) as Hlen.
  { by rewrite <- (length_fmap pr_user_id), Hids, length_fmap. }
  unfold playlist_funnel. cbn [fst snd funnel_stages total_playlist_starts].
  rewrite build_stages_users. split; [by rewrite Hlen|].
  eexists. cbn [fmap list_fmap playlist_stage_counts snd].
  rewrite Hlen. f_equal. f_equal.
  rewrite <- Hlen. apply count_where_all.
  eapply Forall_impl; [exact Hrows|]. intros r (Hr & _). by apply Z.leb_le.
Qed.

(** *** Playlists of a single track *)

Lemma all_ones_average (lengths : list Z) :
  Forall (λ x, x = 1) lengths → lengths ≠ [] → average_length lengths = 1.
Proof.
  intros Hall Hne. unfold average_length.
  destruct lengths as [|x xs]; [done|].
  assert (sumZ (x :: xs) = Z.of_nat (length (x :: xs))) as ->.
  { clear Hne. induction Hall as [|y ys -> _ IH]; [done|].
    simpl in *. lia. }
  apply Z.div_same. simpl. lia.
Qed.

(** X17. When every playlist has a single track, the playlist funnel of [n]
    playlist sessions counts [n, n, 0, 0, n, n, n] whatever the generator
    draws: the ratio stages count every session although the stages for
    3 and 5 tracks count none. *)
Theorem single_track_playlists_funnel `{RandomState} {T P}
    (self : FunnelAnalyzer) (g : rng) (sessions : list (SessionRow T))
    (playlists : list P) (playlist_tracks : list PlaylistTrackRow) :
  NoDup (playlist_id <$> playlist_tracks) → playlist_tracks ≠ [] →
  let n :=
    count_where (λ s, bool_decide (context s = "playlist")) sessions in
  0 < n →
  users <$> funnel_stages
              (analyze_playlist_completion self g sessions playlists
                 playlist_tracks).1.2
  = [n; n; 0; 0; n; n; n].
Proof.
  intros Hnd Hne n Hn. unfold n, count_where in *.
  unfold analyze_playlist_completion.
  destruct (List.filter _ sessions) as [|s ss] eqn:E; [simpl in Hn; lia|].
  set (lengths := (λ grp, Z.of_nat (length grp.2)) <$> _).
  assert (Forall (λ x, x = 1) lengths) as Hones.
  { unfold lengths. apply Forall_fmap, Forall_forall. intros [k grp] Hin.
    apply elem_of_groupby in Hin as [Hk ->]. simpl.
    apply list_elem_of_fmap in Hk as (r & -> & Hr).
    assert (filter (λ r0, playlist_id r0 = playlist_id r) playlist_tracks
            = [r]) as ->; [|done].
    clear -Hnd Hr. induction playlist_tracks as [|x xs IH];
      [by apply elem_of_nil in Hr|].
    simpl in Hnd. apply NoDup_cons in Hnd as [Hx Hnd].
    rewrite filter_cons. apply elem_of_cons in Hr as [->|Hr].
    - rewrite decide_True by done. f_equal.
      destruct (filter _ xs) as [|y ys] eqn:E; [done|]. exfalso.
      assert (y ∈ filter (λ r0, playlist_id r0 = playlist_id x) xs) as Hy
        by (rewrite E; left).
      apply list_elem_of_filter in Hy as [Hy1 Hy2]. apply Hx.
      rewrite <- Hy1. apply list_elem_of_fmap. by exists y.
    - rewrite decide_False; [by apply IH|].
      intros Heq. apply Hx. rewrite Heq. apply list_elem_of_fmap.
      by exists r. }
  assert (lengths ≠ []) as Hlne.
  { unfold lengths, groupby. destruct playlist_tracks as [|x xs]; [done|].
    intros Hnil. apply fmap_nil_inv, fmap_nil_inv in Hnil.
    assert (playlist_id x ∈ sorted_keys (playlist_id <$> x :: xs)) as Hin
      by (apply elem_of_sorted_keys; left).
    rewrite Hnil in Hin. by apply elem_of_nil in Hin. }
  assert (Forall (λ x, 1 ≤ x) lengths) as Hpos.
  { eapply Forall_impl; [exact Hones|]. intros x ->. simpl. lia. }
  pose proof (simulated_progress_rows (s :: ss) lengths Hpos)
    as [Hids Hrows].
  rewrite (all_ones_average lengths Hones Hlne) in Hrows.
  assert (Forall (λ r, playlist_length r = 1
                       ∧ completion_ratio r
                         = clip 0 1 (FunnelAnalysis.Qratio (tracks_completed r)
                                       (playlist_length r)))
            (_simulate_playlist_progress (s :: ss) lengths).1) as Hlens.
  { unfold _simulate_playlist_progress.
    destruct (np_geometric (np_seed 42) (length (s :: ss))) as [draws g1].
    destruct lengths as [|l0 ls] eqn:El; [done|].
    pose proof (np_choice_range g1 (length (l0 :: ls)) (length (s :: ss))
                  ltac:(simpl; lia)) as Hrange.
    destruct (np_choice g1 (length (l0 :: ls)) (length (s :: ss)))
      as [picks g2]. cbn [fst snd] in *.
    apply Forall_fmap, Forall_forall. intros [s' [t l]] Hin.
    cbn [compose playlist_length completion_ratio tracks_completed].
    split; [|done].
    apply elem_of_zip_r in Hin. apply elem_of_zip_r in Hin.
    apply list_elem_of_fmap in Hin as (i & -> & Hi).
    rewrite Forall_forall in Hrange. specialize (Hrange i Hi).
    destruct (lookup_lt_is_Some_2 (l0 :: ls) i Hrange) as [v Hv].
    rewrite (list_lookup_total_correct _ _ _ Hv).
    rewrite Forall_forall in Hones. apply Hones.
    by eapply list_elem_of_lookup_2. }
  destruct (_simulate_playlist_progress (s :: ss) lengths) as [progress g'].
  cbn [fst snd] in *.
  assert (length progress = length (s :: ss)) as Hlen.
  { by rewrite <- (length_fmap pr_user_id), Hids, length_fmap. }
  unfold playlist_funnel. cbn [fst snd funnel_stages].
  rewrite build_stages_users.
  cbn [fmap list_fmap playlist_stage_counts snd]. rewrite <- Hlen.
  assert (Forall (λ r, tracks_completed r = 1
                       ∧ completion_ratio r = clip 0 1 (1 # 1)) progress)
    as Hshape.
  { apply Forall_forall. intros r Hr. rewrite Forall_forall in Hrows, Hlens.
    destruct (Hrows r Hr) as (H1 & H2 & _). destruct (Hlens r Hr) as [Hl ->].
    assert (tracks_completed r = 1) as -> by lia. by rewrite Hl. }
  repeat f_equal.
  - apply count_where_all. eapply Forall_impl; [exact Hshape|].
    by intros r [-> _].
  - apply count_where_none. eapply Forall_impl; [exact Hshape|].
    by intros r [-> _].
  - apply count_where_none. eapply Forall_impl; [exact Hshape|].
    by intros r [-> _].
  - apply count_where_all. eapply Forall_impl; [exact Hshape|].
    by intros r [_ ->].
  - apply count_where_all. eapply Forall_impl; [exact Hshape|].
    by intros r [_ ->].
  - apply count_where_all. eapply Forall_impl; [exact Hshape|].
    by intros r [_ ->].
Qed.

Lemma single_track_playlists_funnel_witness :
  let tracks := [mkPlaylistTrack "p1" "t1"; mkPlaylistTrack "p2" "t7"] in
  NoDup (playlist_id <$> tracks) ∧ tracks ≠ []
  ∧ users <$> funnel_stages
                (analyze_playlist_completion (H := StandIns.lcg_random)
                   new_analyzer (0 : Z) six_playlist_sessions
                   ([] : list unit) tracks).1.2
    = [6; 6; 0; 0; 6; 6; 6].
Proof.
  intros tracks.
  assert (NoDup (playlist_id <$> tracks)) as Hnd.
  { apply NoDup_ListNoDup. repeat constructor; simpl; intuition discriminate. }
  assert (tracks ≠ []) as Hne by done.
  split; [exact Hnd|]. split; [exact Hne|].
  exact (single_track_playlists_funnel (H := StandIns.lcg_random) new_analyzer
           (0 : Z) six_playlist_sessions ([] : list unit) tracks Hnd Hne
           ltac:(vm_compute; reflexivity)).
Defined.

(** *** Rates of the first stage and of the playlist funnel *)




Lemma build_stages_conversion total prev stages :
  Forall (λ nc : string * Z, 0 ≤ nc.2 ≤ total) stages →
  Forall (λ s, 0 ≤ users s ≤ total
               ∧ (0 <= conversion_rate s)%Q ∧ (conversion_rate s <= 1)%Q)
         (build_stages total prev stages).
Proof.
  intros Hall. revert prev.
  induction Hall as [|[nm c] stages Hc _ IH]; intros prev; [constructor|].
  simpl in Hc. cbn [build_stages]. constructor; [|apply IH].
  cbn [users conversion_rate]. split; [done|].
  destruct (Z.ltb_spec 0 total); [|split; lra].
  unfold FunnelAnalysis.Qratio.
  assert (0 < inject_Z total)%Q by (change 0%Q with (inject_Z 0);
    rewrite <- Zlt_Qlt; lia).
  assert (0 <= inject_Z c)%Q by (change 0%Q with (inject_Z 0);
    rewrite <- Zle_Qle; lia).
  assert (inject_Z c <= inject_Z total)%Q by (rewrite <- Zle_Qle; lia).
  split.
  - apply Qle_shift_div_l; [done|]. lra.
  - apply Qle_shift_div_r; [done|]. lra.
Qed.

Lemma count_where_bounds {A} (p : A → bool) (rows : list A) :
  0 ≤ count_where p rows ≤ Z.of_nat (length rows).
Proof.
  split; [unfold count_where; lia|apply count_where_le_length].
Qed.

(** X19. In the playlist funnel no stage counts more sessions than [started],
    and every conversion rate lies in [0, 1]. *)
Theorem playlist_conversion_rates_bounded (progress : list ProgressRow) :
  Forall (λ s, 0 ≤ users s ≤ Z.of_nat (length progress)
               ∧ (0 <= conversion_rate s)%Q ∧ (conversion_rate s <= 1)%Q)
         (funnel_stages (playlist_funnel progress).2).
Proof.
  unfold playlist_funnel. cbn [snd funnel_stages].
  apply build_stages_conversion. unfold playlist_stage_counts.
  repeat constructor; cbn [snd]; try lia; apply count_where_bounds.
Qed.

(** *** Recommendations and composition *)


(** X21. Without any playlist session [analyze_playlist_completion] returns
    the empty dictionary and changes neither the analyzer nor the
    generator; with one it returns metrics and replaces the stages. *)
Theorem playlist_analysis_needs_playlist_sessions `{RandomState} {T P}
    (self : FunnelAnalyzer) (g : rng) (sessions : list (SessionRow T))
    (playlists : list P) (playlist_tracks : list PlaylistTrackRow) :
  let result :=
    analyze_playlist_completion self g sessions playlists playlist_tracks in
  (result.1.1 = None ↔ ∀ s, s ∈ sessions → context s ≠ "playlist")
  ∧ (result.1.1 = None → result.1.2 = self ∧ result.2 = g)
  ∧ (∀ metrics, result.1.1 = Some metrics →
       funnel_data result.1.2 = Some (funnel_stages result.1.2)
       ∧ length (funnel_stages result.1.2) = 7%nat).
Proof.
  intros result. unfold result, analyze_playlist_completion.
  destruct (List.filter _ sessions) as [|s ss] eqn:E.
  - split_and!; [|done|done]. split; [|done]. intros _ s Hs Hc.
    assert (In s (List.filter
      (λ s, bool_decide (context s = "playlist")) sessions)) as Hin.
    { apply filter_In. split; [by apply list_elem_of_In|].
      by apply bool_decide_eq_true. }
    by rewrite E in Hin.
  - destruct (_simulate_playlist_progress _ _) as [progress g'].
    cbn [fst snd playlist_funnel]. split_and!; [|done|done].
    split; [done|]. intros Hnone. exfalso.
    assert (In s (List.filter
      (λ s, bool_decide (context s = "playlist")) sessions)) as Hin
      by (rewrite E; by left).
    apply filter_In in Hin as [Hin Hc]. apply bool_decide_eq_true in Hc.
    apply (Hnone s); [by apply list_elem_of_In|done].
Qed.



(** *** The activation funnel on well-formed tables *)







End FunnelExtras.

(** ** Further properties of the A/B testing framework *)

Module ABExtras.
Import Python Pandas Float64 ABFramework ABFacts TableExtras Examples.
Local Open Scope string_scope.
Local Open Scope Z_scope.
Local Open Scope list_scope.

(** *** Registering experiments *)

(** X24. [create_experiment] registers the experiment under its name with the
    default configuration and one assignment row per listed user, control
    users first; it leaves every other experiment, all stored results and
    the significance level as they were. *)
Theorem create_experiment_registers (self : ABTestFramework) (name : string)
    (control_users treatment_users : list string) (description : string) :
  let self' :=
    create_experiment self name control_users treatment_users description in
  experiments self' !! name
  = Some (mkConfig name description "control" "treatment" (5 # 100))
  ∧ (∃ rows, assignments self' !! name = Some rows
       ∧ asg_user_id <$> rows = control_users ++ treatment_users
       ∧ length rows = (length control_users + length treatment_users)%nat)
  ∧ (∀ other, other ≠ name →
       experiments self' !! other = experiments self !! other
       ∧ assignments self' !! other = assignments self !! other)
  ∧ results self' = results self
  ∧ significance_level self' = significance_level self.
Proof.
  intros self'. unfold self', create_experiment.
  cbn [experiments assignments results significance_level].
  split_and!.
  - apply lookup_insert_eq.
  - eexists. split; [apply lookup_insert_eq|].
    rewrite fmap_app, <- !list_fmap_compose, length_app, !length_fmap.
    split; [|done]. f_equal; apply list_fmap_id.
  - intros other Hne. by rewrite !lookup_insert_ne.
  - done.
  - done.
Qed.

(** X25. Creating an experiment again under the same name replaces it: only
    the last creation counts. *)
Theorem create_experiment_overwrites (self : ABTestFramework) (name : string)
    (c1 t1 c2 t2 : list string) (d1 d2 : string) :
  create_experiment (create_experiment self name c1 t1 d1) name c2 t2 d2
  = create_experiment self name c2 t2 d2.
Proof.
  unfold create_experiment.
  cbn [experiments assignments results significance_level].
  by rewrite !insert_insert_eq.
Qed.

(** *** Analysing *)

(** X26. [analyze_results] raises [KeyError] exactly when the experiment was
    never created and, for a created experiment, [ZeroDivisionError]
    exactly when one of its groups has no metric row; an exception leaves
    the framework as it was. When the call returns it has stored the
    results under the experiment name and changed nothing else. *)
Theorem analyze_results_needs_experiment `{NumericLib, SciPyStats}
    (self : ABTestFramework) (experiment_name : string)
    (metric_data : list (string * Q)) :
  let outcome := analyze_results self experiment_name metric_data in
  (outcome.1 = Raise KeyError
   ↔ experiments self !! experiment_name = None
     ∨ assignments self !! experiment_name = None)
  ∧ (∀ config rows,
       experiments self !! experiment_name = Some config →
       assignments self !! experiment_name = Some rows →
       let merged := merge_assignments metric_data rows in
       outcome.1 = Raise ZeroDivisionError
       ↔ variant_data "control" merged = []
         ∨ variant_data "treatment" merged = [])
  ∧ (∀ e, outcome.1 = Raise e → outcome.2 = self)
  ∧ ∀ r, outcome.1 = Return r →
      results outcome.2 !! experiment_name = Some r
      ∧ (∀ other, other ≠ experiment_name →
           results outcome.2 !! other = results self !! other)
      ∧ experiments outcome.2 = experiments self
      ∧ assignments outcome.2 = assignments self
      ∧ significance_level outcome.2 = significance_level self
      ∧ power r = (80 # 100)%Q.
Proof.
  intros outcome. unfold outcome, analyze_results.
  destruct (experiments self !! experiment_name) as [config|];
    [|split_and!; [split; [by left|done]|done|done|done]].
  destruct (assignments self !! experiment_name) as [rows|];
    [|split_and!; [split; [by right|done]|done|done|done]].
  cbv zeta.
  set (control_data := variant_data "control" _).
  set (treatment_data := variant_data "treatment" _).
  destruct (decide _) as [Hz|Hnz]; cbn [fst snd].
  - split_and!.
    + split; [done|by intros [|]].
    + intros config' rows' [= <-] [= <-]. cbv zeta.
      fold control_data treatment_data. split; [intros _|done].
      destruct Hz as [Hz|Hz]; [left|right]; apply length_zero_iff_nil; lia.
    + done.
    + done.
  - split_and!.
    + split; [done|by intros [|]].
    + intros config' rows' [= <-] [= <-]. cbv zeta.
      fold control_data treatment_data. split; [done|].
      intros [E|E]; exfalso; apply Hnz; rewrite E; [by left|by right].
    + done.
    + intros r [= <-].
      cbn [results experiments assignments significance_level power].
      split_and!; try done.
      * apply lookup_insert_eq.
      * intros other Hne. by rewrite lookup_insert_ne.
Qed.

Lemma std_small_group `{NumericLib} (xs : list Q) :
  (length xs < 2)%nat → std xs = None.
Proof.
  intros Hlen. unfold std. destruct (mean xs); [|done].
  by rewrite decide_True.
Qed.

(** X27. When both groups have observations and one of them has exactly one,
    [analyze_results] returns: that group's standard deviation is not a
    number, and neither are the bounds of the confidence interval nor
    the effect size. *)
Theorem small_group_has_no_confidence_interval `{NumericLib, SciPyStats}
    (self : ABTestFramework) (experiment_name : string)
    (metric_data : list (string * Q)) (config : ExperimentConfig)
    (rows : list Assignment) :
  experiments self !! experiment_name = Some config →
  assignments self !! experiment_name = Some rows →
  let merged := merge_assignments metric_data rows in
  let control_data := variant_data "control" merged in
  let treatment_data := variant_data "treatment" merged in
  control_data ≠ [] → treatment_data ≠ [] →
  length control_data = 1%nat ∨ length treatment_data = 1%nat →
  ∃ r,
    (analyze_results self experiment_name metric_data).1 = Return r
    ∧ (length control_data = 1%nat → control_std r = None)
    ∧ (length treatment_data = 1%nat → treatment_std r = None)
    ∧ confidence_interval r = (None, None)
    ∧ effect_size r = None.
Proof.
  intros Hcfg Hasg merged control_data treatment_data Hcne Htne Hsmall.
  unfold analyze_results. rewrite Hcfg, Hasg. cbv zeta.
  fold merged. fold control_data treatment_data.
  destruct (decide _) as [[Hz|Hz]|_].
  { destruct control_data; [done|simpl in Hz; lia]. }
  { destruct treatment_data; [done|simpl in Hz; lia]. }
  cbn [fst]. eexists. split; [reflexivity|].
  cbn [control_std treatment_std confidence_interval effect_size].
  split; [intros Hone; apply std_small_group; lia|].
  split; [intros Hone; apply std_small_group; lia|].
  assert (std control_data = None ∨ std treatment_data = None) as Hstd.
  { destruct Hsmall; [left|right]; apply std_small_group; lia. }
  assert (∀ a b n m, a = None ∨ b = None →
            lift2 Qplus (div_count (square a) n) (div_count (square b) m)
            = None) as Hsum.
  { intros [a|] [b|] n m [?|?]; try discriminate;
      unfold div_count, square, lift2; cbn;
      by destruct (n =? 0), (m =? 0). }
  assert (∀ (a b c1 c2 : float) d,
            a = None ∨ b = None →
            div_count (lift2 Qplus (lift2 Qmult c1 (square a))
                                   (lift2 Qmult c2 (square b))) d
            = None) as Hpooled.
  { intros [a|] [b|] [c1|] [c2|] d [?|?]; try discriminate;
      unfold div_count, square, lift2; cbn; by destruct (d =? 0). }
  rewrite (Hsum _ _ _ _ Hstd), (Hpooled _ _ _ _ _ Hstd).
  cbn [sqrt_float mbind option_bind].
  assert (∀ z : float, lift2 Qmult z None = None) as Hm
    by (by intros [|]).
  rewrite Hm.
  assert (∀ e : float, lift2 Qminus e None = None ∧ lift2 Qplus e None = None)
    as He by (by intros [|]).
  by rewrite (proj1 (He _)), (proj2 (He _)).
Qed.

Lemma small_group_has_no_confidence_interval_witness :
  let merged :=
    merge_assignments example_metric
      (default [] (assignments lonely_experiment !! "tiny")) in
  is_Some (experiments lonely_experiment !! "tiny")
  ∧ variant_data "control" merged ≠ []
  ∧ variant_data "treatment" merged ≠ []
  ∧ length (variant_data "control" merged) = 1%nat
  ∧ ∃ r,
      (analyze_results (H := StandIns.approx_numeric)
         (H0 := StandIns.table_stats) lonely_experiment "tiny"
         example_metric).1 = Return r
      ∧ control_std r = None
      ∧ confidence_interval r = (None, None) ∧ effect_size r = None.
Proof.
  intros merged.
  assert (variant_data "control" merged ≠ []) as Hc by (by vm_compute).
  assert (variant_data "treatment" merged ≠ []) as Ht by (by vm_compute).
  assert (length (variant_data "control" merged) = 1%nat) as Hone
    by (by vm_compute).
  split; [by eexists|]. split; [exact Hc|]. split; [exact Ht|].
  split; [exact Hone|].
  destruct (small_group_has_no_confidence_interval
              (H := StandIns.approx_numeric) (H0 := StandIns.table_stats)
              lonely_experiment "tiny" example_metric _ _
              eq_refl eq_refl Hc Ht (or_introl Hone))
    as (r & Hcall & Hstd & _ & Hci & Hes).
  exists r. split; [exact Hcall|]. split; [exact (Hstd Hone)|].
  split; [exact Hci|exact Hes].
Defined.

(** *** Random assignment *)




(** *** Group sizes *)

(** The rows of one variant that survive the join, per metric row. *)
Lemma variant_data_length (v : string) (metric_data : list (string * Q))
    (rows : list Assignment) :
  length (variant_data v (merge_assignments metric_data rows))
  = length (metric_data ≫= λ '(u, _),
      List.filter (λ a, bool_decide (asg_user_id a = u)
                        && bool_decide (variant a = v)) rows).
Proof.
  unfold variant_data, merge_assignments. rewrite length_fmap.
  induction metric_data as [|[u x] md IH]; [done|].
  rewrite !bind_cons, List.filter_app, !length_app, IH. f_equal.
  rewrite length_filter_fmap, length_filter_filter.
  by apply length_filter_ext.
Qed.

(** X29. Each group's size is the number of metric rows whose user is listed
    in that group: a metric row of a user outside the experiment is
    dropped by the join, a user with several metric rows counts once per
    row, and a user listed in both groups counts in both. When both
    numbers are positive [analyze_results] returns them; when one is
    zero it raises [ZeroDivisionError]. *)
Theorem group_sizes_count_metric_rows `{NumericLib, SciPyStats}
    (self : ABTestFramework) (name description : string)
    (control_users treatment_users : list string)
    (metric_data : list (string * Q)) :
  NoDup control_users → NoDup treatment_users →
  let outcome :=
    (analyze_results
       (create_experiment self name control_users treatment_users
          description)
       name metric_data).1 in
  let nc :=
    count_where (λ row, bool_decide (row.1 ∈ control_users)) metric_data in
  let nt :=
    count_where (λ row, bool_decide (row.1 ∈ treatment_users)) metric_data in
  (nc = 0 ∨ nt = 0 → outcome = Raise ZeroDivisionError)
  ∧ (0 < nc → 0 < nt →
     ∃ r, outcome = Return r ∧ control_n r = nc ∧ treatment_n r = nt).
Proof.
  intros Hc Ht outcome nc nt.
  unfold outcome, analyze_results, create_experiment.
  cbn [experiments assignments]. rewrite !lookup_insert_eq. cbv zeta.
  set (rows := (_ <$> control_users) ++ (_ <$> treatment_users)).
  assert (Z.of_nat (length (variant_data "control"
                              (merge_assignments metric_data rows))) = nc)
    as Hnc.
  { unfold nc, count_where. f_equal. rewrite variant_data_length.
    unfold rows. revert Hc. clear. intros Hc.
    induction metric_data as [|[u x] md IH]; [done|].
    rewrite bind_cons, length_app, IH. cbn [List.filter fst].
    rewrite List.filter_app, length_app, !length_filter_fmap.
    rewrite (length_filter_false _ treatment_users)
      by (intros y; cbn; apply andb_false_r).
    rewrite (length_filter_ext _ (λ y, bool_decide (y = u)) control_users)
      by (intros y; cbn; apply andb_true_r).
    rewrite (occurrences_NoDup u control_users Hc).
    by destruct (bool_decide (u ∈ control_users)). }
  assert (Z.of_nat (length (variant_data "treatment"
                              (merge_assignments metric_data rows))) = nt)
    as Hnt.
  { unfold nt, count_where. f_equal. rewrite variant_data_length.
    unfold rows. revert Ht. clear. intros Ht.
    induction metric_data as [|[u x] md IH]; [done|].
    rewrite bind_cons, length_app, IH. cbn [List.filter fst].
    rewrite List.filter_app, length_app, !length_filter_fmap.
    rewrite (length_filter_false _ control_users)
      by (intros y; cbn; apply andb_false_r).
    rewrite (length_filter_ext _ (λ y, bool_decide (y = u)) treatment_users)
      by (intros y; cbn; apply andb_true_r).
    rewrite (occurrences_NoDup u treatment_users Ht).
    by destruct (bool_decide (u ∈ treatment_users)). }
  rewrite Hnc, Hnt.
  destruct (decide (nc = 0 ∨ nt = 0)) as [Hz|Hnz]; cbn [fst].
  - split; [done|]. intros ? ?. lia.
  - split; [done|]. intros _ _. eexists. split; [reflexivity|].
    cbn [control_n treatment_n]. done.
Qed.

Lemma group_sizes_count_metric_rows_witness :
  NoDup ["a"; "b"; "c"] ∧ NoDup ["d"; "e"; "f"]
  ∧ ∃ r,
      (analyze_results (H := StandIns.approx_numeric)
         (H0 := StandIns.table_stats)
         (create_experiment (new_framework (5 # 100)) "ranking"
            ["a"; "b"; "c"] ["d"; "e"; "f"] "")
         "ranking" example_metric).1 = Return r
      ∧ control_n r = 3 ∧ treatment_n r = 3.
Proof.
  assert (NoDup ["a"; "b"; "c"]) as Hc
    by (apply NoDup_ListNoDup; repeat constructor; simpl;
        intuition discriminate).
  assert (NoDup ["d"; "e"; "f"]) as Ht
    by (apply NoDup_ListNoDup; repeat constructor; simpl;
        intuition discriminate).
  split; [exact Hc|]. split; [exact Ht|].
  destruct (group_sizes_count_metric_rows (H := StandIns.approx_numeric)
              (H0 := StandIns.table_stats) (new_framework (5 # 100))
              "ranking" "" ["a"; "b"; "c"] ["d"; "e"; "f"] example_metric
              Hc Ht) as [_ Hret].
  destruct (Hret ltac:(by vm_compute) ltac:(by vm_compute))
    as (r & Hcall & Hnc & Hnt).
  exists r. split; [exact Hcall|]. split; [exact Hnc|exact Hnt].
Defined.

End ABExtras.
